(** * chitchats-mcp: the transport client, the schemas and the tool dispatcher

    A shallow embedding of the TypeScript sources
    ([client.ts], [schemas.ts], [tools/*.ts], [index.ts]).

    The program is dynamically typed at run time: what the remote host answers
    is whatever [response.json()] produces, and the handlers read it with
    property access, truthiness tests and template literals.  The embedding
    therefore works on JavaScript values and gives each operator the code uses
    its ECMAScript meaning.

    Modelling domain.
    - Strings are byte strings holding well-formed UTF-8.
    - Numbers are the safe integers (below 2^53 in magnitude), on which
      double arithmetic, comparison and [Number.prototype.toString] are exact.
    - What the engine and the libraries decide (the wording of a TypeError,
      the wording of a ZodError, Unicode upper-casing, the numeric value of
      a string) is taken from a [Platform] record. *)

From Stdlib Require Import String Ascii ZArith List Bool Lia DecimalString.
Import ListNotations.
Open Scope string_scope.
Open Scope Z_scope.
Set Warnings "-register-all".

(** ** JavaScript values and completions *)

Inductive value : Type :=
| VUndefined
| VNull
| VBool (b : bool)
| VNum (n : Z)
| VStr (s : string)
| VArr (elems : list value)
| VObj (props : list (string * value)).

(** A thrown value: an instance of [Error] with its message, or anything else. *)
Inductive Thrown : Type :=
| ErrorInstance (message : string)
| NotAnError.

(** How a piece of synchronous code ends. *)
Inductive Completion (A : Type) : Type :=
| Normal (a : A)
| Throw (e : Thrown).
Arguments Normal {A} a.
Arguments Throw {A} e.

Definition cbind {A B} (c : Completion A) (k : A -> Completion B) : Completion B :=
  match c with
  | Normal a => k a
  | Throw e => Throw e
  end.

Declare Scope completion_scope.
Delimit Scope completion_scope with completion.
Notation "x <- c ;; k" := (cbind c (fun x => k))
  (at level 61, c at next level, right associativity) : completion_scope.

(** The reasons the embedded code can raise a TypeError. *)
Inductive TypeErrorKind : Type :=
| CannotReadProperty (base : value) (key : string)
| NotAFunction (expr : string)
| NotIterable (expr : string)
| CannotConvertToPrimitive.

(** ** Issues reported by zod *)

Inductive PathElem : Type :=
| PKey (key : string)
| PIndex (i : nat).

Inductive IssueCode : Type :=
| invalid_type (expected : string) (received : value)
| too_small (minimum : Z)
| too_big (maximum : Z)
| invalid_enum_value (options : list string) (received : string).

Record ZodIssue : Type := {
  code : IssueCode;
  path : list PathElem }.

(** ** What the platform decides *)

Record Platform : Type := {
  (** [message] of a TypeError raised by the engine. *)
  TypeError_message : TypeErrorKind -> string;
  (** [message] of the ZodError that [parse] throws. *)
  ZodError_message : list ZodIssue -> string;
  (** [String.prototype.toUpperCase]. *)
  String_toUpperCase : string -> string;
  (** Whether [ToNumber] of a string is greater than 0. *)
  StringToNumber_positive : string -> bool }.

Module JS.

(** Characters the sources use and a Rocq literal cannot hold. *)
Definition dquote : string := String (ascii_of_nat 34) EmptyString.
Definition nl : string := String (ascii_of_nat 10) EmptyString.

Definition Number_toString (n : Z) : string :=
  NilZero.string_of_int (Z.to_int n).

(** [ToBoolean]. *)
Definition truthy (v : value) : bool :=
  match v with
  | VUndefined | VNull => false
  | VBool b => b
  | VNum n => negb (n =? 0)
  | VStr s => negb (s =? "")%string
  | VArr _ | VObj _ => true
  end.

(** [a || b] and [a ?? b] (both operands are values here). *)
Definition or (a b : value) : value := if truthy a then a else b.

Definition nullish (v : value) : bool :=
  match v with
  | VUndefined | VNull => true
  | _ => false
  end.

Definition coalesce (a b : value) : value := if nullish a then b else a.

Fixpoint own (props : list (string * value)) (key : string) : option value :=
  match props with
  | [] => None
  | (k, v) :: rest => if (k =? key)%string then Some v else own rest key
  end.

(** Number of UTF-16 code units of a UTF-8 byte string. *)
Definition utf16_units (c : ascii) : Z :=
  let b := Z.of_nat (nat_of_ascii c) in
  if b <? 128 then 1
  else if b <? 192 then 0
  else if b <? 240 then 1
  else 2.

Fixpoint utf16_length (s : string) : Z :=
  match s with
  | EmptyString => 0
  | String c rest => utf16_units c + utf16_length rest
  end.

(** [v.key] on a base that is neither [undefined] nor [null].  It is used at
    the property names the sources read, on parsed JSON and on the object
    [parse] returns: data keys and [length], never an array index or a
    method of a prototype. *)
Definition prop (v : value) (key : string) : value :=
  match v with
  | VObj props =>
      match own props key with
      | Some x => x
      | None => VUndefined
      end
  | VArr l => if (key =? "length")%string then VNum (Z.of_nat (length l)) else VUndefined
  | VStr s => if (key =? "length")%string then VNum (utf16_length s) else VUndefined
  | _ => VUndefined
  end.

(** [v?.key]. *)
Definition optprop (v : value) (key : string) : value :=
  if nullish v then VUndefined else prop v key.

(** [v === 0]. *)
Definition is_zero (v : value) : bool :=
  match v with
  | VNum 0 => true
  | _ => false
  end.

(** [v !== undefined]. *)
Definition is_defined (v : value) : bool :=
  match v with
  | VUndefined => false
  | _ => true
  end.

(** [new Set(l)] spread back into an array: SameValueZero, first occurrences
    kept.  Objects and arrays are compared by identity, and two values parsed
    from a response are never the same object. *)
Definition same_value_zero (a b : value) : bool :=
  match a, b with
  | VUndefined, VUndefined => true
  | VNull, VNull => true
  | VBool x, VBool y => Bool.eqb x y
  | VNum x, VNum y => x =? y
  | VStr x, VStr y => (x =? y)%string
  | _, _ => false
  end.

Fixpoint Set_spread_from (seen l : list value) : list value :=
  match l with
  | [] => []
  | x :: rest =>
      if existsb (same_value_zero x) seen then Set_spread_from seen rest
      else x :: Set_spread_from (seen ++ [x])%list rest
  end.

Definition Set_spread (l : list value) : list value := Set_spread_from [] l.

(** [lines.join(sep)] on an array of strings. *)
Definition join (sep : string) (l : list string) : string := String.concat sep l.

(** [JSON.stringify]: QuoteJSONString, then the serialisation of a value.
    A property holding [undefined] is left out, an array element holding
    [undefined] prints as null. *)
Definition hex_lower (d : Z) : ascii :=
  ascii_of_nat (Z.to_nat (if d <? 10 then 48 + d else 87 + d)).

Definition hex_upper (d : Z) : ascii :=
  ascii_of_nat (Z.to_nat (if d <? 10 then 48 + d else 55 + d)).

Definition byte_of (c : ascii) : Z := Z.of_nat (nat_of_ascii c).

Definition quote_char (c : ascii) : string :=
  let b := byte_of c in
  if b =? 34 then "\" ++ dquote
  else if b =? 92 then "\\"
  else if b =? 8 then "\b"
  else if b =? 9 then "\t"
  else if b =? 10 then "\n"
  else if b =? 12 then "\f"
  else if b =? 13 then "\r"
  else if b <? 32 then "\u00" ++ String (hex_lower (b / 16)) (String (hex_lower (b mod 16)) EmptyString)
  else String c EmptyString.

Fixpoint quote_chars (s : string) : string :=
  match s with
  | EmptyString => EmptyString
  | String c rest => quote_char c ++ quote_chars rest
  end.

Definition QuoteJSONString (s : string) : string := dquote ++ quote_chars s ++ dquote.

Fixpoint JSON_stringify (v : value) : option string :=
  match v with
  | VUndefined => None
  | VNull => Some "null"
  | VBool true => Some "true"
  | VBool false => Some "false"
  | VNum n => Some (Number_toString n)
  | VStr s => Some (QuoteJSONString s)
  | VArr l =>
      Some ("[" ++ join "," (map (fun x => match JSON_stringify x with
                                           | Some s => s
                                           | None => "null"
                                           end) l) ++ "]")
  | VObj props =>
      Some ("{" ++ join ","
              ((fix members (ps : list (string * value)) : list string :=
                  match ps with
                  | [] => []
                  | (k, x) :: rest =>
                      match JSON_stringify x with
                      | Some s => (QuoteJSONString k ++ ":" ++ s) :: members rest
                      | None => members rest
                      end
                  end) props) ++ "}")
  end.

(** [URLSearchParams]: [set] and [toString]
    (the application/x-www-form-urlencoded serialiser). *)
Definition URLSearchParams : Type := list (string * string).

Fixpoint URLSearchParams_set (q : URLSearchParams) (name val : string) : URLSearchParams :=
  match q with
  | [] => [(name, val)]
  | (k, v) :: rest =>
      if (k =? name)%string
      then (k, val) :: filter (fun kv => negb (fst kv =? name)%string) rest
      else (k, v) :: URLSearchParams_set rest name val
  end.

Definition urlencode_byte (c : ascii) : string :=
  let b := byte_of c in
  if b =? 32 then "+"
  else if (b =? 42) || (b =? 45) || (b =? 46) || (b =? 95)
          || ((48 <=? b) && (b <=? 57))
          || ((65 <=? b) && (b <=? 90))
          || ((97 <=? b) && (b <=? 122))
  then String c EmptyString
  else String "%"%char (String (hex_upper (b / 16)) (String (hex_upper (b mod 16)) EmptyString)).

Fixpoint urlencode (s : string) : string :=
  match s with
  | EmptyString => EmptyString
  | String c rest => urlencode_byte c ++ urlencode rest
  end.

Definition URLSearchParams_toString (q : URLSearchParams) : string :=
  join "&" (map (fun kv => urlencode (fst kv) ++ "=" ++ urlencode (snd kv)) q).

(** The code points of a string, as its iterator yields them. *)
Definition is_continuation (c : ascii) : bool :=
  (128 <=? byte_of c) && (byte_of c <? 192).

Definition flush (cur : string) : list string :=
  if (cur =? "")%string then [] else [cur].

Fixpoint code_points_from (cur s : string) : list string :=
  match s with
  | EmptyString => flush cur
  | String c rest =>
      if is_continuation c then code_points_from (cur ++ String c EmptyString) rest
      else (flush cur ++ code_points_from (String c EmptyString) rest)%list
  end.

Definition code_points (s : string) : list string := code_points_from EmptyString s.

Fixpoint mapM {A B} (f : A -> Completion B) (l : list A) : Completion (list B) :=
  match l with
  | [] => Normal []
  | x :: rest =>
      (y <- f x ;;
       ys <- mapM f rest ;;
       Normal (y :: ys))%completion
  end.

(** A loop that threads an accumulator (the [lines] array of the handlers). *)
Fixpoint foldM {A S} (f : S -> A -> Completion S) (acc : S) (l : list A) : Completion S :=
  match l with
  | [] => Normal acc
  | x :: rest => (acc' <- f acc x ;; foldM f acc' rest)%completion
  end.

(** The pieces of a template literal: text, a value, a property read, a
    call that yields a string. *)
Inductive Part : Type :=
| T (text : string)
| V (v : value)
| R (base : value) (key : string)
| C (call : Completion string).

Section Engine.
Variable P : Platform.

Definition TypeError {A} (k : TypeErrorKind) : Completion A :=
  Throw (ErrorInstance (TypeError_message P k)).

(** [v.key] on any base. *)
Definition read (v : value) (key : string) : Completion value :=
  if nullish v then TypeError (CannotReadProperty v key) else Normal (prop v key).

Section Join.
Variable elem : value -> Completion string.

(** [Array.prototype.join]: [undefined] and [null] elements print as nothing. *)
Definition join_elem (x : value) : Completion string :=
  if nullish x then Normal "" else elem x.

Fixpoint join_values (sep : string) (l : list value) : Completion string :=
  match l with
  | [] => Normal ""
  | [x] => join_elem x
  | x :: rest =>
      (a <- join_elem x ;;
       b <- join_values sep rest ;;
       Normal (a ++ sep ++ b))%completion
  end.
End Join.

(** [ToString], as a template literal applies it.  An object that carries an
    own [toString] property (never callable in parsed JSON) cannot be
    converted. *)
Fixpoint ToString (v : value) : Completion string :=
  match v with
  | VUndefined => Normal "undefined"
  | VNull => Normal "null"
  | VBool true => Normal "true"
  | VBool false => Normal "false"
  | VNum n => Normal (Number_toString n)
  | VStr s => Normal s
  | VArr l => join_values ToString "," l
  | VObj props =>
      match own props "toString" with
      | Some _ => TypeError CannotConvertToPrimitive
      | None => Normal "[object Object]"
      end
  end.

(** [arr.join(sep)] on an array of values. *)
Definition Array_join (sep : string) (l : list value) : Completion string :=
  join_values ToString sep l.

(** [v > 0]. *)
Definition gt0 (v : value) : Completion bool :=
  match v with
  | VUndefined | VNull => Normal false
  | VBool b => Normal b
  | VNum n => Normal (0 <? n)
  | VStr s => Normal (StringToNumber_positive P s)
  | VArr _ => (s <- ToString v ;; Normal (StringToNumber_positive P s))%completion
  | VObj props =>
      match own props "toString" with
      | Some _ => TypeError CannotConvertToPrimitive
      | None => Normal false
      end
  end.

(** A template literal: its substitutions are evaluated and converted left
    to right. *)
Fixpoint template (parts : list Part) : Completion string :=
  match parts with
  | [] => Normal ""
  | T text :: rest => (r <- template rest ;; Normal (text ++ r))%completion
  | V v :: rest =>
      (a <- ToString v ;; r <- template rest ;; Normal (a ++ r))%completion
  | R base key :: rest =>
      (v <- read base key ;;
       a <- ToString v ;;
       r <- template rest ;;
       Normal (a ++ r))%completion
  | C call :: rest =>
      (a <- call ;; r <- template rest ;; Normal (a ++ r))%completion
  end.

(** [for (const x of v)]. *)
Definition iterate (expr : string) (v : value) : Completion (list value) :=
  match v with
  | VArr l => Normal l
  | VStr s => Normal (map VStr (code_points s))
  | _ => TypeError (NotIterable expr)
  end.

(** The receiver of [v.map(...)], an array method. *)
Definition array_receiver (expr method : string) (v : value) : Completion (list value) :=
  match v with
  | VArr l => Normal l
  | VUndefined | VNull => TypeError (CannotReadProperty v method)
  | _ => TypeError (NotAFunction (expr ++ "." ++ method))
  end.

(** [v.toUpperCase()]. *)
Definition call_toUpperCase (expr : string) (v : value) : Completion string :=
  match v with
  | VStr s => Normal (String_toUpperCase P s)
  | VUndefined | VNull => TypeError (CannotReadProperty v "toUpperCase")
  | _ => TypeError (NotAFunction (expr ++ ".toUpperCase"))
  end.

(** [v.toString()]. *)
Definition call_toString (expr : string) (v : value) : Completion string :=
  match v with
  | VUndefined | VNull => TypeError (CannotReadProperty v "toString")
  | VObj props =>
      match own props "toString" with
      | Some _ => TypeError (NotAFunction (expr ++ ".toString"))
      | None => Normal "[object Object]"
      end
  | _ => ToString v
  end.

(** [lines.push(item)] when [cond] holds. *)
Definition push_if (cond : bool) (lines : list string) (item : Completion string)
  : Completion (list string) :=
  if cond then (x <- item ;; Normal (lines ++ [x])%list)%completion else Normal lines.

Definition push (lines : list string) (item : Completion string)
  : Completion (list string) :=
  push_if true lines item.

(** [v && v.length > 0]. *)
Definition nonempty (v : value) : Completion bool :=
  if truthy v then gt0 (prop v "length") else Normal false.

(** [if (v) queryParams.set(name, text)]. *)
Definition set_if (q : URLSearchParams) (name : string) (v : value)
  (text : Completion string) : Completion URLSearchParams :=
  if truthy v then (s <- text ;; Normal (URLSearchParams_set q name s))%completion
  else Normal q.

(** [if (v) body.name = v]. *)
Definition assign_if (body : list (string * value)) (name : string) (v : value)
  : list (string * value) :=
  if truthy v then (body ++ [(name, v)])%list else body.

End Engine.

(** [`${path}${query ? `?${query}` : ""}`]. *)
Definition with_query (path : string) (q : URLSearchParams) : string :=
  let query := URLSearchParams_toString q in
  path ++ (if (query =? "")%string then "" else "?" ++ query).

End JS.

(** ** The network: [fetch] and asynchronous code *)

Module Fetch.

(** What [fetch] is called with.  [fetch(url)] alone is a GET without
    headers or body. *)
Record Request : Type := {
  url : string;
  method : string;
  headers : list (string * string);
  body : option string }.

(** The part of a [Response] the client reads. *)
Record Response : Type := {
  status : Z;
  headers_get : string -> option string;
  json : Completion value }.

Definition ok (r : Response) : bool := (200 <=? status r) && (status r <=? 299).

(** The remote host and the network in front of it: every request is
    answered with a response, or [fetch] rejects. *)
Definition Remote : Type := Request -> Completion Response.

(** Code that awaits: it reads the remote and appends to the log of the
    requests sent. *)
Definition Async (A : Type) : Type :=
  Remote -> list Request -> Completion A * list Request.

Definition ret {A} (a : A) : Async A := fun _ log => (Normal a, log).

Definition bind {A B} (c : Async A) (k : A -> Async B) : Async B :=
  fun remote log =>
    match c remote log with
    | (Normal a, log') => k a remote log'
    | (Throw e, log') => (Throw e, log')
    end.

Definition lift {A} (c : Completion A) : Async A := fun _ log => (c, log).

Definition catch {A} (c : Async A) (handler : Thrown -> Async A) : Async A :=
  fun remote log =>
    match c remote log with
    | (Normal a, log') => (Normal a, log')
    | (Throw e, log') => handler e remote log'
    end.

Definition fetch (req : Request) : Async Response :=
  fun remote log => (remote req, (log ++ [req])%list).

(** One run from an empty log. *)
Definition run {A} (c : Async A) (remote : Remote) : Completion A * list Request :=
  c remote [].

End Fetch.

Declare Scope async_scope.
Delimit Scope async_scope with async.
Notation "x <- c ;; k" := (Fetch.bind c (fun x => k))
  (at level 61, c at next level, right associativity) : async_scope.

(** ** client.ts *)

Module Client.
Import JS Fetch.

(** The three environment variables the module reads. *)
Record Env : Type := {
  CHITCHATS_CLIENT_ID : option string;
  CHITCHATS_ACCESS_TOKEN : option string;
  CHITCHATS_BASE_URL : option string }.

(** [x || fallback] and [!x] on a string that may be undefined. *)
Definition or_else (x : option string) (fallback : string) : string :=
  match x with
  | Some s => if (s =? "")%string then fallback else s
  | None => fallback
  end.


(** [`${x}`] on a string that may be undefined. *)
Definition interpolate (x : option string) : string :=
  match x with
  | Some s => s
  | None => "undefined"
  end.

Record ApiResponse : Type := {
  data : value;
  error : value;
  status : Z }.

Record ChitChatsClient : Type := {
  baseUrl : string;
  clientId : string;
  accessToken : string }.

Section WithEnv.
Variable P : Platform.
Variable env : Env.

Definition CLIENT_ID : option string := CHITCHATS_CLIENT_ID env.
Definition ACCESS_TOKEN : option string := CHITCHATS_ACCESS_TOKEN env.
Definition BASE_URL : string := or_else (CHITCHATS_BASE_URL env) "https://chitchats.com".


(** [new ChitChatsClient()]. *)
Definition new_ChitChatsClient : ChitChatsClient :=
  {| baseUrl := BASE_URL ++ "/api/v1/clients/" ++ interpolate CLIENT_ID;
     clientId := or_else CLIENT_ID "";
     accessToken := or_else ACCESS_TOKEN "" |}.

Definition err_message (err : Thrown) : string :=
  match err with
  | ErrorInstance message => message
  | NotAnError => "Unknown error"
  end.

Definition request (this : ChitChatsClient) (method endpoint : string) (body : value)
  : Async ApiResponse :=
  let url := baseUrl this ++ endpoint in
  let headers := [("Authorization", accessToken this); ("Accept", "application/json")] in
  let headers :=
    if truthy body then (headers ++ [("Content-Type", "application/json")])%list
    else headers in
  catch
    (response <- fetch {| Fetch.url := url;
                          Fetch.method := method;
                          Fetch.headers := headers;
                          Fetch.body := if truthy body then JSON_stringify body else None |} ;;
     if Fetch.status response =? 429 then
       let retryAfter :=
         match headers_get response "Retry-After" with
         | Some s => VStr s
         | None => VNull
         end in
       text <- lift (template P [T "Rate limited. Retry after ";
                                 V (or retryAfter (VStr "unknown"));
                                 T " seconds."]) ;;
       ret {| data := VUndefined; error := VStr text; status := 429 |}
     else if Fetch.status response =? 204 then
       ret {| data := VUndefined; error := VUndefined; status := 204 |}
     else
       data <- lift (json response) ;;
       if negb (ok response) then
         e <- lift (data_error <- read P data "error" ;;
                    if truthy data_error then Normal data_error
                    else
                      data_message <- read P data "message" ;;
                      if truthy data_message then Normal data_message
                      else
                        text <- template P [T "HTTP "; V (VNum (Fetch.status response))] ;;
                        Normal (VStr text))%completion ;;
         ret {| data := VUndefined; error := e; status := Fetch.status response |}
       else
         ret {| data := data; error := VUndefined; status := Fetch.status response |})%async
    (fun err =>
       ret {| data := VUndefined; error := VStr (err_message err); status := 500 |}).

Definition get (this : ChitChatsClient) (endpoint : string) : Async ApiResponse :=
  request this "GET" endpoint VUndefined.

Definition post (this : ChitChatsClient) (endpoint : string) (body : value)
  : Async ApiResponse :=
  request this "POST" endpoint body.

Definition patch (this : ChitChatsClient) (endpoint : string) (body : value)
  : Async ApiResponse :=
  request this "PATCH" endpoint body.

Definition delete (this : ChitChatsClient) (endpoint : string) : Async ApiResponse :=
  request this "DELETE" endpoint VUndefined.

(** Public tracking endpoint (no auth needed). *)
Definition getPublicTracking (shipmentId : value) : Async ApiResponse :=
  catch
    (url <- lift (template P [T BASE_URL; T "/tracking/"; V shipmentId; T ".json"]) ;;
     response <- fetch {| Fetch.url := url;
                          Fetch.method := "GET";
                          Fetch.headers := [];
                          Fetch.body := None |} ;;
     data <- lift (json response) ;;
     ret {| data := data; error := VUndefined; status := Fetch.status response |})%async
    (fun err =>
       ret {| data := VUndefined; error := VStr (err_message err); status := 500 |}).

(** [export const client = new ChitChatsClient()]. *)
Definition client : ChitChatsClient := new_ChitChatsClient.

End WithEnv.
End Client.

(** ** zod, as schemas.ts uses it *)

Module Zod.
Import JS.

Inductive NumberCheck : Type :=
| min (m : Z)
| max (m : Z).

(** [z.string()], [z.number()] with its checks, [z.enum([...])],
    [z.array(...)] and [.optional()]; [.describe(...)] only documents. *)
Inductive ZodType : Type :=
| string_ : ZodType
| number_ (checks : list NumberCheck)
| enum_ (options : list string)
| array_ (item : ZodType)
| optional_ (inner : ZodType).

(** [z.object({...})]: the shape, in declaration order. *)
Definition ZodObject : Type := list (string * ZodType).

Definition issue (c : IssueCode) (p : list PathElem) : ZodIssue :=
  {| code := c; path := p |}.

Definition check_number (p : list PathElem) (n : Z) (c : NumberCheck) : list ZodIssue :=
  match c with
  | min m => if n <? m then [issue (too_small m) p] else []
  | max m => if m <? n then [issue (too_big m) p] else []
  end.

Fixpoint indexed {A} (i : nat) (l : list A) : list (nat * A) :=
  match l with
  | [] => []
  | x :: rest => (i, x) :: indexed (S i) rest
  end.

(** The issues a value raises against a type; none means it is accepted,
    and then the parsed value is the value itself. *)
Fixpoint check (t : ZodType) (p : list PathElem) (v : value) : list ZodIssue :=
  match t with
  | string_ =>
      match v with
      | VStr _ => []
      | _ => [issue (invalid_type "string" v) p]
      end
  | number_ checks =>
      match v with
      | VNum n => flat_map (check_number p n) checks
      | _ => [issue (invalid_type "number" v) p]
      end
  | enum_ options =>
      match v with
      | VStr s =>
          if existsb (String.eqb s) options then []
          else [issue (invalid_enum_value options s) p]
      | _ => [issue (invalid_type "enum" v) p]
      end
  | array_ item =>
      match v with
      | VArr l =>
          flat_map (fun ix => check item (p ++ [PIndex (fst ix)])%list (snd ix)) (indexed 0 l)
      | _ => [issue (invalid_type "array" v) p]
      end
  | optional_ inner =>
      match v with
      | VUndefined => []
      | _ => check inner p v
      end
  end.

(** The value of a key in the input: [undefined] when the key is missing. *)
Definition field (props : list (string * value)) (key : string) : value :=
  match own props key with
  | Some v => v
  | None => VUndefined
  end.

Definition object_issues (shape : ZodObject) (props : list (string * value))
  : list ZodIssue :=
  flat_map (fun kt => check (snd kt) [PKey (fst kt)] (field props (fst kt))) shape.

(** The parsed object: the declared keys the input carries, in declaration
    order; every other key of the input is stripped. *)
Fixpoint object_output (shape : ZodObject) (props : list (string * value))
  : list (string * value) :=
  match shape with
  | [] => []
  | (k, _) :: rest =>
      match own props k with
      | Some v => (k, v) :: object_output rest props
      | None => object_output rest props
      end
  end.

Section Parse.
Variable P : Platform.

Definition ZodError {A} (issues : list ZodIssue) : Completion A :=
  Throw (ErrorInstance (ZodError_message P issues)).

(** [schema.parse(input)]. *)
Definition parse (shape : ZodObject) (input : value) : Completion value :=
  match input with
  | VObj props =>
      match object_issues shape props with
      | [] => Normal (VObj (object_output shape props))
      | issues => ZodError issues
      end
  | _ => ZodError [issue (invalid_type "object" input) []]
  end.

End Parse.
End Zod.

(** ** schemas.ts *)

Module Schemas.
Import Zod.

Definition ListShipmentsSchema : ZodObject :=
  [ ("limit", optional_ (number_ [min 1; max 1000]));
    ("page", optional_ (number_ [min 1]));
    ("batch_id", optional_ string_);
    ("status", optional_ string_);
    ("from_date", optional_ string_);
    ("to_date", optional_ string_);
    ("search", optional_ string_) ].

Definition GetShipmentSchema : ZodObject := [ ("id", string_) ].

Definition CreateShipmentSchema : ZodObject :=
  [ ("name", string_);
    ("address_1", string_);
    ("address_2", optional_ string_);
    ("city", string_);
    ("province_code", string_);
    ("postal_code", string_);
    ("country_code", string_);
    ("phone", optional_ string_);
    ("email", optional_ string_);
    ("package_type", optional_ (enum_ ["parcel"; "thick_envelope"; "flat_rate_envelope"]));
    ("size_unit", optional_ (enum_ ["cm"; "in"]));
    ("size_x", optional_ (number_ []));
    ("size_y", optional_ (number_ []));
    ("size_z", optional_ (number_ []));
    ("weight_unit", optional_ (enum_ ["g"; "kg"; "oz"; "lb"]));
    ("weight", optional_ (number_ []));
    ("description", optional_ string_);
    ("value", optional_ (number_ []));
    ("value_currency", optional_ (enum_ ["CAD"; "USD"]));
    ("order_id", optional_ string_);
    ("order_store", optional_ string_);
    ("postage_type", optional_ string_) ].

Definition DeleteShipmentSchema : ZodObject := [ ("id", string_) ].
Definition BuyPostageSchema : ZodObject := [ ("id", string_) ].
Definition RefundShipmentSchema : ZodObject := [ ("id", string_) ].

Definition RefreshRatesSchema : ZodObject :=
  [ ("id", string_);
    ("size_x", optional_ (number_ []));
    ("size_y", optional_ (number_ []));
    ("size_z", optional_ (number_ []));
    ("weight", optional_ (number_ [])) ].

Definition CountShipmentsSchema : ZodObject := [ ("status", optional_ string_) ].

Definition ListBatchesSchema : ZodObject :=
  [ ("limit", optional_ (number_ [min 1; max 1000]));
    ("page", optional_ (number_ [min 1]));
    ("status", optional_ (enum_ ["pending"; "received"])) ].

Definition CreateBatchSchema : ZodObject := [ ("description", optional_ string_) ].
Definition GetBatchSchema : ZodObject := [ ("id", string_) ].
Definition DeleteBatchSchema : ZodObject := [ ("id", string_) ].

Definition AddToBatchSchema : ZodObject :=
  [ ("batch_id", string_);
    ("shipment_ids", array_ string_) ].

Definition RemoveFromBatchSchema : ZodObject := [ ("shipment_ids", array_ string_) ].

Definition CountBatchesSchema : ZodObject :=
  [ ("status", optional_ (enum_ ["pending"; "received"])) ].

Definition ListReturnsSchema : ZodObject :=
  [ ("limit", optional_ (number_ [min 1; max 1000]));
    ("page", optional_ (number_ [min 1]));
    ("status", optional_ string_);
    ("reason", optional_ string_) ].

Definition TrackShipmentSchema : ZodObject := [ ("id", string_) ].

End Schemas.

(** ** tools/shipments.ts *)

Module Shipments.
Import JS Fetch.

Section Handlers.
Variable P : Platform.
Variable env : Client.Env.

Local Abbreviation client := (Client.client env).
Local Abbreviation tpl := (template P).
Local Open Scope completion_scope.
Local Open Scope list_scope.

Definition sep : string := (nl ++ nl ++ "---" ++ nl ++ nl)%string.

(** The callback of [shipments.map] in [listShipments]. *)
Definition listShipments_entry (s : value) : Completion string :=
  l1 <- tpl [T "ID: "; R s "id"] ;;
  l2 <- tpl [T "Status: "; R s "status"] ;;
  l3 <- tpl [T "Recipient: "; R s "to_name"; T ", "; R s "to_city"; T ", ";
             R s "to_province_code"; T ", "; R s "to_country_code"] ;;
  let lines := [l1; l2; l3] in
  lines <- push_if (truthy (prop s "order_id")) lines (tpl [T "Order ID: "; R s "order_id"]) ;;
  lines <- push_if (truthy (prop s "carrier")) lines (tpl [T "Carrier: "; R s "carrier"]) ;;
  lines <- push_if (truthy (prop s "postage_type")) lines
             (tpl [T "Postage Type: "; R s "postage_type"]) ;;
  lines <- push_if (truthy (prop s "purchase_amount")) lines
             (tpl [T "Total Cost: $"; R s "purchase_amount"]) ;;
  lines <- push_if (truthy (prop s "carrier_tracking_code")) lines
             (tpl [T "Tracking: "; R s "carrier_tracking_code"]) ;;
  has_items <- nonempty P (prop s "line_items") ;;
  lines <- (if has_items then
              items <- array_receiver P "s.line_items" "map" (prop s "line_items") ;;
              codes <- mapM (fun li => read P li "hs_tariff_code") items ;;
              let hsCodes := Set_spread (filter truthy codes) in
              push_if (0 <? Z.of_nat (length hsCodes)) lines
                (tpl [T "HS Codes: "; C (Array_join P ", " hsCodes)])
            else Normal lines) ;;
  lines <- push_if (truthy (prop s "created_at")) lines
             (tpl [T "Created: "; R s "created_at"]) ;;
  Normal (join nl lines).

(** What [listShipments] does once the response is there. *)
Definition listShipments_format (response : Client.ApiResponse) : Completion string :=
  if truthy (Client.error response) then
    tpl [T "Error listing shipments: "; V (Client.error response)]
  else
    let shipments := or (Client.data response) (VArr []) in
    if is_zero (prop shipments "length") then
      Normal "No shipments found matching your criteria."
    else
      items <- array_receiver P "shipments" "map" shipments ;;
      formatted <- mapM listShipments_entry items ;;
      tpl [T "Found "; R shipments "length"; T (" shipment(s):" ++ nl ++ nl)%string;
           T (join sep formatted)].

(** The query string and the endpoint of [listShipments]. *)
Definition listShipments_endpoint (params : value) : Completion string :=
  limit <- read P params "limit" ;;
  q <- set_if [] "limit" limit (call_toString P "params.limit" limit) ;;
  q <- set_if q "page" (prop params "page")
         (call_toString P "params.page" (prop params "page")) ;;
  q <- set_if q "batch_id" (prop params "batch_id") (ToString P (prop params "batch_id")) ;;
  q <- set_if q "status" (prop params "status") (ToString P (prop params "status")) ;;
  q <- set_if q "from_date" (prop params "from_date") (ToString P (prop params "from_date")) ;;
  q <- set_if q "to_date" (prop params "to_date") (ToString P (prop params "to_date")) ;;
  q <- set_if q "search" (prop params "search") (ToString P (prop params "search")) ;;
  Normal (with_query "/shipments" q).

Definition listShipments (params : value) : Async string :=
  (endpoint <- lift (listShipments_endpoint params) ;;
   response <- Client.get P client endpoint ;;
   lift (listShipments_format response))%async.

(** One turn of the loop over [s.line_items] in [getShipment]. *)
Definition getShipment_item (lines : list string) (item : value)
  : Completion (list string) :=
  lines <- push lines (tpl [T "**"; R item "quantity"; T "x "; R item "description"; T "**"]) ;;
  lines <- push lines
             (tpl [T "  - Value: $"; R item "value_amount"; T " ";
                   C (code <- read P item "currency_code" ;;
                      call_toUpperCase P "item.currency_code" code)]) ;;
  lines <- push_if (truthy (prop item "hs_tariff_code")) lines
             (tpl [T "  - HS Code: "; R item "hs_tariff_code"]) ;;
  lines <- push_if (truthy (prop item "sku_code")) lines
             (tpl [T "  - SKU: "; R item "sku_code"]) ;;
  lines <- push_if (truthy (prop item "origin_country")) lines
             (tpl [T "  - Origin: "; R item "origin_country"]) ;;
  lines <- push_if (truthy (prop item "weight")) lines
             (tpl [T "  - Weight: "; R item "weight"; T " ";
                   V (or (prop item "weight_unit") (VStr "g"))]) ;;
  if truthy (prop item "manufacturer_id") then
    lines <- push lines (tpl [T "  - Manufacturer ID: "; R item "manufacturer_id"]) ;;
    push_if (truthy (prop item "manufacturer_city")) lines
      (tpl [T "  - Manufacturer: "; R item "manufacturer_city"; T ", ";
            V (or (prop item "manufacturer_province_code") (VStr ""))])
  else Normal lines.

(** One turn of the loop over [s.rates] in [getShipment]. *)
Definition getShipment_rate (lines : list string) (rate : value)
  : Completion (list string) :=
  lines <- push lines
             (tpl [T "**"; R rate "postage_description"; T "** ("; R rate "postage_type";
                   T ")"]) ;;
  lines <- push lines
             (tpl [T "  - Cost: $";
                   V (or (prop rate "payment_amount") (prop rate "purchase_amount"))]) ;;
  lines <- push_if (truthy (prop rate "delivery_time_description")) lines
             (tpl [T "  - Delivery: "; R rate "delivery_time_description"]) ;;
  lines <- push_if (truthy (prop rate "tracking_type_description")) lines
             (tpl [T "  - Tracking: "; R rate "tracking_type_description"]) ;;
  push_if (truthy (prop rate "tariff_fee")) lines
    (tpl [T "  - Tariff: $"; R rate "tariff_fee"]).

Definition services_of (s : value) : list string :=
  let services := [] in
  let services := if truthy (prop s "is_insured") then services ++ ["Insured"] else services in
  let services :=
    if truthy (prop s "is_signature_requested") then services ++ ["Signature Required"]
    else services in
  let services :=
    if truthy (prop s "is_delivery_duties_paid_requested") then services ++ ["DDP"]
    else services in
  if truthy (prop s "is_media_mail_requested") then services ++ ["Media Mail"]
  else services.

(** [getShipment] from the point where [s] is known to be truthy. *)
Definition getShipment_render (s : value) : Completion string :=
  l1 <- tpl [T "## Shipment "; R s "id"] ;;
  l3 <- tpl [T "**Status:** "; R s "status"] ;;
  let lines := [l1; ""; l3] in
  lines <- push_if (truthy (prop s "order_id")) lines (tpl [T "**Order ID:** "; R s "order_id"]) ;;
  lines <- push_if (truthy (prop s "order_store")) lines
             (tpl [T "**Store:** "; R s "order_store"]) ;;
  lines <- push_if (truthy (prop s "batch_id")) lines
             (tpl [T "**Batch ID:** "; R s "batch_id"]) ;;
  let lines := lines ++ [""; "### Recipient"] in
  lines <- push lines (tpl [T "**Name:** "; R s "to_name"]) ;;
  lines <- push_if (truthy (prop s "to_address_1")) lines
             (tpl ([T "**Address:** "; R s "to_address_1"]
                   ++ (if truthy (prop s "to_address_2")
                       then [T ", "; R s "to_address_2"] else [T ""]))) ;;
  lines <- push lines
             (tpl [T "**City:** "; R s "to_city"; T ", "; R s "to_province_code"; T " ";
                   V (or (prop s "to_postal_code") (VStr ""))]) ;;
  lines <- push lines (tpl [T "**Country:** "; R s "to_country_code"]) ;;
  lines <- push_if (truthy (prop s "to_phone")) lines (tpl [T "**Phone:** "; R s "to_phone"]) ;;
  lines <- push_if (truthy (prop s "to_email")) lines (tpl [T "**Email:** "; R s "to_email"]) ;;
  let lines := lines ++ [""; "### Package"] in
  lines <- push_if (truthy (prop s "package_type")) lines
             (tpl [T "**Type:** "; R s "package_type"]) ;;
  lines <- push_if (truthy (prop s "package_contents")) lines
             (tpl [T "**Contents Type:** "; R s "package_contents"]) ;;
  lines <- push_if (truthy (prop s "description")) lines
             (tpl [T "**Description:** "; R s "description"]) ;;
  lines <- push_if (truthy (prop s "size_x") && truthy (prop s "size_y")
                    && truthy (prop s "size_z")) lines
             (tpl [T "**Dimensions:** "; R s "size_x"; T " x "; R s "size_y"; T " x ";
                   R s "size_z"; T " "; V (or (prop s "size_unit") (VStr ""))]) ;;
  lines <- push_if (truthy (prop s "weight")) lines
             (tpl [T "**Weight:** "; R s "weight"; T " ";
                   V (or (prop s "weight_unit") (VStr ""))]) ;;
  lines <- push_if (truthy (prop s "value")) lines
             (tpl [T "**Declared Value:** $"; R s "value"; T " ";
                   V (or (prop s "value_currency") (VStr ""))]) ;;
  let services := services_of s in
  lines <- push_if (0 <? Z.of_nat (length services)) lines
             (tpl [T "**Services:** "; T (join ", " services)]) ;;
  let lines := lines ++ [""; "### Shipping"] in
  lines <- push_if (truthy (prop s "carrier")) lines (tpl [T "**Carrier:** "; R s "carrier"]) ;;
  lines <- push_if (truthy (prop s "postage_type")) lines
             (tpl [T "**Postage Type:** "; R s "postage_type"]) ;;
  lines <- push_if (truthy (prop s "carrier_tracking_code")) lines
             (tpl [T "**Tracking Number:** "; R s "carrier_tracking_code"]) ;;
  lines <- push_if (truthy (prop s "tracking_url")) lines
             (tpl [T "**Tracking URL:** "; R s "tracking_url"]) ;;
  lines <- push_if (truthy (prop s "ship_date")) lines
             (tpl [T "**Ship Date:** "; R s "ship_date"]) ;;
  let lines := lines ++ [""; "### Cost Breakdown"] in
  lines <- push_if (truthy (prop s "purchase_amount")) lines
             (tpl [T "**Total Paid:** $"; R s "purchase_amount"]) ;;
  lines <- push_if (truthy (prop s "postage_fee")) lines
             (tpl [T "- Postage: $"; R s "postage_fee"]) ;;
  lines <- push_if (truthy (prop s "tariff_fee")) lines
             (tpl [T "- Tariff/Duty: $"; R s "tariff_fee"]) ;;
  lines <- push_if (truthy (prop s "broker_conveyance_fee")) lines
             (tpl [T "- Broker Fee: $"; R s "broker_conveyance_fee"]) ;;
  lines <- push_if (truthy (prop s "shipment_items_fee")) lines
             (tpl [T "- Items Fee: $"; R s "shipment_items_fee"]) ;;
  lines <- push_if (truthy (prop s "insurance_fee")) lines
             (tpl [T "- Insurance: $"; R s "insurance_fee"]) ;;
  lines <- push_if (truthy (prop s "delivery_fee")) lines
             (tpl [T "- Delivery: $"; R s "delivery_fee"]) ;;
  lines <- push_if (truthy (prop s "fda_prior_notification_fee")) lines
             (tpl [T "- FDA Fee: $"; R s "fda_prior_notification_fee"]) ;;
  lines <- push_if (truthy (prop s "federal_tax")) lines
             (tpl [T "- "; V (or (prop s "federal_tax_label") (VStr "Federal Tax")); T ": $";
                   R s "federal_tax"]) ;;
  lines <- push_if (truthy (prop s "provincial_tax")) lines
             (tpl [T "- "; V (or (prop s "provincial_tax_label") (VStr "Provincial Tax"));
                   T ": $"; R s "provincial_tax"]) ;;
  has_items <- nonempty P (prop s "line_items") ;;
  lines <- (if has_items then
              items <- iterate P "s.line_items" (prop s "line_items") ;;
              foldM getShipment_item (lines ++ [""; "### Line Items"]) items
            else Normal lines) ;;
  has_rates <- nonempty P (prop s "rates") ;;
  lines <- (if has_rates then
              rates <- iterate P "s.rates" (prop s "rates") ;;
              foldM getShipment_rate (lines ++ [""; "### Available Rates"]) rates
            else Normal lines) ;;
  lines <- (if truthy (prop s "postage_label_png_url") || truthy (prop s "postage_label_pdf_url")
            then
              let lines := lines ++ [""; "### Labels"] in
              lines <- push_if (truthy (prop s "postage_label_png_url")) lines
                         (tpl [T "- PNG: "; R s "postage_label_png_url"]) ;;
              lines <- push_if (truthy (prop s "postage_label_pdf_url")) lines
                         (tpl [T "- PDF: "; R s "postage_label_pdf_url"]) ;;
              push_if (truthy (prop s "postage_label_zpl_url")) lines
                (tpl [T "- ZPL: "; R s "postage_label_zpl_url"])
            else Normal lines) ;;
  lines <- (if truthy (prop s "return_name") then
              let lines := lines ++ [""; "### Return Address"] in
              lines <- push lines (tpl [R s "return_name"]) ;;
              lines <- push_if (truthy (prop s "return_address_1")) lines
                         (tpl [R s "return_address_1"]) ;;
              lines <- push lines
                         (tpl [R s "return_city"; T ", "; R s "return_province_code"; T " ";
                               R s "return_postal_code"]) ;;
              push lines (tpl [R s "return_country_code"])
            else Normal lines) ;;
  created <- tpl [T "**Created:** "; R s "created_at"] ;;
  Normal (join nl (lines ++ [""; created])).

Definition getShipment_format (params : value) (response : Client.ApiResponse)
  : Completion string :=
  if truthy (Client.error response) then
    tpl [T "Error getting shipment: "; V (Client.error response)]
  else
    let s := optprop (Client.data response) "shipment" in
    if negb (truthy s) then tpl [T "Shipment "; R params "id"; T " not found."]
    else getShipment_render s.

Definition getShipment (params : value) : Async string :=
  (endpoint <- lift (tpl [T "/shipments/"; R params "id"]) ;;
   response <- Client.get P client endpoint ;;
   lift (getShipment_format params response))%async.

(** [getShipmentRates]: one turn of the loop over [s.rates]. *)
Definition getShipmentRates_rate (lines : list string) (rate : value)
  : Completion (list string) :=
  lines <- push lines (tpl [T "### "; R rate "postage_description"]) ;;
  lines <- push lines (tpl [T "- **Type:** "; R rate "postage_type"]) ;;
  lines <- push lines (tpl [T "- **Carrier:** "; R rate "postage_carrier_type"]) ;;
  lines <- push lines
             (tpl [T "- **Total Cost:** $";
                   V (or (prop rate "payment_amount") (prop rate "purchase_amount"))]) ;;
  lines <- push lines (tpl [T "  - Postage: $"; R rate "postage_fee"]) ;;
  lines <- push_if (truthy (prop rate "tariff_fee")) lines
             (tpl [T "  - Tariff: $"; R rate "tariff_fee"]) ;;
  lines <- push_if (truthy (prop rate "broker_conveyance_fee")) lines
             (tpl [T "  - Broker: $"; R rate "broker_conveyance_fee"]) ;;
  lines <- push_if (truthy (prop rate "shipment_items_fee")) lines
             (tpl [T "  - Items Fee: $"; R rate "shipment_items_fee"]) ;;
  lines <- push_if (truthy (prop rate "insurance_fee")) lines
             (tpl [T "  - Insurance: $"; R rate "insurance_fee"]) ;;
  lines <- push_if (truthy (prop rate "delivery_time_description")) lines
             (tpl [T "- **Delivery:** "; R rate "delivery_time_description"]) ;;
  lines <- push_if (truthy (prop rate "tracking_type_description")) lines
             (tpl [T "- **Tracking:** "; R rate "tracking_type_description"]) ;;
  lines <- push_if (truthy (prop rate "is_insured")) lines (Normal "- **Insured:** Yes") ;;
  Normal (lines ++ [""]).

Definition getShipmentRates_format (params : value) (response : Client.ApiResponse)
  : Completion string :=
  if truthy (Client.error response) then
    tpl [T "Error getting shipment rates: "; V (Client.error response)]
  else
    let s := optprop (Client.data response) "shipment" in
    if negb (truthy s) then tpl [T "Shipment "; R params "id"; T " not found."]
    else if negb (truthy (prop s "rates")) || is_zero (prop (prop s "rates") "length") then
      tpl [T "No rates available for shipment "; R params "id";
           T ". The shipment may already have postage purchased."]
    else
      l1 <- tpl [T "## Available Rates for Shipment "; R s "id"] ;;
      l3 <- tpl [T "Destination: "; R s "to_city"; T ", "; R s "to_province_code"; T ", ";
                 R s "to_country_code"] ;;
      l4 <- tpl [T "Package: "; V (or (prop s "weight") (VStr "?")); T " ";
                 V (or (prop s "weight_unit") (VStr "g")); T ", ";
                 V (or (prop s "size_x") (VStr "?")); T "x";
                 V (or (prop s "size_y") (VStr "?")); T "x";
                 V (or (prop s "size_z") (VStr "?")); T " ";
                 V (or (prop s "size_unit") (VStr ""))] ;;
      rates <- iterate P "s.rates" (prop s "rates") ;;
      lines <- foldM getShipmentRates_rate [l1; ""; l3; l4; ""] rates ;;
      Normal (join nl lines).

Definition getShipmentRates (params : value) : Async string :=
  (endpoint <- lift (tpl [T "/shipments/"; R params "id"]) ;;
   response <- Client.get P client endpoint ;;
   lift (getShipmentRates_format params response))%async.

Definition getShipmentLabels_format (params : value) (response : Client.ApiResponse)
  : Completion string :=
  if truthy (Client.error response) then
    tpl [T "Error getting shipment labels: "; V (Client.error response)]
  else
    let s := optprop (Client.data response) "shipment" in
    if negb (truthy s) then tpl [T "Shipment "; R params "id"; T " not found."]
    else if negb (truthy (prop s "postage_label_png_url"))
            && negb (truthy (prop s "postage_label_pdf_url")) then
      tpl [T "No labels available for shipment "; R params "id";
           T ". Postage may not have been purchased yet."]
    else
      l1 <- tpl [T "## Labels for Shipment "; R s "id"] ;;
      l3 <- tpl [T "Order: "; V (or (prop s "order_id") (VStr "N/A"))] ;;
      l4 <- tpl [T "Recipient: "; R s "to_name"; T ", "; R s "to_city"; T ", ";
                 R s "to_country_code"] ;;
      l5 <- tpl [T "Carrier: "; V (or (prop s "carrier") (VStr "N/A"))] ;;
      l6 <- tpl [T "Tracking: "; V (or (prop s "carrier_tracking_code") (VStr "N/A"))] ;;
      let lines := [l1; ""; l3; l4; l5; l6; ""; "### Download URLs"] in
      lines <- push_if (truthy (prop s "postage_label_png_url")) lines
                 (tpl [T "- **PNG:** "; R s "postage_label_png_url"]) ;;
      lines <- push_if (truthy (prop s "postage_label_pdf_url")) lines
                 (tpl [T "- **PDF:** "; R s "postage_label_pdf_url"]) ;;
      lines <- push_if (truthy (prop s "postage_label_zpl_url")) lines
                 (tpl [T "- **ZPL:** "; R s "postage_label_zpl_url"]) ;;
      Normal (join nl lines).

Definition getShipmentLabels (params : value) : Async string :=
  (endpoint <- lift (tpl [T "/shipments/"; R params "id"]) ;;
   response <- Client.get P client endpoint ;;
   lift (getShipmentLabels_format params response))%async.

(** [getShipmentLineItems]: one turn of the loop over [s.line_items]. *)
Definition getShipmentLineItems_item (lines : list string) (item : value)
  : Completion (list string) :=
  lines <- push lines (tpl [T "### "; R item "description"]) ;;
  lines <- push lines (tpl [T "- **Quantity:** "; R item "quantity"]) ;;
  lines <- push lines
             (tpl [T "- **Value:** $"; R item "value_amount"; T " ";
                   C (code <- read P item "currency_code" ;;
                      call_toUpperCase P "item.currency_code" code)]) ;;
  lines <- push_if (truthy (prop item "hs_tariff_code")) lines
             (tpl [T "- **HS Tariff Code:** "; R item "hs_tariff_code"]) ;;
  lines <- push_if (truthy (prop item "sku_code")) lines
             (tpl [T "- **SKU:** "; R item "sku_code"]) ;;
  lines <- push_if (truthy (prop item "origin_country")) lines
             (tpl [T "- **Country of Origin:** "; R item "origin_country"]) ;;
  lines <- push_if (truthy (prop item "weight")) lines
             (tpl [T "- **Weight:** "; R item "weight"; T " ";
                   V (or (prop item "weight_unit") (VStr "g"))]) ;;
  lines <- (if truthy (prop item "manufacturer_id") then
              let lines := lines ++ [""; "**Manufacturer:**"] in
              lines <- push lines (tpl [T "  - ID: "; R item "manufacturer_id"]) ;;
              lines <- push_if (truthy (prop item "manufacturer_contact")) lines
                         (tpl [T "  - Contact: "; R item "manufacturer_contact"]) ;;
              lines <- push_if (truthy (prop item "manufacturer_street")) lines
                         (tpl [T "  - Address: "; R item "manufacturer_street"]) ;;
              lines <- push_if (truthy (prop item "manufacturer_city")) lines
                         (tpl [T "  - Location: "; R item "manufacturer_city"; T ", ";
                               V (or (prop item "manufacturer_province_code") (VStr ""));
                               T " ";
                               V (or (prop item "manufacturer_postal_code") (VStr ""))]) ;;
              lines <- push_if (truthy (prop item "manufacturer_phone")) lines
                         (tpl [T "  - Phone: "; R item "manufacturer_phone"]) ;;
              push_if (truthy (prop item "manufacturer_email")) lines
                (tpl [T "  - Email: "; R item "manufacturer_email"])
            else Normal lines) ;;
  Normal (lines ++ [""]).

Definition getShipmentLineItems_format (params : value) (response : Client.ApiResponse)
  : Completion string :=
  if truthy (Client.error response) then
    tpl [T "Error getting line items: "; V (Client.error response)]
  else
    let s := optprop (Client.data response) "shipment" in
    if negb (truthy s) then tpl [T "Shipment "; R params "id"; T " not found."]
    else if negb (truthy (prop s "line_items"))
            || is_zero (prop (prop s "line_items") "length") then
      tpl [T "No line items found for shipment "; R params "id"; T "."]
    else
      l1 <- tpl [T "## Line Items for Shipment "; R s "id"] ;;
      l3 <- tpl [T "Order: "; V (or (prop s "order_id") (VStr "N/A"))] ;;
      l4 <- tpl [T "Recipient: "; R s "to_name"; T ", "; R s "to_country_code"] ;;
      items <- iterate P "s.line_items" (prop s "line_items") ;;
      lines <- foldM getShipmentLineItems_item [l1; ""; l3; l4; ""] items ;;
      Normal (join nl lines).

Definition getShipmentLineItems (params : value) : Async string :=
  (endpoint <- lift (tpl [T "/shipments/"; R params "id"]) ;;
   response <- Client.get P client endpoint ;;
   lift (getShipmentLineItems_format params response))%async.

(** The request body [createShipment] builds. *)
Definition createShipment_body (params : value) : Completion value :=
  name <- read P params "name" ;;
  let body :=
    [ ("name", name);
      ("address_1", prop params "address_1");
      ("city", prop params "city");
      ("province_code", prop params "province_code");
      ("postal_code", prop params "postal_code");
      ("country_code", prop params "country_code") ] in
  let body := assign_if body "address_2" (prop params "address_2") in
  let body := assign_if body "phone" (prop params "phone") in
  let body := assign_if body "email" (prop params "email") in
  let body := assign_if body "package_type" (prop params "package_type") in
  let body := assign_if body "size_unit" (prop params "size_unit") in
  let body := assign_if body "size_x" (prop params "size_x") in
  let body := assign_if body "size_y" (prop params "size_y") in
  let body := assign_if body "size_z" (prop params "size_z") in
  let body := assign_if body "weight_unit" (prop params "weight_unit") in
  let body := assign_if body "weight" (prop params "weight") in
  let body := assign_if body "description" (prop params "description") in
  let body := assign_if body "value" (prop params "value") in
  let body := assign_if body "value_currency" (prop params "value_currency") in
  let body := assign_if body "order_id" (prop params "order_id") in
  let body := assign_if body "order_store" (prop params "order_store") in
  let body := assign_if body "postage_type" (prop params "postage_type") in
  Normal (VObj body).

Definition createShipment_format (response : Client.ApiResponse) : Completion string :=
  if truthy (Client.error response) then
    tpl [T "Error creating shipment: "; V (Client.error response)]
  else
    let s := optprop (Client.data response) "shipment" in
    if negb (truthy s) then Normal "Shipment created but no data returned."
    else
      tpl [T ("Shipment created successfully!" ++ nl ++ nl ++ "ID: ")%string; R s "id";
           T (nl ++ "Status: ")%string; R s "status";
           T (nl ++ "Recipient: ")%string; R s "to_name"; T ", "; R s "to_city"; T ", ";
           R s "to_country_code"].

Definition createShipment (params : value) : Async string :=
  (body <- lift (createShipment_body params) ;;
   response <- Client.post P client "/shipments" body ;;
   lift (createShipment_format response))%async.

Definition deleteShipment_format (params : value) (response : Client.ApiResponse)
  : Completion string :=
  if truthy (Client.error response) then
    tpl [T "Error deleting shipment: "; V (Client.error response);
         T ". Note: Only unpaid shipments can be deleted."]
  else tpl [T "Shipment "; R params "id"; T " deleted successfully."].

Definition deleteShipment (params : value) : Async string :=
  (endpoint <- lift (tpl [T "/shipments/"; R params "id"]) ;;
   response <- Client.delete P client endpoint ;;
   lift (deleteShipment_format params response))%async.

Definition buyPostage_format (response : Client.ApiResponse) : Completion string :=
  if truthy (Client.error response) then
    tpl [T "Error purchasing postage: "; V (Client.error response)]
  else
    let s := optprop (Client.data response) "shipment" in
    if negb (truthy s) then
      Normal "Postage purchase initiated. Poll the shipment status to check completion."
    else
      l1 <- tpl [T "Postage purchased for shipment "; R s "id"; T "!"] ;;
      l3 <- tpl [T "Status: "; R s "status"] ;;
      let lines := [l1; ""; l3] in
      lines <- push_if (truthy (prop s "purchase_amount")) lines
                 (tpl [T "Total Cost: $"; R s "purchase_amount"]) ;;
      lines <- push_if (truthy (prop s "carrier_tracking_code")) lines
                 (tpl [T "Tracking Number: "; R s "carrier_tracking_code"]) ;;
      Normal (join nl lines).

Definition buyPostage (params : value) : Async string :=
  (endpoint <- lift (tpl [T "/shipments/"; R params "id"; T "/buy"]) ;;
   response <- Client.patch P client endpoint VUndefined ;;
   lift (buyPostage_format response))%async.

Definition refundShipment_format (params : value) (response : Client.ApiResponse)
  : Completion string :=
  if truthy (Client.error response) then
    tpl [T "Error requesting refund: "; V (Client.error response)]
  else
    tpl [T "Refund requested for shipment "; R params "id";
         T ". Check shipment status for updates."].

Definition refundShipment (params : value) : Async string :=
  (endpoint <- lift (tpl [T "/shipments/"; R params "id"; T "/refund"]) ;;
   response <- Client.patch P client endpoint VUndefined ;;
   lift (refundShipment_format params response))%async.

(** The body [refreshRates] builds, and what it passes on: the body when it
    has a key, [undefined] otherwise. *)
Definition refreshRates_body (params : value) : Completion value :=
  size_x <- read P params "size_x" ;;
  let body := assign_if [] "size_x" size_x in
  let body := assign_if body "size_y" (prop params "size_y") in
  let body := assign_if body "size_z" (prop params "size_z") in
  let body := assign_if body "weight" (prop params "weight") in
  Normal (if 0 <? Z.of_nat (length body) then VObj body else VUndefined).

Definition refreshRates_rate (result : string) (rate : value) : Completion string :=
  line <- tpl [T "- "; R rate "postage_description"; T ": $";
               V (or (prop rate "payment_amount") (prop rate "purchase_amount")); T nl] ;;
  Normal (result ++ line)%string.

Definition refreshRates_format (params : value) (response : Client.ApiResponse)
  : Completion string :=
  if truthy (Client.error response) then
    tpl [T "Error refreshing rates: "; V (Client.error response)]
  else
    let s := optprop (Client.data response) "shipment" in
    if negb (truthy s) then tpl [T "Rates refreshed for shipment "; R params "id"; T "."]
    else
      result <- tpl [T "Rates refreshed for shipment "; R s "id";
                     T ("." ++ nl ++ nl ++ "Current postage type: ")%string;
                     V (or (prop s "postage_type") (VStr "Not set"))] ;;
      has_rates <- nonempty P (prop s "rates") ;;
      if has_rates then
        rates <- iterate P "s.rates" (prop s "rates") ;;
        foldM refreshRates_rate (result ++ nl ++ nl ++ "Available rates:" ++ nl)%string rates
      else Normal result.

Definition refreshRates (params : value) : Async string :=
  (body <- lift (refreshRates_body params) ;;
   endpoint <- lift (tpl [T "/shipments/"; R params "id"; T "/refresh"]) ;;
   response <- Client.patch P client endpoint body ;;
   lift (refreshRates_format params response))%async.

Definition countShipments_endpoint (params : value) : Completion string :=
  status <- read P params "status" ;;
  q <- set_if [] "status" status (ToString P status) ;;
  Normal (with_query "/shipments/count" q).

Definition countShipments_format (params : value) (response : Client.ApiResponse)
  : Completion string :=
  if truthy (Client.error response) then
    tpl [T "Error counting shipments: "; V (Client.error response)]
  else
    let count := coalesce (optprop (Client.data response) "count") (VNum 0) in
    statusText <- (if truthy (prop params "status")
                   then tpl [T (" with status " ++ dquote)%string; R params "status"; T dquote]
                   else Normal "") ;;
    tpl [T "Total shipments"; T statusText; T ": "; V count].

Definition countShipments (params : value) : Async string :=
  (endpoint <- lift (countShipments_endpoint params) ;;
   response <- Client.get P client endpoint ;;
   lift (countShipments_format params response))%async.

End Handlers.
End Shipments.

(** ** tools/batches.ts *)

Module Batches.
Import JS Fetch.

Section Handlers.
Variable P : Platform.
Variable env : Client.Env.

Local Abbreviation client := (Client.client env).
Local Abbreviation tpl := (template P).
Local Open Scope completion_scope.
Local Open Scope list_scope.

Definition sep : string := (nl ++ nl ++ "---" ++ nl ++ nl)%string.

(** The callback of [batches.map] in [listBatches]. *)
Definition listBatches_entry (b : value) : Completion string :=
  l1 <- tpl [T "ID: "; R b "id"] ;;
  l2 <- tpl [T "Status: "; R b "status"] ;;
  let lines := [l1; l2] in
  lines <- push_if (truthy (prop b "description")) lines
             (tpl [T "Description: "; R b "description"]) ;;
  lines <- push_if (is_defined (prop b "shipment_count")) lines
             (tpl [T "Shipments: "; R b "shipment_count"]) ;;
  lines <- push lines (tpl [T "Created: "; R b "created_at"]) ;;
  Normal (join nl lines).

Definition listBatches_endpoint (params : value) : Completion string :=
  limit <- read P params "limit" ;;
  q <- set_if [] "limit" limit (call_toString P "params.limit" limit) ;;
  q <- set_if q "page" (prop params "page")
         (call_toString P "params.page" (prop params "page")) ;;
  q <- set_if q "status" (prop params "status") (ToString P (prop params "status")) ;;
  Normal (with_query "/batches" q).

Definition listBatches_format (response : Client.ApiResponse) : Completion string :=
  if truthy (Client.error response) then
    tpl [T "Error listing batches: "; V (Client.error response)]
  else
    let batches := or (Client.data response) (VArr []) in
    if is_zero (prop batches "length") then Normal "No batches found."
    else
      items <- array_receiver P "batches" "map" batches ;;
      formatted <- mapM listBatches_entry items ;;
      tpl [T "Found "; R batches "length"; T (" batch(es):" ++ nl ++ nl)%string;
           T (join sep formatted)].

Definition listBatches (params : value) : Async string :=
  (endpoint <- lift (listBatches_endpoint params) ;;
   response <- Client.get P client endpoint ;;
   lift (listBatches_format response))%async.

Definition createBatch_body (params : value) : Completion value :=
  description <- read P params "description" ;;
  Normal (VObj (assign_if [] "description" description)).

Definition createBatch_format (response : Client.ApiResponse) : Completion string :=
  if truthy (Client.error response) then
    tpl [T "Error creating batch: "; V (Client.error response)]
  else
    let b := optprop (Client.data response) "batch" in
    if negb (truthy b) then Normal "Batch created but no data returned."
    else
      tpl ([T ("Batch created successfully!" ++ nl ++ nl ++ "ID: ")%string; R b "id";
            T (nl ++ "Status: ")%string; R b "status"]
           ++ (if truthy (prop b "description")
               then [T (nl ++ "Description: ")%string; R b "description"]
               else [T ""])).

Definition createBatch (params : value) : Async string :=
  (body <- lift (createBatch_body params) ;;
   response <- Client.post P client "/batches" body ;;
   lift (createBatch_format response))%async.

Definition getBatch_format (params : value) (response : Client.ApiResponse)
  : Completion string :=
  if truthy (Client.error response) then
    tpl [T "Error getting batch: "; V (Client.error response)]
  else
    let b := optprop (Client.data response) "batch" in
    if negb (truthy b) then tpl [T "Batch "; R params "id"; T " not found."]
    else
      l1 <- tpl [T "## Batch "; R b "id"] ;;
      l3 <- tpl [T "**Status:** "; R b "status"] ;;
      let lines := [l1; ""; l3] in
      lines <- push_if (truthy (prop b "description")) lines
                 (tpl [T "**Description:** "; R b "description"]) ;;
      lines <- push_if (is_defined (prop b "shipment_count")) lines
                 (tpl [T "**Shipments:** "; R b "shipment_count"]) ;;
      lines <- push lines (tpl [T "**Created:** "; R b "created_at"]) ;;
      Normal (join nl lines).

Definition getBatch (params : value) : Async string :=
  (endpoint <- lift (tpl [T "/batches/"; R params "id"]) ;;
   response <- Client.get P client endpoint ;;
   lift (getBatch_format params response))%async.

Definition deleteBatch_format (params : value) (response : Client.ApiResponse)
  : Completion string :=
  if truthy (Client.error response) then
    tpl [T "Error deleting batch: "; V (Client.error response);
         T ". Note: Only empty batches can be deleted."]
  else tpl [T "Batch "; R params "id"; T " deleted successfully."].

Definition deleteBatch (params : value) : Async string :=
  (endpoint <- lift (tpl [T "/batches/"; R params "id"]) ;;
   response <- Client.delete P client endpoint ;;
   lift (deleteBatch_format params response))%async.

Definition addToBatch_body (params : value) : Completion value :=
  batch_id <- read P params "batch_id" ;;
  Normal (VObj [("batch_id", batch_id); ("shipment_ids", prop params "shipment_ids")]).

Definition addToBatch_format (params : value) (response : Client.ApiResponse)
  : Completion string :=
  if truthy (Client.error response) then
    tpl [T "Error adding shipments to batch: "; V (Client.error response)]
  else
    tpl [T "Successfully added "; R (prop params "shipment_ids") "length";
         T " shipment(s) to batch "; R params "batch_id"; T "."].

Definition addToBatch (params : value) : Async string :=
  (body <- lift (addToBatch_body params) ;;
   response <- Client.patch P client "/shipments/add_to_batch" body ;;
   lift (addToBatch_format params response))%async.

Definition removeFromBatch_body (params : value) : Completion value :=
  shipment_ids <- read P params "shipment_ids" ;;
  Normal (VObj [("shipment_ids", shipment_ids)]).

Definition removeFromBatch_format (params : value) (response : Client.ApiResponse)
  : Completion string :=
  if truthy (Client.error response) then
    tpl [T "Error removing shipments from batch: "; V (Client.error response)]
  else
    tpl [T "Successfully removed "; R (prop params "shipment_ids") "length";
         T " shipment(s) from their batches."].

Definition removeFromBatch (params : value) : Async string :=
  (body <- lift (removeFromBatch_body params) ;;
   response <- Client.patch P client "/shipments/remove_from_batch" body ;;
   lift (removeFromBatch_format params response))%async.

Definition countBatches_endpoint (params : value) : Completion string :=
  status <- read P params "status" ;;
  q <- set_if [] "status" status (ToString P status) ;;
  Normal (with_query "/batches/count" q).

Definition countBatches_format (params : value) (response : Client.ApiResponse)
  : Completion string :=
  if truthy (Client.error response) then
    tpl [T "Error counting batches: "; V (Client.error response)]
  else
    let count := coalesce (optprop (Client.data response) "count") (VNum 0) in
    statusText <- (if truthy (prop params "status")
                   then tpl [T (" with status " ++ dquote)%string; R params "status"; T dquote]
                   else Normal "") ;;
    tpl [T "Total batches"; T statusText; T ": "; V count].

Definition countBatches (params : value) : Async string :=
  (endpoint <- lift (countBatches_endpoint params) ;;
   response <- Client.get P client endpoint ;;
   lift (countBatches_format params response))%async.

End Handlers.
End Batches.

(** ** tools/returns.ts *)

Module Returns.
Import JS Fetch.

Section Handlers.
Variable P : Platform.
Variable env : Client.Env.

Local Abbreviation client := (Client.client env).
Local Abbreviation tpl := (template P).
Local Open Scope completion_scope.
Local Open Scope list_scope.

Definition sep : string := (nl ++ nl ++ "---" ++ nl ++ nl)%string.

(** The callback of [returns.map] in [listReturns]. *)
Definition listReturns_entry (r : value) : Completion string :=
  l1 <- tpl [T "ID: "; R r "id"] ;;
  l2 <- tpl [T "Status: "; R r "status"] ;;
  let lines := [l1; l2] in
  lines <- push_if (truthy (prop r "reason")) lines (tpl [T "Reason: "; R r "reason"]) ;;
  lines <- push_if (truthy (prop r "shipment_id")) lines
             (tpl [T "Shipment ID: "; R r "shipment_id"]) ;;
  lines <- push lines (tpl [T "Created: "; R r "created_at"]) ;;
  Normal (join nl lines).

Definition listReturns_endpoint (params : value) : Completion string :=
  limit <- read P params "limit" ;;
  q <- set_if [] "limit" limit (call_toString P "params.limit" limit) ;;
  q <- set_if q "page" (prop params "page")
         (call_toString P "params.page" (prop params "page")) ;;
  q <- set_if q "status" (prop params "status") (ToString P (prop params "status")) ;;
  q <- set_if q "reason" (prop params "reason") (ToString P (prop params "reason")) ;;
  Normal (with_query "/returns" q).

Definition listReturns_format (response : Client.ApiResponse) : Completion string :=
  if truthy (Client.error response) then
    tpl [T "Error listing returns: "; V (Client.error response)]
  else
    let returns := or (Client.data response) (VArr []) in
    if is_zero (prop returns "length") then Normal "No returns found matching your criteria."
    else
      items <- array_receiver P "returns" "map" returns ;;
      formatted <- mapM listReturns_entry items ;;
      tpl [T "Found "; R returns "length"; T (" return(s):" ++ nl ++ nl)%string;
           T (join sep formatted)].

Definition listReturns (params : value) : Async string :=
  (endpoint <- lift (listReturns_endpoint params) ;;
   response <- Client.get P client endpoint ;;
   lift (listReturns_format response))%async.

End Handlers.
End Returns.

(** ** tools/tracking.ts *)

Module Tracking.
Import JS Fetch.

Section Handlers.
Variable P : Platform.
Variable env : Client.Env.

Local Abbreviation tpl := (template P).
Local Open Scope completion_scope.
Local Open Scope list_scope.

(** One turn of the loop over [tracking.events]. *)
Definition trackShipment_event (lines : list string) (event : value)
  : Completion (list string) :=
  event_location <- read P event "location" ;;
  location <- (if truthy event_location then tpl [T " ("; V event_location; T ")"]
               else Normal "") ;;
  push lines (tpl [T "- **"; R event "date"; T ":** "; R event "description"; T location]).

Definition trackShipment_format (params : value) (response : Client.ApiResponse)
  : Completion string :=
  if truthy (Client.error response) then
    tpl [T "Error getting tracking: "; V (Client.error response)]
  else
    let tracking := Client.data response in
    if negb (truthy tracking) then
      tpl [T "No tracking information found for shipment "; R params "id"; T "."]
    else
      l1 <- tpl [T "## Tracking for Shipment "; R params "id"] ;;
      l3 <- tpl [T "**Status:** "; V (or (prop tracking "status") (VStr "Unknown"))] ;;
      let lines := [l1; ""; l3] in
      lines <- push_if (truthy (prop tracking "carrier")) lines
                 (tpl [T "**Carrier:** "; R tracking "carrier"]) ;;
      lines <- push_if (truthy (prop tracking "tracking_number")) lines
                 (tpl [T "**Tracking Number:** "; R tracking "tracking_number"]) ;;
      lines <- push_if (truthy (prop tracking "estimated_delivery")) lines
                 (tpl [T "**Estimated Delivery:** "; R tracking "estimated_delivery"]) ;;
      has_events <- nonempty P (prop tracking "events") ;;
      lines <- (if has_events then
                  events <- iterate P "tracking.events" (prop tracking "events") ;;
                  foldM trackShipment_event (lines ++ [""; "### Tracking History"]) events
                else Normal lines) ;;
      Normal (join nl lines).

Definition trackShipment (params : value) : Async string :=
  (id <- lift (read P params "id") ;;
   response <- Client.getPublicTracking P env id ;;
   lift (trackShipment_format params response))%async.

End Handlers.
End Tracking.

(** ** index.ts *)

Module Server.
Import JS Fetch Zod Schemas.

(** An entry of the [tools] catalogue: its name and annotations (the
    description and the JSON input schema only feed the listing). *)
Record Tool : Type := {
  name : string;
  readOnlyHint : option bool;
  destructiveHint : option bool }.

Definition read_only (n : string) : Tool :=
  {| name := n; readOnlyHint := Some true; destructiveHint := None |}.

Definition destructive (n : string) : Tool :=
  {| name := n; readOnlyHint := None; destructiveHint := Some true |}.

Definition plain (n : string) : Tool :=
  {| name := n; readOnlyHint := None; destructiveHint := None |}.

Definition tools : list Tool :=
  [ read_only "chitchats_list_shipments";
    read_only "chitchats_get_shipment";
    read_only "chitchats_get_rates";
    read_only "chitchats_get_labels";
    read_only "chitchats_get_line_items";
    plain "chitchats_create_shipment";
    destructive "chitchats_delete_shipment";
    plain "chitchats_buy_postage";
    plain "chitchats_refund_shipment";
    plain "chitchats_refresh_rates";
    read_only "chitchats_count_shipments";
    read_only "chitchats_list_batches";
    plain "chitchats_create_batch";
    read_only "chitchats_get_batch";
    destructive "chitchats_delete_batch";
    plain "chitchats_add_to_batch";
    plain "chitchats_remove_from_batch";
    read_only "chitchats_count_batches";
    read_only "chitchats_list_returns";
    read_only "chitchats_track_shipment" ].

Record ContentItem : Type := {
  type : string;
  text : string }.

(** What the call handler returns; [isError] is [None] when the object
    carries no such key. *)
Record CallToolResult : Type := {
  content : list ContentItem;
  isError : option bool }.

(** One [case] of the switch: the schema its arguments are parsed with,
    whether the arguments default to an empty object, and the handler. *)
Record Case : Type := {
  schema : ZodObject;
  args_or_empty : bool;
  handler : value -> Async string }.

Section Handler.
Variable P : Platform.
Variable env : Client.Env.

Definition case_ (shape : ZodObject) (default : bool) (h : value -> Async string) : Case :=
  {| schema := shape; args_or_empty := default; handler := h |}.

(** The cases of [switch (name)], in source order. *)
Definition cases : list (string * Case) :=
  [ ("chitchats_list_shipments",
      case_ ListShipmentsSchema true (Shipments.listShipments P env));
    ("chitchats_get_shipment",
      case_ GetShipmentSchema false (Shipments.getShipment P env));
    ("chitchats_get_rates",
      case_ GetShipmentSchema false (Shipments.getShipmentRates P env));
    ("chitchats_get_labels",
      case_ GetShipmentSchema false (Shipments.getShipmentLabels P env));
    ("chitchats_get_line_items",
      case_ GetShipmentSchema false (Shipments.getShipmentLineItems P env));
    ("chitchats_create_shipment",
      case_ CreateShipmentSchema false (Shipments.createShipment P env));
    ("chitchats_delete_shipment",
      case_ DeleteShipmentSchema false (Shipments.deleteShipment P env));
    ("chitchats_buy_postage",
      case_ BuyPostageSchema false (Shipments.buyPostage P env));
    ("chitchats_refund_shipment",
      case_ RefundShipmentSchema false (Shipments.refundShipment P env));
    ("chitchats_refresh_rates",
      case_ RefreshRatesSchema false (Shipments.refreshRates P env));
    ("chitchats_count_shipments",
      case_ CountShipmentsSchema true (Shipments.countShipments P env));
    ("chitchats_list_batches",
      case_ ListBatchesSchema true (Batches.listBatches P env));
    ("chitchats_create_batch",
      case_ CreateBatchSchema true (Batches.createBatch P env));
    ("chitchats_get_batch",
      case_ GetBatchSchema false (Batches.getBatch P env));
    ("chitchats_delete_batch",
      case_ DeleteBatchSchema false (Batches.deleteBatch P env));
    ("chitchats_add_to_batch",
      case_ AddToBatchSchema false (Batches.addToBatch P env));
    ("chitchats_remove_from_batch",
      case_ RemoveFromBatchSchema false (Batches.removeFromBatch P env));
    ("chitchats_count_batches",
      case_ CountBatchesSchema true (Batches.countBatches P env));
    ("chitchats_list_returns",
      case_ ListReturnsSchema true (Returns.listReturns P env));
    ("chitchats_track_shipment",
      case_ TrackShipmentSchema false (Tracking.trackShipment P env)) ].

Fixpoint switch (name : string) (cs : list (string * Case)) : option Case :=
  match cs with
  | [] => None
  | (n, c) :: rest => if (n =? name)%string then Some c else switch name rest
  end.

(** The argument handed to [parse]: [args || {}] or [args]. *)
Definition parse_input (c : Case) (args : value) : value :=
  if args_or_empty c then or args (VObj []) else args.

(** [result = await handler(Schema.parse(...))]. *)
Definition run_case (c : Case) (args : value) : Async string :=
  (params <- lift (parse P (schema c) (parse_input c args)) ;;
   handler c params)%async.

Definition text_content (s : string) : list ContentItem :=
  [ {| type := "text"; text := s |} ].

Definition error_message (error : Thrown) : string :=
  match error with
  | ErrorInstance message => message
  | NotAnError => "Unknown error"
  end.

(** The handler registered for [CallToolRequestSchema]. *)
Definition call_tool (name : string) (args : value) : Async CallToolResult :=
  catch
    (match switch name cases with
     | Some c =>
         (result <- run_case c args ;;
          ret {| content := text_content result; isError := None |})%async
     | None =>
         ret {| content := text_content ("Unknown tool: " ++ name); isError := Some true |}
     end)
    (fun error =>
       ret {| content := text_content ("Error: " ++ error_message error);
              isError := Some true |}).

(** A call from an empty log: the result and the requests that were sent. *)
Definition dispatch (remote : Remote) (name : string) (args : value)
  : Completion CallToolResult * list Request :=
  run (call_tool name args) remote.

End Handler.
End Server.

(** ** A platform to evaluate on

    [node] fixes the platform for concrete runs: V8's wording of the
    TypeErrors, one line per zod issue, upper-casing of ASCII letters, and
    the unsigned decimal literals among the numeric strings. *)

Module Node.
Import JS.

Definition TypeError_message (k : TypeErrorKind) : string :=
  match k with
  | CannotReadProperty base key =>
      "Cannot read properties of "
      ++ (match base with VNull => "null" | _ => "undefined" end)
      ++ " (reading '" ++ key ++ "')"
  | NotAFunction expr => expr ++ " is not a function"
  | NotIterable expr => expr ++ " is not iterable"
  | CannotConvertToPrimitive => "Cannot convert object to primitive value"
  end.

Definition path_elem (e : PathElem) : string :=
  match e with
  | PKey key => key
  | PIndex i => Number_toString (Z.of_nat i)
  end.

Definition issue_code (c : IssueCode) : string :=
  match c with
  | invalid_type expected _ => "invalid_type, expected " ++ expected
  | too_small m => "too_small, minimum " ++ Number_toString m
  | too_big m => "too_big, maximum " ++ Number_toString m
  | invalid_enum_value _ received => "invalid_enum_value, received " ++ received
  end.

Definition ZodError_message (issues : list ZodIssue) : string :=
  join "; " (map (fun i => join "." (map path_elem (path i)) ++ ": " ++ issue_code (code i))
               issues).

Definition upper (c : ascii) : ascii :=
  let b := byte_of c in
  if (97 <=? b) && (b <=? 122) then ascii_of_nat (Z.to_nat (b - 32)) else c.

Fixpoint toUpperCase (s : string) : string :=
  match s with
  | EmptyString => EmptyString
  | String c rest => String (upper c) (toUpperCase rest)
  end.

Definition is_digit (c : ascii) : bool := (48 <=? byte_of c) && (byte_of c <=? 57).

Fixpoint all_digits (s : string) : bool :=
  match s with
  | EmptyString => true
  | String c rest => is_digit c && all_digits rest
  end.

Fixpoint some_nonzero (s : string) : bool :=
  match s with
  | EmptyString => false
  | String c rest => negb (byte_of c =? 48) || some_nonzero rest
  end.

Definition StringToNumber_positive (s : string) : bool :=
  all_digits s && some_nonzero s.

Definition node : Platform :=
  Build_Platform TypeError_message ZodError_message toUpperCase StringToNumber_positive.

End Node.

(** * Properties *)

Import JS.

(** ** Vocabulary of the statements *)

(** The request an authenticated call sends. *)
Definition request_of (this : Client.ChitChatsClient) (method endpoint : string)
  (body : value) : Fetch.Request :=
  {| Fetch.url := Client.baseUrl this ++ endpoint;
     Fetch.method := method;
     Fetch.headers :=
       if truthy body
       then [("Authorization", Client.accessToken this); ("Accept", "application/json");
             ("Content-Type", "application/json")]
       else [("Authorization", Client.accessToken this); ("Accept", "application/json")];
     Fetch.body := if truthy body then JSON_stringify body else None |}.

(** The text the client puts in the place of the retry hint. *)
Definition retry_hint (resp : Fetch.Response) : string :=
  match Fetch.headers_get resp "Retry-After" with
  | Some h => if (h =? "")%string then "unknown" else h
  | None => "unknown"
  end.

Definition failure (message : value) (status : Z) : Client.ApiResponse :=
  {| Client.data := VUndefined; Client.error := message; Client.status := status |}.

(** What [request] makes of the outcome of its [fetch]. *)
Definition normalized (P : Platform) (outcome : Completion Fetch.Response)
  : Client.ApiResponse :=
  match outcome with
  | Throw err => failure (VStr (Client.err_message err)) 500
  | Normal resp =>
      if Fetch.status resp =? 429 then
        failure (VStr ("Rate limited. Retry after " ++ retry_hint resp ++ " seconds.")) 429
      else if Fetch.status resp =? 204 then failure VUndefined 204
      else
        match Fetch.json resp with
        | Throw err => failure (VStr (Client.err_message err)) 500
        | Normal data =>
            if Fetch.ok resp then
              {| Client.data := data; Client.error := VUndefined;
                 Client.status := Fetch.status resp |}
            else if nullish data then
              failure (VStr (TypeError_message P (CannotReadProperty data "error"))) 500
            else
              failure
                (or (prop data "error")
                   (or (prop data "message")
                      (VStr ("HTTP " ++ Number_toString (Fetch.status resp)))))
                (Fetch.status resp)
        end
  end.

Definition required (t : Zod.ZodType) : bool :=
  match t with
  | Zod.optional_ _ => false
  | _ => true
  end.

(** The type under [.optional()]. *)
Definition base (t : Zod.ZodType) : Zod.ZodType :=
  match t with
  | Zod.optional_ inner => inner
  | _ => t
  end.

Definition expected (t : Zod.ZodType) : string :=
  match t with
  | Zod.string_ => "string"
  | Zod.number_ _ => "number"
  | Zod.enum_ _ => "enum"
  | Zod.array_ _ => "array"
  | Zod.optional_ _ => ""
  end.

(** The ways an input breaks a schema, each with the issue that reports it:
    the input is no object, a required field is missing, a number is below
    its minimum or above its maximum, a string is outside its enumeration. *)
Inductive Violation (shape : Zod.ZodObject) : value -> ZodIssue -> Prop :=
| not_an_object input :
    (forall props, input <> VObj props) ->
    Violation shape input (Zod.issue (invalid_type "object" input) [])
| missing_required props k t :
    In (k, t) shape -> required t = true -> own props k = None ->
    Violation shape (VObj props) (Zod.issue (invalid_type (expected t) VUndefined) [PKey k])
| below_minimum props k t checks n m :
    In (k, t) shape -> base t = Zod.number_ checks -> own props k = Some (VNum n) ->
    In (Zod.min m) checks -> n < m ->
    Violation shape (VObj props) (Zod.issue (too_small m) [PKey k])
| above_maximum props k t checks n m :
    In (k, t) shape -> base t = Zod.number_ checks -> own props k = Some (VNum n) ->
    In (Zod.max m) checks -> m < n ->
    Violation shape (VObj props) (Zod.issue (too_big m) [PKey k])
| outside_enumeration props k t options s :
    In (k, t) shape -> base t = Zod.enum_ options -> own props k = Some (VStr s) ->
    ~ In s options ->
    Violation shape (VObj props) (Zod.issue (invalid_enum_value options s) [PKey k]).


(** The declared type of a key, if the schema declares it. *)
Fixpoint declared (shape : Zod.ZodObject) (k : string) : option Zod.ZodType :=
  match shape with
  | [] => None
  | (n, t) :: rest => if (n =? k)%string then Some t else declared rest k
  end.

(** What [createShipment] forwards of a declared key: a required field
    always, an optional field when its value is truthy. *)
Definition forwarded (params : value) (k : string) : option value :=
  match declared Schemas.CreateShipmentSchema k with
  | Some t =>
      if (required t || truthy (prop params k))%bool then Some (prop params k) else None
  | None => None
  end.





(** A computation is stable when it only grows the log and its outcome
    depends on the remote only through the answers to the requests it
    sends. *)
Definition Stable {A} (c : Fetch.Async A) : Prop :=
  (forall remote log, exists extra, snd (c remote log) = (log ++ extra)%list)
  /\ (forall r1 r2 log,
        (forall req, In req (snd (c r1 log)) -> r2 req = r1 req) ->
        c r2 log = c r1 log).

(** ** Concrete configurations and remotes *)

Module Sample.

Definition env : Client.Env :=
  {| Client.CHITCHATS_CLIENT_ID := Some "c1";
     Client.CHITCHATS_ACCESS_TOKEN := Some "tok";
     Client.CHITCHATS_BASE_URL := None |}.


Definition response (status : Z) (retry_after : option string) (json : Completion value)
  : Fetch.Response :=
  {| Fetch.status := status;
     Fetch.headers_get := fun h => if (h =? "Retry-After")%string then retry_after else None;
     Fetch.json := json |}.

(** A remote that answers every request alike. *)
Definition always (r : Fetch.Response) : Fetch.Remote := fun _ => Normal r.

Definition not_found : Fetch.Response :=
  response 404 None (Normal (VObj [("error", VStr "not found")])).

Definition rate_limited_30 : Fetch.Response :=
  response 429 (Some "30") (Normal (VObj [])).

Definition rate_limited_no_header : Fetch.Response :=
  response 429 None (Normal (VObj [])).

(** Status 404; the body has an empty [error] and a [message]. *)
Definition empty_error : Fetch.Response :=
  response 404 None (Normal (VObj [("error", VStr ""); ("message", VStr "boom")])).

(** Status 502 with a body that is not JSON. *)
Definition bad_gateway : Fetch.Response :=
  response 502 None (Throw (ErrorInstance "Unexpected token < in JSON at position 0")).

Definition ok_json (v : value) : Fetch.Response := response 200 None (Normal v).

Definition get_request (url : string) : Fetch.Request :=
  {| Fetch.url := url;
     Fetch.method := "GET";
     Fetch.headers := [("Authorization", "tok"); ("Accept", "application/json")];
     Fetch.body := None |}.

End Sample.

(** A remote that answers one URL with a shipment and every other request
    with a 404. *)
Definition one_shipment (url : string) : Fetch.Remote :=
  fun req =>
    if (Fetch.url req =? url)%string
    then Normal (Sample.ok_json
                   (VObj [("shipment",
                           VObj [("id", VStr "S1"); ("status", VStr "ready");
                                 ("to_name", VStr "Ann"); ("to_city", VStr "Ottawa");
                                 ("to_province_code", VStr "ON");
                                 ("to_country_code", VStr "CA");
                                 ("created_at", VStr "2024-01-01")])]))
    else Normal Sample.not_found.

(** ** Further vocabulary *)

(** The request the public tracking call sends for an identifier. *)
Definition tracking_request (env : Client.Env) (id : string) : Fetch.Request :=
  {| Fetch.url := Client.BASE_URL env ++ "/tracking/" ++ id ++ ".json";
     Fetch.method := "GET";
     Fetch.headers := [];
     Fetch.body := None |}.

(** What [getPublicTracking] makes of the outcome of its [fetch]. *)
Definition tracked (outcome : Completion Fetch.Response) : Client.ApiResponse :=
  match outcome with
  | Throw err => failure (VStr (Client.err_message err)) 500
  | Normal resp =>
      match Fetch.json resp with
      | Throw err => failure (VStr (Client.err_message err)) 500
      | Normal data =>
          {| Client.data := data; Client.error := VUndefined;
             Client.status := Fetch.status resp |}
      end
  end.

(** A number passes a check of [z.number()]. *)
Definition satisfies (n : Z) (c : Zod.NumberCheck) : Prop :=
  match c with
  | Zod.min m => m <= n
  | Zod.max m => n <= m
  end.

(** A value has a zod type: what [z.infer] promises a handler. *)
Inductive Typed : Zod.ZodType -> value -> Prop :=
| typed_string s : Typed Zod.string_ (VStr s)
| typed_number checks n :
    Forall (satisfies n) checks -> Typed (Zod.number_ checks) (VNum n)
| typed_enum options s : In s options -> Typed (Zod.enum_ options) (VStr s)
| typed_array item l : Forall (Typed item) l -> Typed (Zod.array_ item) (VArr l)
| typed_absent inner : Typed (Zod.optional_ inner) VUndefined
| typed_present inner v : Typed inner v -> Typed (Zod.optional_ inner) v.

(** The anatomy of a handler that goes through [client.get], [post],
    [patch] or [delete]: the schema of its case, the HTTP method, what it
    computes before the call (the endpoint and the body, [undefined] when
    it passes none) and what it makes of the response. *)
Record Anatomy : Type := {
  shape : Zod.ZodObject;
  verb : string;
  prepare : value -> Completion (string * value);
  render : value -> Client.ApiResponse -> Completion string }.

(** A handler that computes an endpoint and passes no body. *)
Definition at_endpoint (endpoint : Completion string) : Completion (string * value) :=
  cbind endpoint (fun e => Normal (e, VUndefined)).

(** A handler that computes a body for a fixed endpoint. *)
Definition with_body (endpoint : string) (body : Completion value)
  : Completion (string * value) :=
  cbind body (fun b => Normal (endpoint, b)).

(** The handler an anatomy describes. *)
Definition via_request P env (a : Anatomy) (params : value) : Fetch.Async string :=
  fun remote log =>
    match prepare a params with
    | Normal (endpoint, body) =>
        (render a params
           (normalized P (remote (request_of (Client.client env) (verb a) endpoint body))),
         (log ++ [request_of (Client.client env) (verb a) endpoint body])%list)
    | Throw e => (Throw e, log)
    end.

(** The anatomy of every case of the switch but the last (public
    tracking), in source order. *)
Definition anatomies (P : Platform) : list (string * Anatomy) :=
  [ ("chitchats_list_shipments",
      {| shape := Schemas.ListShipmentsSchema; verb := "GET";
         prepare := fun params => at_endpoint (Shipments.listShipments_endpoint P params);
         render := fun _ => Shipments.listShipments_format P |});
    ("chitchats_get_shipment",
      {| shape := Schemas.GetShipmentSchema; verb := "GET";
         prepare := fun params => at_endpoint (template P [T "/shipments/"; R params "id"]);
         render := Shipments.getShipment_format P |});
    ("chitchats_get_rates",
      {| shape := Schemas.GetShipmentSchema; verb := "GET";
         prepare := fun params => at_endpoint (template P [T "/shipments/"; R params "id"]);
         render := Shipments.getShipmentRates_format P |});
    ("chitchats_get_labels",
      {| shape := Schemas.GetShipmentSchema; verb := "GET";
         prepare := fun params => at_endpoint (template P [T "/shipments/"; R params "id"]);
         render := Shipments.getShipmentLabels_format P |});
    ("chitchats_get_line_items",
      {| shape := Schemas.GetShipmentSchema; verb := "GET";
         prepare := fun params => at_endpoint (template P [T "/shipments/"; R params "id"]);
         render := Shipments.getShipmentLineItems_format P |});
    ("chitchats_create_shipment",
      {| shape := Schemas.CreateShipmentSchema; verb := "POST";
         prepare := fun params => with_body "/shipments" (Shipments.createShipment_body P params);
         render := fun _ => Shipments.createShipment_format P |});
    ("chitchats_delete_shipment",
      {| shape := Schemas.DeleteShipmentSchema; verb := "DELETE";
         prepare := fun params => at_endpoint (template P [T "/shipments/"; R params "id"]);
         render := Shipments.deleteShipment_format P |});
    ("chitchats_buy_postage",
      {| shape := Schemas.BuyPostageSchema; verb := "PATCH";
         prepare := fun params =>
                      at_endpoint (template P [T "/shipments/"; R params "id"; T "/buy"]);
         render := fun _ => Shipments.buyPostage_format P |});
    ("chitchats_refund_shipment",
      {| shape := Schemas.RefundShipmentSchema; verb := "PATCH";
         prepare := fun params =>
                      at_endpoint (template P [T "/shipments/"; R params "id"; T "/refund"]);
         render := Shipments.refundShipment_format P |});
    ("chitchats_refresh_rates",
      {| shape := Schemas.RefreshRatesSchema; verb := "PATCH";
         prepare := fun params =>
                      cbind (Shipments.refreshRates_body P params) (fun body =>
                      cbind (template P [T "/shipments/"; R params "id"; T "/refresh"])
                        (fun endpoint => Normal (endpoint, body)));
         render := Shipments.refreshRates_format P |});
    ("chitchats_count_shipments",
      {| shape := Schemas.CountShipmentsSchema; verb := "GET";
         prepare := fun params => at_endpoint (Shipments.countShipments_endpoint P params);
         render := Shipments.countShipments_format P |});
    ("chitchats_list_batches",
      {| shape := Schemas.ListBatchesSchema; verb := "GET";
         prepare := fun params => at_endpoint (Batches.listBatches_endpoint P params);
         render := fun _ => Batches.listBatches_format P |});
    ("chitchats_create_batch",
      {| shape := Schemas.CreateBatchSchema; verb := "POST";
         prepare := fun params => with_body "/batches" (Batches.createBatch_body P params);
         render := fun _ => Batches.createBatch_format P |});
    ("chitchats_get_batch",
      {| shape := Schemas.GetBatchSchema; verb := "GET";
         prepare := fun params => at_endpoint (template P [T "/batches/"; R params "id"]);
         render := Batches.getBatch_format P |});
    ("chitchats_delete_batch",
      {| shape := Schemas.DeleteBatchSchema; verb := "DELETE";
         prepare := fun params => at_endpoint (template P [T "/batches/"; R params "id"]);
         render := Batches.deleteBatch_format P |});
    ("chitchats_add_to_batch",
      {| shape := Schemas.AddToBatchSchema; verb := "PATCH";
         prepare := fun params =>
                      with_body "/shipments/add_to_batch" (Batches.addToBatch_body P params);
         render := Batches.addToBatch_format P |});
    ("chitchats_remove_from_batch",
      {| shape := Schemas.RemoveFromBatchSchema; verb := "PATCH";
         prepare := fun params =>
                      with_body "/shipments/remove_from_batch"
                        (Batches.removeFromBatch_body P params);
         render := Batches.removeFromBatch_format P |});
    ("chitchats_count_batches",
      {| shape := Schemas.CountBatchesSchema; verb := "GET";
         prepare := fun params => at_endpoint (Batches.countBatches_endpoint P params);
         render := Batches.countBatches_format P |});
    ("chitchats_list_returns",
      {| shape := Schemas.ListReturnsSchema; verb := "GET";
         prepare := fun params => at_endpoint (Returns.listReturns_endpoint P params);
         render := fun _ => Returns.listReturns_format P |}) ].

(** What the public tracking handler does, spelled out. *)
Definition via_tracking P env (params : value) : Fetch.Async string :=
  fun remote log =>
    match read P params "id" with
    | Normal id =>
        match ToString P id with
        | Normal s =>
            (Tracking.trackShipment_format P params
               (tracked (remote (tracking_request env s))),
             (log ++ [tracking_request env s])%list)
        | Throw err =>
            (Tracking.trackShipment_format P params
               (failure (VStr (Client.err_message err)) 500), log)
        end
    | Throw e => (Throw e, log)
    end.

(** The words a handler puts around the message of a failed call: what
    precedes it and what follows it, per tool. *)
Definition failure_wording : list (string * (string * string)) :=
  [ ("chitchats_list_shipments", ("Error listing shipments: ", ""));
    ("chitchats_get_shipment", ("Error getting shipment: ", ""));
    ("chitchats_get_rates", ("Error getting shipment rates: ", ""));
    ("chitchats_get_labels", ("Error getting shipment labels: ", ""));
    ("chitchats_get_line_items", ("Error getting line items: ", ""));
    ("chitchats_create_shipment", ("Error creating shipment: ", ""));
    ("chitchats_delete_shipment",
      ("Error deleting shipment: ", ". Note: Only unpaid shipments can be deleted."));
    ("chitchats_buy_postage", ("Error purchasing postage: ", ""));
    ("chitchats_refund_shipment", ("Error requesting refund: ", ""));
    ("chitchats_refresh_rates", ("Error refreshing rates: ", ""));
    ("chitchats_count_shipments", ("Error counting shipments: ", ""));
    ("chitchats_list_batches", ("Error listing batches: ", ""));
    ("chitchats_create_batch", ("Error creating batch: ", ""));
    ("chitchats_get_batch", ("Error getting batch: ", ""));
    ("chitchats_delete_batch",
      ("Error deleting batch: ", ". Note: Only empty batches can be deleted."));
    ("chitchats_add_to_batch", ("Error adding shipments to batch: ", ""));
    ("chitchats_remove_from_batch", ("Error removing shipments from batch: ", ""));
    ("chitchats_count_batches", ("Error counting batches: ", ""));
    ("chitchats_list_returns", ("Error listing returns: ", ""));
    ("chitchats_track_shipment", ("Error getting tracking: ", "")) ].

Fixpoint wording (name : string) (table : list (string * (string * string)))
  : string * string :=
  match table with
  | [] => ("", "")
  | (n, w) :: rest => if (n =? name)%string then w else wording name rest
  end.

(** The text a tool returns for a failed call with a message. *)
Definition failure_text (name message : string) : string :=
  fst (wording name failure_wording) ++ message ++ snd (wording name failure_wording).

(** The result the client hands to the handler of a tool, given the outcome
    of the fetch: the public tracking tool goes through [getPublicTracking],
    every other tool through [request]. *)
Definition client_result (P : Platform) (name : string)
  (outcome : Completion Fetch.Response) : Client.ApiResponse :=
  if (name =? "chitchats_track_shipment")%string then tracked outcome
  else normalized P outcome.

(** The annotations of a tool name in the catalogue. *)
Definition hinted (hint : Server.Tool -> option bool) (name : string) : bool :=
  existsb (fun t => (Server.name t =? name)%string
                    && match hint t with Some true => true | _ => false end)
    Server.tools.

(** The tools whose success text is an acknowledgement built from the
    arguments alone. *)
Definition acknowledging : list string :=
  [ "chitchats_delete_shipment"; "chitchats_refund_shipment"; "chitchats_delete_batch";
    "chitchats_add_to_batch"; "chitchats_remove_from_batch" ].

(** The tools that put [params.id] in a template literal for the endpoint,
    with what the literal has before and after it. *)
Definition id_routes : list (string * (string * string)) :=
  [ ("chitchats_get_shipment", ("/shipments/", ""));
    ("chitchats_get_rates", ("/shipments/", ""));
    ("chitchats_get_labels", ("/shipments/", ""));
    ("chitchats_get_line_items", ("/shipments/", ""));
    ("chitchats_delete_shipment", ("/shipments/", ""));
    ("chitchats_buy_postage", ("/shipments/", "/buy"));
    ("chitchats_refund_shipment", ("/shipments/", "/refund"));
    ("chitchats_refresh_rates", ("/shipments/", "/refresh"));
    ("chitchats_get_batch", ("/batches/", ""));
    ("chitchats_delete_batch", ("/batches/", "")) ].

(** The tools that build a query string, with the path and the keys they
    test, in the order of the [set] calls. *)
Definition filters : list (string * (string * list string)) :=
  [ ("chitchats_list_shipments",
      ("/shipments",
       ["limit"; "page"; "batch_id"; "status"; "from_date"; "to_date"; "search"]));
    ("chitchats_count_shipments", ("/shipments/count", ["status"]));
    ("chitchats_list_batches", ("/batches", ["limit"; "page"; "status"]));
    ("chitchats_count_batches", ("/batches/count", ["status"]));
    ("chitchats_list_returns", ("/returns", ["limit"; "page"; "status"; "reason"])) ].

(** What one filter adds to the query: nothing when it is absent, zero or
    the empty string. *)
Definition filter_entry (params : value) (key : string) : list (string * string) :=
  match prop params key with
  | VNum n => if n =? 0 then [] else [(key, Number_toString n)]
  | VStr s => if (s =? "")%string then [] else [(key, s)]
  | _ => []
  end.

Definition query_of (params : value) (keys : list string) : URLSearchParams :=
  flat_map (filter_entry params) keys.

(** The dimensions [refreshRates] copies into its body. *)
Definition dimensions : list string := ["size_x"; "size_y"; "size_z"; "weight"].

(** * Lemmas and theorems *)

(** ** The transport client *)

Lemma template_text P (t : string) : template P [T t] = Normal t.
Proof.
  simpl. f_equal. induction t as [|c t IH]; simpl; [reflexivity | now rewrite IH].
Qed.

Lemma append_empty (s : string) : (s ++ "")%string = s.
Proof. induction s as [|c s IH]; simpl; [reflexivity | now rewrite IH]. Qed.

Lemma append_assoc (a b c : string) : ((a ++ b) ++ c = a ++ (b ++ c))%string.
Proof. induction a as [|x a IH]; simpl; [reflexivity | now rewrite IH]. Qed.

Lemma rate_limited_text P resp :
  template P [T "Rate limited. Retry after ";
              V (or match Fetch.headers_get resp "Retry-After" with
                    | Some s => VStr s
                    | None => VNull
                    end (VStr "unknown"));
              T " seconds."]
  = Normal ("Rate limited. Retry after " ++ retry_hint resp ++ " seconds.").
Proof.
  unfold retry_hint, or.
  destruct (Fetch.headers_get resp "Retry-After") as [[|c h]|]; simpl;
    rewrite ?append_empty; reflexivity.
Qed.

Lemma http_fallback_text P n :
  template P [T "HTTP "; V (VNum n)] = Normal ("HTTP " ++ Number_toString n).
Proof. simpl. now rewrite append_empty. Qed.

(** An authenticated call sends exactly one request and always returns: no
    fault crosses the client, and the result depends on the remote only
    through the answer to that request. *)
Lemma request_normalizes P this method endpoint body remote log :
  Client.request P this method endpoint body remote log
  = (Normal (normalized P (remote (request_of this method endpoint body))),
     (log ++ [request_of this method endpoint body])%list).
Proof.
  assert (Hreq :
    {| Fetch.url := Client.baseUrl this ++ endpoint;
       Fetch.method := method;
       Fetch.headers :=
         if truthy body
         then ([("Authorization", Client.accessToken this); ("Accept", "application/json")]
               ++ [("Content-Type", "application/json")])%list
         else [("Authorization", Client.accessToken this); ("Accept", "application/json")];
       Fetch.body := if truthy body then JSON_stringify body else None |}
    = request_of this method endpoint body).
  { unfold request_of. destruct (truthy body); reflexivity. }
  unfold Client.request, Fetch.catch, Fetch.bind, Fetch.fetch, Fetch.lift, Fetch.ret.
  cbv zeta. rewrite Hreq.
  destruct (remote (request_of this method endpoint body)) as [resp|err]; [|reflexivity].
  unfold normalized.
  destruct (Fetch.status resp =? 429).
  { rewrite rate_limited_text. reflexivity. }
  destruct (Fetch.status resp =? 204); [reflexivity|].
  destruct (Fetch.json resp) as [data|err]; [|reflexivity].
  destruct (Fetch.ok resp); simpl; [reflexivity|].
  unfold read. destruct (nullish data); [reflexivity|].
  simpl. unfold or.
  destruct (truthy (prop data "error")); [reflexivity|].
  simpl. destruct (truthy (prop data "message")); [reflexivity|].
  simpl. rewrite append_empty. reflexivity.
Qed.



(** With no Retry-After header the message says unknown. *)
Example rate_limited_without_header :
  fst (Client.request Node.node (Client.client Sample.env) "GET" "/shipments" VUndefined
         (Sample.always Sample.rate_limited_no_header) [])
  = Normal {| Client.data := VUndefined;
              Client.error := VStr "Rate limited. Retry after unknown seconds.";
              Client.status := 429 |}.
Proof. reflexivity. Qed.

(** C8, as stated, fails.  A 404 whose body carries an empty [error] next to
    a [message] yields the message, not the error field that is present; and
    a 502 whose body is not JSON yields status 500 with the parser's
    message, not the response's status code. *)
Lemma C8_counterexample :
  fst (Client.request Node.node (Client.client Sample.env) "GET" "/shipments" VUndefined
         (Sample.always Sample.empty_error) [])
  = Normal {| Client.data := VUndefined; Client.error := VStr "boom"; Client.status := 404 |}
  /\ fst (Client.request Node.node (Client.client Sample.env) "GET" "/shipments" VUndefined
            (Sample.always Sample.bad_gateway) [])
     = Normal {| Client.data := VUndefined;
                 Client.error := VStr "Unexpected token < in JSON at position 0";
                 Client.status := 500 |}.
Proof. split; reflexivity. Qed.

(** C8, amended.  An authenticated call whose response status is neither
    2xx, 429 nor 204 and whose body parses to a JSON value other than null
    returns the response's status code and, as message, the body's [error]
    field when it is truthy, else its [message] field when that is truthy,
    else the text HTTP followed by the status. *)
Theorem C8_domain_error_message
  P this method endpoint body (remote : Fetch.Remote) log resp data :
  remote (request_of this method endpoint body) = Normal resp ->
  Fetch.ok resp = false ->
  Fetch.status resp <> 429 ->
  Fetch.status resp <> 204 ->
  Fetch.json resp = Normal data ->
  nullish data = false ->
  Client.request P this method endpoint body remote log
  = (Normal {| Client.data := VUndefined;
               Client.error :=
                 if truthy (prop data "error") then prop data "error"
                 else if truthy (prop data "message") then prop data "message"
                 else VStr ("HTTP " ++ Number_toString (Fetch.status resp));
               Client.status := Fetch.status resp |},
     (log ++ [request_of this method endpoint body])%list).
Proof.
  intros Hremote Hok H429 H204 Hjson Hnull.
  rewrite request_normalizes, Hremote. unfold normalized.
  apply Z.eqb_neq in H429, H204.
  rewrite H429, H204, Hjson, Hok, Hnull. reflexivity.
Qed.

Lemma C8_witness :
  Client.request Node.node (Client.client Sample.env) "GET" "/shipments/9" VUndefined
    (Sample.always Sample.not_found) []
  = (Normal {| Client.data := VUndefined;
               Client.error := VStr "not found";
               Client.status := 404 |},
     [Sample.get_request "https://chitchats.com/api/v1/clients/c1/shipments/9"]).
Proof.
  refine (C8_domain_error_message Node.node (Client.client Sample.env) "GET" "/shipments/9"
            VUndefined (Sample.always Sample.not_found) [] Sample.not_found
            (VObj [("error", VStr "not found")]) eq_refl eq_refl _ _ eq_refl eq_refl);
    simpl; lia.
Defined.




(** ** The public tracking path *)

(** C4.  The public tracking call does not normalise by status.  On a 404
    whose body is an error object, [request] returns the error and the
    status, while [getPublicTracking] returns the body as data with no
    error, and [trackShipment] renders it as tracking information; on a 429
    it returns the body as data as well. *)
Theorem C4_public_tracking_skips_normalization :
  Fetch.run (Client.getPublicTracking Node.node Sample.env (VStr "ABC"))
    (Sample.always Sample.not_found)
  = (Normal {| Client.data := VObj [("error", VStr "not found")];
               Client.error := VUndefined;
               Client.status := 404 |},
     [ {| Fetch.url := "https://chitchats.com/tracking/ABC.json";
          Fetch.method := "GET";
          Fetch.headers := [];
          Fetch.body := None |} ])
  /\ fst (Fetch.run (Client.get Node.node (Client.client Sample.env) "/shipments/ABC")
            (Sample.always Sample.not_found))
     = Normal {| Client.data := VUndefined;
                 Client.error := VStr "not found";
                 Client.status := 404 |}
  /\ fst (Fetch.run (Tracking.trackShipment Node.node Sample.env (VObj [("id", VStr "ABC")]))
            (Sample.always Sample.not_found))
     = Normal ("## Tracking for Shipment ABC" ++ nl ++ nl ++ "**Status:** Unknown")
  /\ fst (Fetch.run (Client.getPublicTracking Node.node Sample.env (VStr "ABC"))
            (Sample.always Sample.rate_limited_30))
     = Normal {| Client.data := VObj []; Client.error := VUndefined; Client.status := 429 |}.
Proof. repeat split; reflexivity. Qed.

(** ** The dispatcher *)

Lemma switch_unknown name (cs : list (string * Server.Case)) :
  ~ In name (map fst cs) -> Server.switch name cs = None.
Proof.
  induction cs as [|[n c] cs IH]; simpl; intros Hnot; [reflexivity|].
  destruct (String.eqb_spec n name) as [->|Hne].
  - exfalso. apply Hnot. now left.
  - apply IH. intros Hin. apply Hnot. now right.
Qed.

(** The switch has one case per catalogue entry, in the same order. *)
Lemma case_names P env :
  map fst (Server.cases P env) = map Server.name Server.tools.
Proof. reflexivity. Qed.

(** C7. A name that is not in the catalogue yields the text
    Unknown tool: followed by the name, with isError true; nothing is
    validated and nothing is sent. *)
Theorem C7_unknown_tool P env (remote : Fetch.Remote) name args :
  ~ In name (map Server.name Server.tools) ->
  Server.dispatch P env remote name args
  = (Normal {| Server.content := Server.text_content ("Unknown tool: " ++ name);
               Server.isError := Some true |},
     []).
Proof.
  intros Hunknown.
  unfold Server.dispatch, Fetch.run, Server.call_tool, Fetch.catch.
  rewrite switch_unknown by (rewrite case_names; exact Hunknown).
  reflexivity.
Qed.

Lemma C7_witness :
  Server.dispatch Node.node Sample.env (Sample.always Sample.not_found)
    "chitchats_teleport" (VObj [("id", VStr "S1")])
  = (Normal {| Server.content := Server.text_content "Unknown tool: chitchats_teleport";
               Server.isError := Some true |},
     []).
Proof.
  apply (C7_unknown_tool Node.node Sample.env (Sample.always Sample.not_found)
           "chitchats_teleport" (VObj [("id", VStr "S1")])).
  simpl. intuition discriminate.
Defined.

(** *** Validation failures *)

Lemma check_base t p v :
  v <> VUndefined -> Zod.check t p v = Zod.check (base t) p v.
Proof. destruct t; simpl; try reflexivity. destruct v; congruence. Qed.

Lemma field_issue_reported shape props k t i :
  In (k, t) shape -> In i (Zod.check t [PKey k] (Zod.field props k)) ->
  In i (Zod.object_issues shape props).
Proof.
  intros Hin Hi. unfold Zod.object_issues. apply in_flat_map.
  exists (k, t). split; [exact Hin | exact Hi].
Qed.

Lemma existsb_eqb_false s options :
  ~ In s options -> existsb (String.eqb s) options = false.
Proof.
  induction options as [|o options IH]; simpl; intros Hnot; [reflexivity|].
  destruct (String.eqb_spec s o) as [->|Hne]; simpl.
  - exfalso. apply Hnot. now left.
  - apply IH. intros Hin. apply Hnot. now right.
Qed.

(** Every violation is among the issues [parse] throws. *)
Lemma violation_rejected P shape input i :
  Violation shape input i ->
  exists issues, In i issues /\ Zod.parse P shape input = Zod.ZodError P issues.
Proof.
  intros Hv.
  assert (Hobj : forall props, In i (Zod.object_issues shape props) ->
            exists issues, In i issues
              /\ Zod.parse P shape (VObj props) = Zod.ZodError P issues).
  { intros props Hin. exists (Zod.object_issues shape props). split; [exact Hin|].
    unfold Zod.parse. destruct (Zod.object_issues shape props); [destruct Hin | reflexivity]. }
  destruct Hv as [input Hno | props k t Hin Hreq Hown
                 | props k t checks n m Hin Hbase Hown Hcheck Hlt
                 | props k t checks n m Hin Hbase Hown Hcheck Hlt
                 | props k t options s Hin Hbase Hown Hnot].
  - exists [Zod.issue (invalid_type "object" input) []]. split; [now left|].
    destruct input; try reflexivity. exfalso. eapply Hno. reflexivity.
  - apply Hobj. apply (field_issue_reported shape props k t); [exact Hin|].
    unfold Zod.field. rewrite Hown.
    destruct t; simpl in *; try discriminate; now left.
  - apply Hobj. apply (field_issue_reported shape props k t); [exact Hin|].
    unfold Zod.field. rewrite Hown, check_base by discriminate. rewrite Hbase. simpl.
    apply in_flat_map. exists (Zod.min m). split; [exact Hcheck|].
    simpl. apply Z.ltb_lt in Hlt. rewrite Hlt. now left.
  - apply Hobj. apply (field_issue_reported shape props k t); [exact Hin|].
    unfold Zod.field. rewrite Hown, check_base by discriminate. rewrite Hbase. simpl.
    apply in_flat_map. exists (Zod.max m). split; [exact Hcheck|].
    simpl. apply Z.ltb_lt in Hlt. rewrite Hlt. now left.
  - apply Hobj. apply (field_issue_reported shape props k t); [exact Hin|].
    unfold Zod.field. rewrite Hown, check_base by discriminate. rewrite Hbase. simpl.
    rewrite existsb_eqb_false by exact Hnot. now left.
Qed.

(** C5. For every case of the switch and every argument structure that
    breaks the case's schema (a required field missing, a number outside its
    bounds, a string outside its enumeration, or no object at all), the call
    returns isError true with the text Error: followed by the message of the
    ZodError whose issues include the one naming the field and the
    constraint; no request is sent. *)
Theorem C5_validation_failure_sends_nothing
  P env (remote : Fetch.Remote) name c args i :
  Server.switch name (Server.cases P env) = Some c ->
  Violation (Server.schema c) (Server.parse_input c args) i ->
  exists issues,
    In i issues
    /\ Server.dispatch P env remote name args
       = (Normal {| Server.content :=
                      Server.text_content ("Error: " ++ ZodError_message P issues);
                    Server.isError := Some true |},
          []).
Proof.
  intros Hcase Hv.
  destruct (violation_rejected P _ _ _ Hv) as [issues [Hin Hparse]].
  exists issues. split; [exact Hin|].
  unfold Server.dispatch, Fetch.run, Server.call_tool, Fetch.catch.
  rewrite Hcase. unfold Server.run_case, Fetch.bind, Fetch.lift.
  rewrite Hparse. reflexivity.
Qed.

Lemma C5_witness :
  exists issues,
    In (Zod.issue (invalid_type "string" VUndefined) [PKey "id"]) issues
    /\ Server.dispatch Node.node Sample.env (Sample.always Sample.not_found)
         "chitchats_get_shipment" (VObj [("ID", VStr "S1")])
       = (Normal {| Server.content :=
                      Server.text_content
                        ("Error: " ++ ZodError_message Node.node issues);
                    Server.isError := Some true |},
          []).
Proof.
  refine (C5_validation_failure_sends_nothing Node.node Sample.env
            (Sample.always Sample.not_found) "chitchats_get_shipment"
            (Server.case_ Schemas.GetShipmentSchema false
               (Shipments.getShipment Node.node Sample.env))
            (VObj [("ID", VStr "S1")]) _ eq_refl _).
  apply (missing_required Schemas.GetShipmentSchema [("ID", VStr "S1")] "id" Zod.string_).
  - simpl. now left.
  - reflexivity.
  - reflexivity.
Defined.

(** A limit of 0 and a status outside the enumeration are rejected the same
    way. *)
Example limit_zero_is_rejected :
  Server.dispatch Node.node Sample.env (Sample.always Sample.not_found)
    "chitchats_list_batches" (VObj [("limit", VNum 0); ("status", VStr "lost")])
  = (Normal {| Server.content :=
                 Server.text_content
                   "Error: limit: too_small, minimum 1; status: invalid_enum_value, received lost";
               Server.isError := Some true |},
     []).
Proof. reflexivity. Qed.

(** ** The count handlers *)



(** Through the dispatcher: an empty 204 answer and a payload without a
    count both read as 0. *)
Example count_of_an_empty_answer :
  fst (Server.dispatch Node.node Sample.env
         (Sample.always (Sample.response 204 None (Throw NotAnError)))
         "chitchats_count_batches" VUndefined)
  = Normal {| Server.content := Server.text_content "Total batches: 0";
              Server.isError := None |}
  /\ fst (Server.dispatch Node.node Sample.env
            (Sample.always (Sample.ok_json (VObj [("total", VNum 7)])))
            "chitchats_count_shipments" (VObj [("status", VStr "ready")]))
     = Normal {| Server.content :=
                   Server.text_content
                     ("Total shipments with status " ++ dquote ++ "ready" ++ dquote ++ ": 0");
                 Server.isError := None |}.
Proof. split; reflexivity. Qed.

(** ** Validated parameters and the request body *)

Lemma own_object_output shape props k :
  own (Zod.object_output shape props) k
  = match declared shape k with
    | Some _ => own props k
    | None => None
    end.
Proof.
  induction shape as [|[n t] shape IH]; simpl; [reflexivity|].
  destruct (String.eqb_spec n k) as [->|Hne].
  - destruct (own props k) as [v|] eqn:Hown; simpl.
    + now rewrite String.eqb_refl.
    + rewrite IH. now destruct (declared shape k).
  - destruct (own props n) as [v|]; simpl; [|exact IH].
    destruct (String.eqb_spec n k); [contradiction | exact IH].
Qed.

Lemma own_app (a b : list (string * value)) k :
  own (a ++ b)%list k = match own a k with
                        | Some x => Some x
                        | None => own b k
                        end.
Proof.
  induction a as [|[n v] a IH]; simpl; [reflexivity|].
  destruct (n =? k)%string; [reflexivity | exact IH].
Qed.

Lemma own_assign_if body name v k :
  own (assign_if body name v) k
  = match own body k with
    | Some x => Some x
    | None => if ((name =? k)%string && truthy v)%bool then Some v else None
    end.
Proof.
  unfold assign_if. destruct (truthy v).
  - rewrite own_app. simpl. destruct (own body k); [reflexivity|].
    now destruct (name =? k)%string.
  - destruct (own body k); [reflexivity|]. now rewrite andb_false_r.
Qed.

Lemma createShipment_body_forwards P params :
  nullish params = false ->
  exists body,
    Shipments.createShipment_body P params = Normal (VObj body)
    /\ forall k, own body k = forwarded params k.
Proof.
  intros Hobj. unfold Shipments.createShipment_body, read. rewrite Hobj.
  eexists. split; [reflexivity|].
  intros k. cbv zeta. rewrite !own_assign_if. unfold forwarded.
  cbn [own declared Schemas.CreateShipmentSchema].
  repeat match goal with
    | |- context [(?n =? k)%string] =>
        destruct (String.eqb_spec n k) as [<-|?];
        [cbn; repeat match goal with
              | |- context [truthy ?v] => destruct (truthy v)
              end; reflexivity
        |]
    end.
  reflexivity.
Qed.

(** C6, as stated, fails.  A weight of 0 and an empty second address line
    pass validation and are part of the validated parameters, yet
    [createShipment] leaves both out of the request body. *)
Lemma C6_counterexample :
  Zod.parse Node.node Schemas.CreateShipmentSchema
    (VObj [("name", VStr "Ann"); ("address_1", VStr "1 Main St"); ("address_2", VStr "");
           ("city", VStr "Ottawa"); ("province_code", VStr "ON");
           ("postal_code", VStr "K1A0B1"); ("country_code", VStr "CA");
           ("weight", VNum 0)])
  = Normal (VObj [("name", VStr "Ann"); ("address_1", VStr "1 Main St");
                  ("address_2", VStr ""); ("city", VStr "Ottawa");
                  ("province_code", VStr "ON"); ("postal_code", VStr "K1A0B1");
                  ("country_code", VStr "CA"); ("weight", VNum 0)])
  /\ Shipments.createShipment_body Node.node
       (VObj [("name", VStr "Ann"); ("address_1", VStr "1 Main St");
              ("address_2", VStr ""); ("city", VStr "Ottawa");
              ("province_code", VStr "ON"); ("postal_code", VStr "K1A0B1");
              ("country_code", VStr "CA"); ("weight", VNum 0)])
     = Normal (VObj [("name", VStr "Ann"); ("address_1", VStr "1 Main St");
                     ("city", VStr "Ottawa"); ("province_code", VStr "ON");
                     ("postal_code", VStr "K1A0B1"); ("country_code", VStr "CA")]).
Proof. split; reflexivity. Qed.

(** C6, amended.  Validation yields an object with the declared fields the
    input carries and nothing else: an optional field the input lacks is
    left out, an extra field is dropped.  Of the validated parameters,
    [createShipment] forwards in the request body every required field and
    every optional field whose value is truthy, with the validated value,
    and no other key; that body, serialised, is what the one request
    carries. *)
Theorem C6_declared_fields_only P :
  (forall shape props params,
     Zod.parse P shape (VObj props) = Normal params ->
     exists out,
       params = VObj out
       /\ forall k, own out k = match declared shape k with
                                | Some _ => own props k
                                | None => None
                                end)
  /\ (forall params,
        nullish params = false ->
        exists body,
          Shipments.createShipment_body P params = Normal (VObj body)
          /\ forall k, own body k = forwarded params k)
  /\ (forall env params body (remote : Fetch.Remote),
        Shipments.createShipment_body P params = Normal body ->
        snd (Fetch.run (Shipments.createShipment P env params) remote)
        = [request_of (Client.client env) "POST" "/shipments" body]).
Proof.
  split; [|split].
  - intros shape props params Hparse. unfold Zod.parse in Hparse.
    destruct (Zod.object_issues shape props); [|discriminate].
    injection Hparse as <-. eexists. split; [reflexivity|].
    intros k. apply own_object_output.
  - intros params Hobj. now apply createShipment_body_forwards.
  - intros env params body remote Hbody.
    unfold Fetch.run, Shipments.createShipment, Fetch.bind, Fetch.lift, Client.post.
    rewrite Hbody, request_normalizes. reflexivity.
Qed.

(** ** The error flag *)


(** A remote failure of [listShipments] comes back as the handler's text,
    without an isError key, whatever the failure is. *)
Lemma listShipments_reports_remote_failure P env (remote : Fetch.Remote) e status :
  normalized P (remote (request_of (Client.client env) "GET" "/shipments" VUndefined))
  = failure (VStr e) status ->
  e <> "" ->
  Server.dispatch P env remote "chitchats_list_shipments" VUndefined
  = (Normal {| Server.content := Server.text_content ("Error listing shipments: " ++ e);
               Server.isError := None |},
     [request_of (Client.client env) "GET" "/shipments" VUndefined]).
Proof.
  intros Hfail He.
  unfold Server.dispatch, Fetch.run, Server.call_tool, Fetch.catch.
  cbn [Server.switch Server.cases String.eqb Ascii.eqb Bool.eqb].
  unfold Server.run_case, Fetch.bind, Fetch.lift.
  cbn -[Client.request normalized request_of].
  unfold Fetch.bind, Fetch.lift, Fetch.ret, Client.get.
  rewrite request_normalizes, Hfail.
  unfold Shipments.listShipments_format, failure. cbn [Client.error truthy].
  apply String.eqb_neq in He. rewrite He. simpl.
  now rewrite append_empty.
Qed.


(** ** Repeating a call *)

Section Stability.
Import Fetch.

Lemma stable_ret {A} (a : A) : Stable (ret a).
Proof.
  split.
  - intros remote log. exists []. simpl. now rewrite app_nil_r.
  - reflexivity.
Qed.

Lemma stable_lift {A} (c : Completion A) : Stable (lift c).
Proof.
  split.
  - intros remote log. exists []. simpl. now rewrite app_nil_r.
  - reflexivity.
Qed.

Lemma stable_fetch req : Stable (fetch req).
Proof.
  split.
  - intros remote log. now exists [req].
  - intros r1 r2 log Hsame. unfold fetch. rewrite (Hsame req); [reflexivity|].
    simpl. apply in_or_app. right. now left.
Qed.

Lemma stable_bind {A B} (c : Async A) (k : A -> Async B) :
  Stable c -> (forall a, Stable (k a)) -> Stable (bind c k).
Proof.
  intros [Hgrow Hsame] Hk. split.
  - intros remote log. unfold bind.
    destruct (Hgrow remote log) as [e1 He1].
    destruct (c remote log) as [[a|e] log']; simpl in *.
    + destruct (Hk a) as [Hgrowk _]. destruct (Hgrowk remote log') as [e2 He2].
      exists (e1 ++ e2)%list. rewrite He2, He1. now rewrite app_assoc.
    + now exists e1.
  - intros r1 r2 log Hreq. unfold bind in *.
    assert (Hc : c r2 log = c r1 log).
    { apply Hsame. intros req Hin. apply Hreq.
      destruct (c r1 log) as [[a|e] log']; simpl in *; [|exact Hin].
      destruct (Hk a) as [Hgrowk _]. destruct (Hgrowk r1 log') as [e2 He2].
      rewrite He2. apply in_or_app. now left. }
    rewrite Hc. destruct (c r1 log) as [[a|e] log']; [|reflexivity].
    destruct (Hk a) as [_ Hsamek]. now apply Hsamek.
Qed.

Lemma stable_catch {A} (c : Async A) (h : Thrown -> Async A) :
  Stable c -> (forall e, Stable (h e)) -> Stable (catch c h).
Proof.
  intros [Hgrow Hsame] Hh. split.
  - intros remote log. unfold catch.
    destruct (Hgrow remote log) as [e1 He1].
    destruct (c remote log) as [[a|e] log']; simpl in *.
    + now exists e1.
    + destruct (Hh e) as [Hgrowh _]. destruct (Hgrowh remote log') as [e2 He2].
      exists (e1 ++ e2)%list. rewrite He2, He1. now rewrite app_assoc.
  - intros r1 r2 log Hreq. unfold catch in *.
    assert (Hc : c r2 log = c r1 log).
    { apply Hsame. intros req Hin. apply Hreq.
      destruct (c r1 log) as [[a|e] log']; simpl in *; [exact Hin|].
      destruct (Hh e) as [Hgrowh _]. destruct (Hgrowh r1 log') as [e2 He2].
      rewrite He2. apply in_or_app. now left. }
    rewrite Hc. destruct (c r1 log) as [[a|e] log']; [reflexivity|].
    destruct (Hh e) as [_ Hsameh]. now apply Hsameh.
Qed.

Lemma stable_request P this method endpoint body :
  Stable (Client.request P this method endpoint body).
Proof.
  split.
  - intros remote log. exists [request_of this method endpoint body].
    now rewrite request_normalizes.
  - intros r1 r2 log Hreq. rewrite !request_normalizes.
    rewrite (Hreq (request_of this method endpoint body)); [reflexivity|].
    rewrite request_normalizes. simpl. apply in_or_app. right. now left.
Qed.

End Stability.

Ltac stable :=
  repeat first
    [ apply stable_ret
    | apply stable_lift
    | apply stable_fetch
    | apply stable_request
    | apply stable_bind; [|intro; cbv beta]
    | apply stable_catch; [|intro; cbv beta] ].

Lemma stable_getPublicTracking P env id : Stable (Client.getPublicTracking P env id).
Proof. unfold Client.getPublicTracking. stable. Qed.

(** Every handler of the switch is stable. *)
Lemma stable_cases P env :
  Forall (fun nc => forall params, Stable (Server.handler (snd nc) params))
    (Server.cases P env).
Proof.
  unfold Server.cases.
  repeat (constructor; [intros params; simpl;
                        unfold Shipments.listShipments, Shipments.getShipment,
                          Shipments.getShipmentRates, Shipments.getShipmentLabels,
                          Shipments.getShipmentLineItems, Shipments.createShipment,
                          Shipments.deleteShipment, Shipments.buyPostage,
                          Shipments.refundShipment, Shipments.refreshRates,
                          Shipments.countShipments, Batches.listBatches,
                          Batches.createBatch, Batches.getBatch, Batches.deleteBatch,
                          Batches.addToBatch, Batches.removeFromBatch,
                          Batches.countBatches, Returns.listReturns,
                          Tracking.trackShipment,
                          Client.get, Client.post, Client.patch, Client.delete;
                        stable; apply stable_getPublicTracking|]).
  constructor.
Qed.

Lemma switch_In name (cs : list (string * Server.Case)) c :
  Server.switch name cs = Some c -> In (name, c) cs.
Proof.
  induction cs as [|[n c'] cs IH]; simpl; [discriminate|].
  destruct (String.eqb_spec n name) as [->|Hne].
  - intros H. injection H as ->. now left.
  - intros H. right. now apply IH.
Qed.

Lemma stable_call_tool P env name args : Stable (Server.call_tool P env name args).
Proof.
  unfold Server.call_tool.
  apply stable_catch; [|intro; apply stable_ret].
  destruct (Server.switch name (Server.cases P env)) as [c|] eqn:Hcase;
    [|apply stable_ret].
  apply stable_bind; [|intro; apply stable_ret].
  unfold Server.run_case. apply stable_bind; [apply stable_lift|].
  intros params.
  pose proof (stable_cases P env) as Hall.
  rewrite Forall_forall in Hall.
  exact (Hall (name, c) (switch_In _ _ _ Hcase) params).
Qed.

(** A call's result and log depend on the remote only through the answers
    to the requests the call sends. *)
Lemma dispatch_depends_on_answers P env name args (r1 r2 : Fetch.Remote) :
  (forall req, In req (snd (Server.dispatch P env r1 name args)) -> r2 req = r1 req) ->
  Server.dispatch P env r2 name args = Server.dispatch P env r1 name args.
Proof.
  intros Hsame. unfold Server.dispatch, Fetch.run in *.
  destruct (stable_call_tool P env name args) as [_ Hstable].
  now apply Hstable.
Qed.

(** The text of [listShipments] and of [getShipment] is a function of the
    validated parameters and of the answer to the one request sent. *)
Lemma listShipments_by_answer P env params (remote : Fetch.Remote) :
  fst (Fetch.run (Shipments.listShipments P env params) remote)
  = match Shipments.listShipments_endpoint P params with
    | Normal endpoint =>
        Shipments.listShipments_format P
          (normalized P (remote (request_of (Client.client env) "GET" endpoint VUndefined)))
    | Throw e => Throw e
    end.
Proof.
  unfold Fetch.run, Shipments.listShipments, Fetch.bind, Fetch.lift, Client.get.
  destruct (Shipments.listShipments_endpoint P params) as [endpoint|e]; [|reflexivity].
  now rewrite request_normalizes.
Qed.

Lemma getShipment_by_answer P env params (remote : Fetch.Remote) :
  fst (Fetch.run (Shipments.getShipment P env params) remote)
  = match template P [T "/shipments/"; R params "id"] with
    | Normal endpoint =>
        Shipments.getShipment_format P params
          (normalized P (remote (request_of (Client.client env) "GET" endpoint VUndefined)))
    | Throw e => Throw e
    end.
Proof.
  unfold Fetch.run, Shipments.getShipment, Fetch.bind, Fetch.lift, Client.get.
  destruct (template P [T "/shipments/"; R params "id"]) as [endpoint|e]; [|reflexivity].
  now rewrite request_normalizes.
Qed.

(** C9. Dispatching a read-only operation twice with the same arguments,
    the remote answering the second time what it answered the first time
    to every request the call sends, yields the same result: the same text,
    the same error flag, the same requests. *)
Theorem C9_read_only_call_repeats P env name args (first second : Fetch.Remote) :
  In (Server.read_only name) Server.tools ->
  (forall req,
     In req (snd (Server.dispatch P env first name args)) -> second req = first req) ->
  Server.dispatch P env second name args = Server.dispatch P env first name args.
Proof.
  intros _ Hsame. now apply dispatch_depends_on_answers.
Qed.

Lemma C9_witness :
  Server.dispatch Node.node Sample.env
    (one_shipment "https://chitchats.com/api/v1/clients/c1/shipments/S1")
    "chitchats_get_shipment" (VObj [("id", VStr "S1")])
  = Server.dispatch Node.node Sample.env
      (Sample.always
         (Sample.ok_json
            (VObj [("shipment",
                    VObj [("id", VStr "S1"); ("status", VStr "ready");
                          ("to_name", VStr "Ann"); ("to_city", VStr "Ottawa");
                          ("to_province_code", VStr "ON");
                          ("to_country_code", VStr "CA");
                          ("created_at", VStr "2024-01-01")])])))
      "chitchats_get_shipment" (VObj [("id", VStr "S1")]).
Proof.
  apply (C9_read_only_call_repeats Node.node Sample.env "chitchats_get_shipment"
           (VObj [("id", VStr "S1")])).
  - simpl. tauto.
  - intros req Hin. vm_compute in Hin. destruct Hin as [<-|[]]. reflexivity.
Defined.

(** What that call returns. *)
Example get_shipment_text :
  fst (Server.dispatch Node.node Sample.env
         (one_shipment "https://chitchats.com/api/v1/clients/c1/shipments/S1")
         "chitchats_get_shipment" (VObj [("id", VStr "S1")]))
  = Normal {| Server.content :=
                Server.text_content
                  (join nl ["## Shipment S1"; ""; "**Status:** ready"; ""; "### Recipient";
                            "**Name:** Ann"; "**City:** Ottawa, ON "; "**Country:** CA";
                            ""; "### Package"; ""; "### Shipping"; ""; "### Cost Breakdown";
                            ""; "**Created:** 2024-01-01"]);
              Server.isError := None |}.
Proof. reflexivity. Qed.


(** * Further properties of the code *)

(** ** client.ts *)

(** X1. An authenticated call answered with status 204 returns the empty
    success: status 204, no data, no error.  The body is not read, so the
    result is the same whether or not the body would parse. *)
Theorem request_204_is_empty_success
  P this method endpoint body (remote : Fetch.Remote) log resp :
  remote (request_of this method endpoint body) = Normal resp ->
  Fetch.status resp = 204 ->
  Client.request P this method endpoint body remote log
  = (Normal {| Client.data := VUndefined; Client.error := VUndefined;
               Client.status := 204 |},
     (log ++ [request_of this method endpoint body])%list).
Proof.
  intros Hremote Hstatus.
  rewrite request_normalizes, Hremote. unfold normalized. now rewrite Hstatus.
Qed.

Lemma request_204_is_empty_success_witness :
  Client.request Node.node (Client.client Sample.env) "DELETE" "/shipments/S1" VUndefined
    (Sample.always (Sample.response 204 None (Throw (ErrorInstance "Unexpected end of JSON input"))))
    []
  = (Normal {| Client.data := VUndefined; Client.error := VUndefined;
               Client.status := 204 |},
     [request_of (Client.client Sample.env) "DELETE" "/shipments/S1" VUndefined]).
Proof.
  exact (request_204_is_empty_success Node.node (Client.client Sample.env) "DELETE"
           "/shipments/S1" VUndefined _ []
           (Sample.response 204 None (Throw (ErrorInstance "Unexpected end of JSON input")))
           eq_refl eq_refl).
Defined.

(** X2. A transport failure is returned as data with status 500: when
    [fetch] rejects, and when the body of a response (of any status other
    than 429 and 204, a 2xx included) does not parse.  The message is the
    error's message, or Unknown error when what was thrown is no Error; the
    response's own status code is not kept. *)
Theorem request_transport_failure_is_status_500
  P this method endpoint body (remote : Fetch.Remote) log err :
  remote (request_of this method endpoint body) = Throw err
  \/ (exists resp,
        remote (request_of this method endpoint body) = Normal resp
        /\ Fetch.status resp <> 429 /\ Fetch.status resp <> 204
        /\ Fetch.json resp = Throw err) ->
  Client.request P this method endpoint body remote log
  = (Normal {| Client.data := VUndefined;
               Client.error := VStr (match err with
                                     | ErrorInstance message => message
                                     | NotAnError => "Unknown error"
                                     end);
               Client.status := 500 |},
     (log ++ [request_of this method endpoint body])%list).
Proof.
  intros [Hremote | [resp [Hremote [H429 [H204 Hjson]]]]];
    rewrite request_normalizes, Hremote; unfold normalized; [reflexivity|].
  apply Z.eqb_neq in H429, H204. now rewrite H429, H204, Hjson.
Qed.

Lemma request_transport_failure_is_status_500_witness :
  Client.request Node.node (Client.client Sample.env) "GET" "/shipments" VUndefined
    (Sample.always (Sample.response 200 None (Throw NotAnError))) []
  = (Normal {| Client.data := VUndefined; Client.error := VStr "Unknown error";
               Client.status := 500 |},
     [request_of (Client.client Sample.env) "GET" "/shipments" VUndefined]).
Proof.
  refine (request_transport_failure_is_status_500 Node.node (Client.client Sample.env)
            "GET" "/shipments" VUndefined _ [] NotAnError
            (or_intror (ex_intro _ (Sample.response 200 None (Throw NotAnError))
                          (conj eq_refl (conj _ (conj _ eq_refl))))));
    simpl; lia.
Defined.

(** X3. A response outside 2xx (and not 429 or 204) whose body is the JSON
    value null loses its status: reading the error field of null raises a
    TypeError inside the client, which returns it as a failure with status
    500. *)
Theorem request_null_error_body_is_status_500
  P this method endpoint body (remote : Fetch.Remote) log resp :
  remote (request_of this method endpoint body) = Normal resp ->
  Fetch.ok resp = false ->
  Fetch.status resp <> 429 ->
  Fetch.json resp = Normal VNull ->
  Client.request P this method endpoint body remote log
  = (Normal {| Client.data := VUndefined;
               Client.error :=
                 VStr (TypeError_message P (CannotReadProperty VNull "error"));
               Client.status := 500 |},
     (log ++ [request_of this method endpoint body])%list).
Proof.
  intros Hremote Hok H429 Hjson.
  rewrite request_normalizes, Hremote. unfold normalized.
  apply Z.eqb_neq in H429. rewrite H429, Hjson, Hok.
  destruct (Fetch.status resp =? 204) eqn:H204; [|reflexivity].
  apply Z.eqb_eq in H204. unfold Fetch.ok in Hok. rewrite H204 in Hok. discriminate.
Qed.

Lemma request_null_error_body_is_status_500_witness :
  Client.request Node.node (Client.client Sample.env) "GET" "/shipments" VUndefined
    (Sample.always (Sample.response 503 None (Normal VNull))) []
  = (Normal {| Client.data := VUndefined;
               Client.error := VStr "Cannot read properties of null (reading 'error')";
               Client.status := 500 |},
     [request_of (Client.client Sample.env) "GET" "/shipments" VUndefined]).
Proof.
  refine (request_null_error_body_is_status_500 Node.node (Client.client Sample.env)
            "GET" "/shipments" VUndefined _ [] (Sample.response 503 None (Normal VNull))
            eq_refl eq_refl _ eq_refl).
  simpl; lia.
Defined.

(** X4. The body of a 2xx response other than 204 is returned as data
    without being inspected: whatever it holds, an error field included,
    the result carries no error. *)
Theorem request_success_keeps_the_body
  P this method endpoint body (remote : Fetch.Remote) log resp data :
  remote (request_of this method endpoint body) = Normal resp ->
  Fetch.ok resp = true ->
  Fetch.status resp <> 204 ->
  Fetch.json resp = Normal data ->
  Client.request P this method endpoint body remote log
  = (Normal {| Client.data := data; Client.error := VUndefined;
               Client.status := Fetch.status resp |},
     (log ++ [request_of this method endpoint body])%list).
Proof.
  intros Hremote Hok H204 Hjson.
  rewrite request_normalizes, Hremote. unfold normalized.
  apply Z.eqb_neq in H204. rewrite H204, Hjson, Hok.
  destruct (Fetch.status resp =? 429) eqn:H429; [|reflexivity].
  apply Z.eqb_eq in H429. unfold Fetch.ok in Hok. rewrite H429 in Hok. discriminate.
Qed.

Lemma request_success_keeps_the_body_witness :
  Client.request Node.node (Client.client Sample.env) "GET" "/shipments/S1" VUndefined
    (Sample.always (Sample.ok_json (VObj [("error", VStr "ignored")]))) []
  = (Normal {| Client.data := VObj [("error", VStr "ignored")];
               Client.error := VUndefined;
               Client.status := 200 |},
     [request_of (Client.client Sample.env) "GET" "/shipments/S1" VUndefined]).
Proof.
  refine (request_success_keeps_the_body Node.node (Client.client Sample.env)
            "GET" "/shipments/S1" VUndefined _ []
            (Sample.ok_json (VObj [("error", VStr "ignored")])) _
            eq_refl eq_refl _ eq_refl).
  simpl; lia.
Defined.

(** What [getPublicTracking] does for any identifier: when the identifier
    converts to a string it sends one request and returns what [tracked]
    makes of the answer; when it does not, nothing is sent. *)
Lemma getPublicTracking_normalizes P env id remote log :
  Client.getPublicTracking P env id remote log
  = match ToString P id with
    | Normal s =>
        (Normal (tracked (remote (tracking_request env s))),
         (log ++ [tracking_request env s])%list)
    | Throw err => (Normal (failure (VStr (Client.err_message err)) 500), log)
    end.
Proof.
  unfold Client.getPublicTracking, Fetch.catch, Fetch.bind, Fetch.lift, Fetch.fetch,
    Fetch.ret.
  cbn [template cbind].
  destruct (ToString P id) as [s|err]; cbn [cbind]; [|reflexivity].
  rewrite append_empty. fold (tracking_request env s).
  unfold tracked.
  destruct (remote (tracking_request env s)) as [resp|err]; [|reflexivity].
  destruct (Fetch.json resp) as [data|err]; reflexivity.
Qed.

(** X5. The public tracking call never throws.  For a shipment identifier
    (a string) it sends exactly one request: a GET of the base URL followed
    by /tracking/, the identifier and .json, with no header at all (no
    credential) and no body.  When the body parses it is returned as data
    with the response's status and no error, whatever the status is; a
    rejected fetch or a body that does not parse gives status 500. *)
Theorem public_tracking_sends_one_bare_get P env id (remote : Fetch.Remote) log :
  Client.getPublicTracking P env (VStr id) remote log
  = (Normal (tracked (remote (tracking_request env id))),
     (log ++ [tracking_request env id])%list)
  /\ Fetch.headers (tracking_request env id) = []
  /\ (forall resp data,
        remote (tracking_request env id) = Normal resp ->
        Fetch.json resp = Normal data ->
        fst (Client.getPublicTracking P env (VStr id) remote log)
        = Normal {| Client.data := data; Client.error := VUndefined;
                    Client.status := Fetch.status resp |}).
Proof.
  split; [|split].
  - now rewrite getPublicTracking_normalizes.
  - reflexivity.
  - intros resp data Hremote Hjson.
    rewrite getPublicTracking_normalizes. cbn [ToString fst].
    unfold tracked. now rewrite Hremote, Hjson.
Qed.

(** ** schemas.ts and [parse] *)

Lemma declared_In shape k t :
  In (k, t) shape -> exists t', declared shape k = Some t'.
Proof.
  induction shape as [|[n u] shape IH]; simpl; [intros []|].
  intros [Heq | Hin].
  - injection Heq as -> ->. rewrite String.eqb_refl. now exists t.
  - destruct (n =? k)%string; [now exists u | now apply IH].
Qed.

Lemma object_issues_agree (l : Zod.ZodObject) props props' :
  (forall kt, In kt l -> own props (fst kt) = own props' (fst kt)) ->
  Zod.object_issues l props = Zod.object_issues l props'.
Proof.
  unfold Zod.object_issues.
  induction l as [|[k t] l IH]; simpl; intros Hagree; [reflexivity|].
  pose proof (Hagree (k, t) (or_introl eq_refl)) as Hk. simpl in Hk.
  unfold Zod.field at 1 3. rewrite Hk.
  f_equal. apply IH. intros kt Hin. apply Hagree. now right.
Qed.

Lemma object_output_agree (l : Zod.ZodObject) props props' :
  (forall kt, In kt l -> own props (fst kt) = own props' (fst kt)) ->
  Zod.object_output l props = Zod.object_output l props'.
Proof.
  induction l as [|[k t] l IH]; simpl; intros Hagree; [reflexivity|].
  pose proof (Hagree (k, t) (or_introl eq_refl)) as Hk. simpl in Hk.
  rewrite Hk.
  rewrite IH; [reflexivity|]. intros kt Hin. apply Hagree. now right.
Qed.

(** The parsed object agrees with the input on every declared key. *)
Lemma object_output_keeps_declared shape props kt :
  In kt shape -> own (Zod.object_output shape props) (fst kt) = own props (fst kt).
Proof.
  intros Hin. destruct kt as [k t]. cbn [fst]. rewrite own_object_output.
  destruct (declared_In _ _ _ Hin) as [t' ->]. reflexivity.
Qed.

(** X6. Parsing is idempotent: parsing what [parse] returned, with the
    same schema, succeeds and returns it unchanged. *)
Theorem parse_is_idempotent P shape input params :
  Zod.parse P shape input = Normal params ->
  Zod.parse P shape params = Normal params.
Proof.
  unfold Zod.parse. destruct input; try discriminate.
  destruct (Zod.object_issues shape props) eqn:Hissues; [|discriminate].
  intros H. injection H as <-.
  rewrite (object_issues_agree shape (Zod.object_output shape props) props), Hissues
    by (intros kt Hin; now apply object_output_keeps_declared).
  rewrite (object_output_agree shape (Zod.object_output shape props) props)
    by (intros kt Hin; now apply object_output_keeps_declared).
  reflexivity.
Qed.

Lemma parse_is_idempotent_witness :
  Zod.parse Node.node Schemas.RefreshRatesSchema
    (VObj [("id", VStr "S1"); ("weight", VNum 12)])
  = Normal (VObj [("id", VStr "S1"); ("weight", VNum 12)]).
Proof.
  exact (parse_is_idempotent Node.node Schemas.RefreshRatesSchema
           (VObj [("weight", VNum 12); ("note", VStr "x"); ("id", VStr "S1")])
           (VObj [("id", VStr "S1"); ("weight", VNum 12)]) eq_refl).
Defined.

(** X7. [parse] reads the declared keys only: two input objects that agree
    on every key of the schema are both rejected with the same issues or
    both accepted with the same result. *)
Theorem parse_reads_declared_keys_only P shape props props' :
  (forall k t, In (k, t) shape -> own props k = own props' k) ->
  Zod.parse P shape (VObj props) = Zod.parse P shape (VObj props').
Proof.
  intros Hagree. unfold Zod.parse.
  rewrite (object_issues_agree shape props props'),
    (object_output_agree shape props props');
    try (intros [k t] Hin; now apply (Hagree k t)).
  reflexivity.
Qed.

Lemma parse_reads_declared_keys_only_witness :
  Zod.parse Node.node Schemas.GetShipmentSchema
    (VObj [("id", VStr "S1"); ("verbose", VBool true)])
  = Zod.parse Node.node Schemas.GetShipmentSchema (VObj [("id", VStr "S1")]).
Proof.
  apply (parse_reads_declared_keys_only Node.node Schemas.GetShipmentSchema
           [("id", VStr "S1"); ("verbose", VBool true)] [("id", VStr "S1")]).
  intros k t [Heq | []]. injection Heq as <- <-. reflexivity.
Defined.

Lemma flat_map_nil {A B} (f : A -> list B) l :
  flat_map f l = [] -> forall x, In x l -> f x = [].
Proof.
  induction l as [|a l IH]; simpl; [intros _ x []|].
  intros H x [<- | Hin].
  - now apply app_eq_nil in H.
  - apply IH; [now apply app_eq_nil in H | exact Hin].
Qed.

Lemma check_number_sound p n c : Zod.check_number p n c = [] -> satisfies n c.
Proof.
  destruct c as [m|m]; simpl.
  - destruct (n <? m) eqn:H; [discriminate|]. intros _. apply Z.ltb_ge in H. exact H.
  - destruct (m <? n) eqn:H; [discriminate|]. intros _. apply Z.ltb_ge in H. exact H.
Qed.

Lemma existsb_eqb_In s options :
  existsb (String.eqb s) options = true -> In s options.
Proof.
  intros H. apply existsb_exists in H. destruct H as [o [Hin Heq]].
  apply String.eqb_eq in Heq. now subst.
Qed.

Lemma indexed_checks_sound (item : Zod.ZodType) (Q : value -> Prop) :
  (forall p v, Zod.check item p v = [] -> Q v) ->
  forall l p i,
    flat_map (fun ix => Zod.check item (p ++ [PIndex (fst ix)])%list (snd ix))
      (Zod.indexed i l) = [] ->
    Forall Q l.
Proof.
  intros Hitem l p. induction l as [|x l IH]; intros i H; [constructor|].
  simpl in H. apply app_eq_nil in H. destruct H as [Hx Hl].
  constructor; [now apply (Hitem _ _ Hx) | now apply (IH (S i))].
Qed.

(** A value that raises no issue has the type. *)
Lemma check_sound t : forall p v, Zod.check t p v = [] -> Typed t v.
Proof.
  induction t as [|checks|options|item IH|inner IH]; intros p v H; simpl in H.
  - destruct v; try discriminate. constructor.
  - destruct v; try discriminate. constructor.
    apply Forall_forall. intros c Hc.
    apply (check_number_sound p). exact (flat_map_nil _ _ H c Hc).
  - destruct v; try discriminate.
    destruct (existsb (String.eqb s) options) eqn:Hex; [|discriminate].
    constructor. now apply existsb_eqb_In.
  - destruct v; try discriminate. constructor.
    exact (indexed_checks_sound item (Typed item) IH elems p 0%nat H).
  - destruct v; try (apply typed_present; now apply (IH p)). apply typed_absent.
Qed.

(** The fields of an accepted input raise no issue, so each has its type. *)
Lemma parsed_field_typed P shape input params k t :
  Zod.parse P shape input = Normal params ->
  In (k, t) shape ->
  Typed t (prop params k).
Proof.
  unfold Zod.parse. destruct input; try discriminate.
  destruct (Zod.object_issues shape props) eqn:Hissues; [|discriminate].
  intros H Hin. injection H as <-.
  apply (check_sound t [PKey k]).
  pose proof (object_output_keeps_declared shape props (k, t) Hin) as Hkeep.
  pose proof (flat_map_nil _ _ Hissues (k, t) Hin) as Hcheck.
  cbn [fst snd] in Hkeep, Hcheck. unfold Zod.field in Hcheck.
  cbn [prop]. rewrite Hkeep. exact Hcheck.
Qed.

Lemma parsed_is_object P shape input params :
  Zod.parse P shape input = Normal params -> nullish params = false.
Proof.
  unfold Zod.parse. destruct input; try discriminate.
  destruct (Zod.object_issues shape props); [|discriminate].
  intros H. now injection H as <-.
Qed.

(** X8. What a handler receives is typed: when [parse] accepts an input,
    the result is an object and every declared field of it has its
    declared type: a required field is present, an optional one is
    undefined or present with its type, a number respects its bounds, an
    enumerated string is one of the options, an array holds elements of the
    item type. *)
Theorem validated_parameters_are_typed P shape input params :
  Zod.parse P shape input = Normal params ->
  nullish params = false
  /\ forall k t, In (k, t) shape -> Typed t (prop params k).
Proof.
  intros Hparse. split.
  - exact (parsed_is_object _ _ _ _ Hparse).
  - intros k t. exact (parsed_field_typed _ _ _ _ k t Hparse).
Qed.

Lemma validated_parameters_are_typed_witness :
  Typed (Zod.array_ Zod.string_)
    (prop (VObj [("batch_id", VStr "B1"); ("shipment_ids", VArr [VStr "S1"; VStr "S2"])])
       "shipment_ids").
Proof.
  apply (proj2 (validated_parameters_are_typed Node.node Schemas.AddToBatchSchema
                  (VObj [("shipment_ids", VArr [VStr "S1"; VStr "S2"]);
                         ("batch_id", VStr "B1")])
                  (VObj [("batch_id", VStr "B1");
                         ("shipment_ids", VArr [VStr "S1"; VStr "S2"])])
                  eq_refl) "shipment_ids" (Zod.array_ Zod.string_)).
  simpl. tauto.
Defined.

(** X9. The three listing schemas bound the page size: a validated limit
    is absent or a number from 1 to 1000, a validated page is absent or a
    number that is at least 1. *)
Theorem list_limit_and_page_are_bounded P shape input params :
  In shape [Schemas.ListShipmentsSchema; Schemas.ListBatchesSchema;
            Schemas.ListReturnsSchema] ->
  Zod.parse P shape input = Normal params ->
  (prop params "limit" = VUndefined
   \/ exists n, prop params "limit" = VNum n /\ 1 <= n <= 1000)
  /\ (prop params "page" = VUndefined
      \/ exists n, prop params "page" = VNum n /\ 1 <= n).
Proof.
  intros Hshape Hparse.
  assert (Hlimit : Typed (Zod.optional_ (Zod.number_ [Zod.min 1; Zod.max 1000]))
                     (prop params "limit")).
  { apply (parsed_field_typed P shape input params _ _ Hparse).
    simpl in Hshape. destruct Hshape as [<-|[<-|[<-|[]]]]; simpl; tauto. }
  assert (Hpage : Typed (Zod.optional_ (Zod.number_ [Zod.min 1])) (prop params "page")).
  { apply (parsed_field_typed P shape input params _ _ Hparse).
    simpl in Hshape. destruct Hshape as [<-|[<-|[<-|[]]]]; simpl; tauto. }
  split.
  - inversion Hlimit as [| | | |inner Hi Hv|inner v Hv Hi Hx]; subst; [now left|].
    right. inversion Hv as [|checks n Hall| | | |]; subst.
    exists n. split; [reflexivity|].
    inversion Hall as [|c cs Hmin Hrest]; subst.
    inversion Hrest as [|c cs Hmax _]; subst. simpl in *. lia.
  - inversion Hpage as [| | | |inner Hi Hv|inner v Hv Hi Hx]; subst; [now left|].
    right. inversion Hv as [|checks n Hall| | | |]; subst.
    exists n. split; [reflexivity|].
    inversion Hall as [|c cs Hmin _]; subst. simpl in *. lia.
Qed.

Lemma list_limit_and_page_are_bounded_witness :
  (prop (VObj [("limit", VNum 1000)]) "limit" = VUndefined
   \/ exists n, prop (VObj [("limit", VNum 1000)]) "limit" = VNum n /\ 1 <= n <= 1000)
  /\ (prop (VObj [("limit", VNum 1000)]) "page" = VUndefined
      \/ exists n, prop (VObj [("limit", VNum 1000)]) "page" = VNum n /\ 1 <= n).
Proof.
  apply (list_limit_and_page_are_bounded Node.node Schemas.ListReturnsSchema
           (VObj [("limit", VNum 1000)]) (VObj [("limit", VNum 1000)])).
  - simpl. tauto.
  - reflexivity.
Defined.

(** ** index.ts: the shape of a call *)

(** A call, case by case. *)
Lemma dispatch_unfold P env (remote : Fetch.Remote) name args :
  Server.dispatch P env remote name args
  = match Server.switch name (Server.cases P env) with
    | None =>
        (Normal {| Server.content := Server.text_content ("Unknown tool: " ++ name);
                   Server.isError := Some true |}, [])
    | Some c =>
        match Zod.parse P (Server.schema c) (Server.parse_input c args) with
        | Throw e =>
            (Normal {| Server.content :=
                         Server.text_content ("Error: " ++ Server.error_message e);
                       Server.isError := Some true |}, [])
        | Normal params =>
            match Server.handler c params remote [] with
            | (Normal t, log) =>
                (Normal {| Server.content := Server.text_content t;
                           Server.isError := None |}, log)
            | (Throw e, log) =>
                (Normal {| Server.content :=
                             Server.text_content ("Error: " ++ Server.error_message e);
                           Server.isError := Some true |}, log)
            end
        end
    end.
Proof.
  unfold Server.dispatch, Fetch.run, Server.call_tool, Fetch.catch.
  destruct (Server.switch name (Server.cases P env)) as [c|]; [|reflexivity].
  unfold Server.run_case, Fetch.bind, Fetch.lift, Fetch.ret.
  destruct (Zod.parse P (Server.schema c) (Server.parse_input c args)); [|reflexivity].
  destruct (Server.handler c a remote []) as [[t|e] log]; reflexivity.
Qed.

Lemma trackShipment_by_anatomy P env params remote log :
  Tracking.trackShipment P env params remote log = via_tracking P env params remote log.
Proof.
  unfold Tracking.trackShipment, via_tracking, Fetch.bind, Fetch.lift.
  destruct (read P params "id") as [id|e]; [|reflexivity].
  rewrite getPublicTracking_normalizes.
  destruct (ToString P id); reflexivity.
Qed.

Ltac by_anatomy :=
  intros params remote log;
  unfold via_request, at_endpoint, with_body; cbn [prepare verb render];
  unfold Shipments.listShipments, Shipments.getShipment, Shipments.getShipmentRates,
    Shipments.getShipmentLabels, Shipments.getShipmentLineItems,
    Shipments.createShipment, Shipments.deleteShipment, Shipments.buyPostage,
    Shipments.refundShipment, Shipments.refreshRates, Shipments.countShipments,
    Batches.listBatches, Batches.createBatch, Batches.getBatch, Batches.deleteBatch,
    Batches.addToBatch, Batches.removeFromBatch, Batches.countBatches,
    Returns.listReturns,
    Client.get, Client.post, Client.patch, Client.delete, Fetch.bind, Fetch.lift, cbind;
  repeat match goal with
    | |- match ?c with Normal _ => _ | Throw _ => _ end = _ => destruct c
    end;
  rewrite ?request_normalizes; reflexivity.

(** Every case of the switch before the last is the handler its anatomy
    describes, with the schema the anatomy names. *)
Lemma cases_by_anatomy P env :
  Forall2
    (fun nc na =>
       fst nc = fst na
       /\ Server.schema (snd nc) = shape (snd na)
       /\ forall params remote log,
            Server.handler (snd nc) params remote log
            = via_request P env (snd na) params remote log)
    (removelast (Server.cases P env)) (anatomies P).
Proof.
  unfold Server.cases, anatomies. cbn [removelast].
  repeat (constructor; [split; [reflexivity | split; [reflexivity|]];
                        cbn [snd Server.handler Server.case_]; by_anatomy |]).
  constructor.
Qed.

Lemma Forall2_In_left {A B} (R : A -> B -> Prop) l l' x :
  Forall2 R l l' -> In x l -> exists y, In y l' /\ R x y.
Proof.
  induction 1 as [|a b l l' Hab _ IH]; [intros []|].
  intros [<- | Hin].
  - exists b. split; [now left | exact Hab].
  - destruct (IH Hin) as [y [Hy Hxy]]. exists y. split; [now right | exact Hxy].
Qed.

(** Every case is public tracking or has an anatomy. *)
Lemma dissect P env name c :
  Server.switch name (Server.cases P env) = Some c ->
  (name = "chitchats_track_shipment"
   /\ Server.schema c = Schemas.TrackShipmentSchema
   /\ forall params remote log,
        Server.handler c params remote log = via_tracking P env params remote log)
  \/ (exists a,
        In (name, a) (anatomies P)
        /\ Server.schema c = shape a
        /\ forall params remote log,
             Server.handler c params remote log = via_request P env a params remote log).
Proof.
  intros Hcase. apply switch_In in Hcase.
  assert (Hsplit : Server.cases P env
                   = (removelast (Server.cases P env)
                      ++ [("chitchats_track_shipment",
                           Server.case_ Schemas.TrackShipmentSchema false
                             (Tracking.trackShipment P env))])%list) by reflexivity.
  rewrite Hsplit in Hcase. apply in_app_or in Hcase. destruct Hcase as [Hin | [Heq | []]].
  - right. destruct (Forall2_In_left _ _ _ _ (cases_by_anatomy P env) Hin)
      as [[n a] [Ha [Hname [Hschema Hhandler]]]].
    cbn [fst snd] in *. subst n. exists a. auto.
  - left. injection Heq as <- <-. split; [reflexivity|]. split; [reflexivity|].
    intros params remote log. apply trackShipment_by_anatomy.
Qed.

(** *** What a handler computes before the call never fails on validated
    parameters *)

Lemma typed_string_inv v : Typed Zod.string_ v -> exists s, v = VStr s.
Proof. inversion 1. now eexists. Qed.

Lemma typed_optional_string_inv v :
  Typed (Zod.optional_ Zod.string_) v -> v = VUndefined \/ exists s, v = VStr s.
Proof.
  inversion 1 as [| | | | |inner w Hw]; subst; [now left|].
  right. now apply typed_string_inv.
Qed.

Lemma typed_optional_enum_inv options v :
  Typed (Zod.optional_ (Zod.enum_ options)) v -> v = VUndefined \/ exists s, v = VStr s.
Proof.
  inversion 1 as [| | | | |inner w Hw]; subst; [now left|].
  right. inversion Hw; subst. now eexists.
Qed.

Lemma typed_optional_number_inv checks v :
  Typed (Zod.optional_ (Zod.number_ checks)) v -> v = VUndefined \/ exists n, v = VNum n.
Proof.
  inversion 1 as [| | | | |inner w Hw]; subst; [now left|].
  right. inversion Hw; subst. now eexists.
Qed.

Lemma typed_array_inv item v : Typed (Zod.array_ item) v -> exists l, v = VArr l.
Proof. inversion 1. now eexists. Qed.

Lemma set_if_text P q name v :
  v = VUndefined \/ (exists s, v = VStr s) ->
  exists q', set_if q name v (ToString P v) = Normal q'.
Proof.
  intros [-> | [s ->]]; unfold set_if; cbn [truthy ToString].
  - now eexists.
  - destruct (negb (s =? "")%string); now eexists.
Qed.

Lemma set_if_number P q name expr v :
  v = VUndefined \/ (exists n, v = VNum n) ->
  exists q', set_if q name v (call_toString P expr v) = Normal q'.
Proof.
  intros [-> | [n ->]]; unfold set_if; cbn [truthy call_toString ToString].
  - now eexists.
  - destruct (negb (n =? 0)); now eexists.
Qed.

Lemma template_id P params prefix suffix s :
  nullish params = false ->
  prop params "id" = VStr s ->
  template P [T prefix; R params "id"; T suffix] = Normal (prefix ++ s ++ suffix)
  /\ template P [T prefix; R params "id"] = Normal (prefix ++ s).
Proof.
  intros Hobj Hid. cbn [template]. unfold read. rewrite Hobj, Hid.
  cbn [cbind ToString]. now rewrite !append_empty.
Qed.

(** The typed fields of the parameters, one hypothesis per declared key. *)
Ltac field_facts Hparse :=
  match type of Hparse with
  | Zod.parse ?P ?shape ?input = Normal ?params =>
      let Hobj := fresh "Hobj" in
      pose proof (parsed_is_object P shape input params Hparse) as Hobj;
      let rec go l :=
        lazymatch l with
        | (?k, ?t) :: ?rest =>
            let H := fresh "Hfield" in
            assert (H : Typed t (prop params k))
              by (apply (parsed_field_typed P shape input params k t Hparse);
                  cbn; tauto);
            go rest
        | _ => idtac
        end in
      let l := eval cbv delta [Schemas.ListShipmentsSchema Schemas.GetShipmentSchema
                 Schemas.CreateShipmentSchema Schemas.DeleteShipmentSchema
                 Schemas.BuyPostageSchema Schemas.RefundShipmentSchema
                 Schemas.RefreshRatesSchema Schemas.CountShipmentsSchema
                 Schemas.ListBatchesSchema Schemas.CreateBatchSchema
                 Schemas.GetBatchSchema Schemas.DeleteBatchSchema
                 Schemas.AddToBatchSchema Schemas.RemoveFromBatchSchema
                 Schemas.CountBatchesSchema Schemas.ListReturnsSchema
                 Schemas.TrackShipmentSchema] in shape in
      go l
  end.

(** Runs a chain of [set_if] steps on typed fields. *)
Ltac run_set_if :=
  repeat match goal with
    | |- context [set_if ?q ?name ?v (ToString ?P ?v)] =>
        let q' := fresh "q" in
        let Hq := fresh "Hq" in
        destruct (set_if_text P q name v) as [q' Hq];
        [ first [ apply typed_optional_string_inv; assumption
                | eapply typed_optional_enum_inv; eassumption ]
        | rewrite Hq; cbn [cbind] ]
    | |- context [set_if ?q ?name ?v (call_toString ?P ?expr ?v)] =>
        let q' := fresh "q" in
        let Hq := fresh "Hq" in
        destruct (set_if_number P q name expr v) as [q' Hq];
        [ eapply typed_optional_number_inv; eassumption
        | rewrite Hq; cbn [cbind] ]
    end.

Ltac run_template_id :=
  match goal with
  | Hobj : nullish ?params = false, Hid : Typed Zod.string_ (prop ?params "id") |- _ =>
      let s := fresh "s" in
      let Hs := fresh "Hs" in
      destruct (typed_string_inv _ Hid) as [s Hs];
      repeat match goal with
        | |- context [template ?P [T ?prefix; R params "id"; T ?suffix]] =>
            rewrite (proj1 (template_id P params prefix suffix s Hobj Hs))
        | |- context [template ?P [T ?prefix; R params "id"]] =>
            rewrite (proj2 (template_id P params prefix "" s Hobj Hs))
        end
  end.

Lemma anatomies_prepare P :
  Forall
    (fun na =>
       forall input params,
         Zod.parse P (shape (snd na)) input = Normal params ->
         exists endpoint body, prepare (snd na) params = Normal (endpoint, body))
    (anatomies P).
Proof.
  unfold anatomies.
  repeat (constructor;
          [ cbn [snd shape prepare]; intros input params Hparse;
            field_facts Hparse;
            unfold at_endpoint, with_body, Shipments.listShipments_endpoint,
              Shipments.countShipments_endpoint, Batches.listBatches_endpoint,
              Batches.countBatches_endpoint, Returns.listReturns_endpoint,
              Shipments.createShipment_body, Shipments.refreshRates_body,
              Batches.createBatch_body, Batches.addToBatch_body,
              Batches.removeFromBatch_body, read;
            rewrite ?Hobj; cbn [cbind];
            try run_template_id; run_set_if; cbn [cbind];
            do 2 eexists; reflexivity
          | ]).
  constructor.
Qed.

(** *** What a handler makes of a failed call and of an empty answer *)

Ltac unfold_formats :=
  unfold Shipments.listShipments_format, Shipments.getShipment_format,
    Shipments.getShipmentRates_format, Shipments.getShipmentLabels_format,
    Shipments.getShipmentLineItems_format, Shipments.createShipment_format,
    Shipments.deleteShipment_format, Shipments.buyPostage_format,
    Shipments.refundShipment_format, Shipments.refreshRates_format,
    Shipments.countShipments_format, Batches.listBatches_format,
    Batches.createBatch_format, Batches.getBatch_format, Batches.deleteBatch_format,
    Batches.addToBatch_format, Batches.removeFromBatch_format,
    Batches.countBatches_format, Returns.listReturns_format,
    Tracking.trackShipment_format.

Lemma anatomies_render_failure P :
  Forall
    (fun na =>
       forall params response e,
         Client.error response = VStr e ->
         e <> "" ->
         render (snd na) params response = Normal (failure_text (fst na) e))
    (anatomies P).
Proof.
  unfold anatomies.
  repeat (constructor;
          [ cbn [snd fst render]; intros params response e Herror He;
            apply String.eqb_neq in He;
            unfold_formats; rewrite Herror; cbn [truthy];
            rewrite He; cbn [negb template ToString cbind];
            unfold failure_text; cbn [wording failure_wording String.eqb Ascii.eqb
                                        Bool.eqb fst snd];
            rewrite ?append_empty; reflexivity
          | ]).
  constructor.
Qed.

Lemma trackShipment_render_failure P params response e :
  Client.error response = VStr e ->
  e <> "" ->
  Tracking.trackShipment_format P params response
  = Normal (failure_text "chitchats_track_shipment" e).
Proof.
  intros Herror He. apply String.eqb_neq in He.
  unfold_formats; rewrite Herror; cbn [truthy].
  rewrite He. cbn [negb template ToString cbind].
  unfold failure_text.
  cbn [wording failure_wording String.eqb Ascii.eqb Bool.eqb fst snd].
  rewrite !append_empty. reflexivity.
Qed.

Lemma typed_status_text P params t :
  nullish params = false ->
  (Typed (Zod.optional_ Zod.string_) (prop params "status")
   \/ Typed (Zod.optional_ (Zod.enum_ t)) (prop params "status")) ->
  exists text,
    (if truthy (prop params "status")
     then template P [T (" with status " ++ dquote)%string; R params "status"; T dquote]
     else Normal "") = Normal text.
Proof.
  intros Hobj Htyped.
  assert (Hcases : prop params "status" = VUndefined
                   \/ exists s, prop params "status" = VStr s).
  { destruct Htyped as [H|H];
      [now apply typed_optional_string_inv | now apply (typed_optional_enum_inv t)]. }
  destruct Hcases as [Hs | [s Hs]]; rewrite Hs; cbn [truthy].
  - now eexists.
  - destruct (negb (s =? "")%string); [|now eexists].
    cbn [template]. unfold read. rewrite Hobj, Hs. cbn [cbind ToString]. now eexists.
Qed.

Lemma ids_length_text P params prefix rest :
  nullish params = false ->
  Typed (Zod.array_ Zod.string_) (prop params "shipment_ids") ->
  exists n,
    template P (T prefix :: R (prop params "shipment_ids") "length" :: rest)
    = cbind (template P rest) (fun r => Normal (prefix ++ Number_toString n ++ r)).
Proof.
  intros Hobj Htyped. destruct (typed_array_inv _ _ Htyped) as [l Hl].
  exists (Z.of_nat (length l)). rewrite Hl. cbn [template]. unfold read.
  cbn [nullish prop String.eqb Ascii.eqb Bool.eqb cbind ToString].
  destruct (template P rest); reflexivity.
Qed.

Lemma anatomies_render_empty P :
  Forall
    (fun na =>
       forall input params,
         Zod.parse P (shape (snd na)) input = Normal params ->
         exists text, render (snd na) params (failure VUndefined 204) = Normal text)
    (anatomies P).
Proof.
  unfold anatomies.
  repeat (constructor;
          [ cbn [snd shape render]; intros input params Hparse;
            field_facts Hparse;
            unfold_formats; unfold failure;
            cbn [Client.error Client.data truthy or optprop nullish prop is_zero negb
                   coalesce length Z.of_nat];
            try run_template_id;
            first
              [ now eexists
              | match goal with
                | H : Typed _ (prop params "status") |- _ =>
                    first [ destruct (typed_status_text P params [] Hobj (or_introl H))
                              as [text Htext]
                          | destruct (typed_status_text P params _ Hobj (or_intror H))
                              as [text Htext] ];
                    rewrite Htext; cbn [cbind template ToString]; now eexists
                end
              | match goal with
                | H : Typed _ (prop params "shipment_ids") |- _ =>
                    destruct (ids_length_text P params "Successfully added "
                                [T " shipment(s) to batch "; R params "batch_id"; T "."]
                                Hobj H) as [n Hn];
                    rewrite Hn;
                    match goal with
                    | Hb : Typed Zod.string_ (prop params "batch_id") |- _ =>
                        destruct (typed_string_inv _ Hb) as [b Hb'];
                        cbn [template]; unfold read; rewrite Hobj, Hb';
                        cbn [cbind ToString]; now eexists
                    end
                end
              | match goal with
                | H : Typed _ (prop params "shipment_ids") |- _ =>
                    destruct (ids_length_text P params "Successfully removed "
                                [T " shipment(s) from their batches."] Hobj H) as [n Hn];
                    rewrite Hn; cbn [template cbind]; now eexists
                end ]
          | ]).
  constructor.
Qed.

(** *** The requests of a call *)

Lemma anatomy_is_not_tracking P a : ~ In ("chitchats_track_shipment", a) (anatomies P).
Proof.
  intros Hin. apply (in_map fst) in Hin. cbn in Hin.
  repeat (destruct Hin as [Hin | Hin]; [discriminate|]). exact Hin.
Qed.

(** The log of a call: nothing, or the one request of the tool's anatomy,
    or the one request of public tracking. *)
Lemma call_log P env (remote : Fetch.Remote) name args :
  snd (Server.dispatch P env remote name args) = []
  \/ (exists a endpoint body,
        In (name, a) (anatomies P)
        /\ (exists params, prepare a params = Normal (endpoint, body))
        /\ snd (Server.dispatch P env remote name args)
           = [request_of (Client.client env) (verb a) endpoint body])
  \/ (name = "chitchats_track_shipment"
      /\ exists s, snd (Server.dispatch P env remote name args) = [tracking_request env s]).
Proof.
  rewrite dispatch_unfold.
  destruct (Server.switch name (Server.cases P env)) as [c|] eqn:Hcase; [|now left].
  destruct (Zod.parse P (Server.schema c) (Server.parse_input c args)) as [params|e];
    [|now left].
  destruct (dissect P env name c Hcase) as [[Hname [_ Hhandler]] | [a [Hin [_ Hhandler]]]];
    rewrite Hhandler.
  - unfold via_tracking.
    destruct (read P params "id") as [id|e]; [|now left].
    destruct (ToString P id) as [s|e].
    + right. right. split; [exact Hname|]. exists s.
      destruct (Tracking.trackShipment_format P params _); reflexivity.
    + left. destruct (Tracking.trackShipment_format P params _); reflexivity.
  - unfold via_request.
    destruct (prepare a params) as [[endpoint body]|e] eqn:Hprepare; [|now left].
    right. left. exists a, endpoint, body. split; [exact Hin|].
    split; [now exists params|].
    destruct (render a params _); reflexivity.
Qed.

(** X10. No call is retried or fanned out: every call, whatever its name,
    arguments and outcome, sends at most one request. *)
Theorem every_call_sends_at_most_one_request P env (remote : Fetch.Remote) name args :
  (length (snd (Server.dispatch P env remote name args)) <= 1)%nat.
Proof.
  destruct (call_log P env remote name args)
    as [H | [[a [endpoint [body [_ [_ H]]]]] | [_ [s H]]]]; rewrite H; simpl; lia.
Qed.



Lemma read_only_hinted name :
  In (Server.read_only name) Server.tools -> hinted Server.readOnlyHint name = true.
Proof.
  intros Hin. unfold hinted. apply existsb_exists. exists (Server.read_only name).
  split; [exact Hin|]. cbn. now rewrite String.eqb_refl.
Qed.

Lemma destructive_hinted name :
  In (Server.destructive name) Server.tools -> hinted Server.destructiveHint name = true.
Proof.
  intros Hin. unfold hinted. apply existsb_exists. exists (Server.destructive name).
  split; [exact Hin|]. cbn. now rewrite String.eqb_refl.
Qed.

(** The method of each anatomy against the annotations of its tool, and the
    absence of a body under GET and DELETE. *)
Lemma anatomies_verbs P :
  Forall
    (fun na =>
       (hinted Server.readOnlyHint (fst na) = true -> verb (snd na) = "GET")
       /\ (hinted Server.destructiveHint (fst na) = true -> verb (snd na) = "DELETE")
       /\ (verb (snd na) = "GET" \/ verb (snd na) = "DELETE" ->
           forall params endpoint body,
             prepare (snd na) params = Normal (endpoint, body) -> body = VUndefined))
    (anatomies P).
Proof.
  unfold anatomies.
  repeat (constructor;
          [ cbn [fst snd verb prepare]; split; [|split];
            [ vm_compute; intros; congruence
            | vm_compute; intros; congruence
            | intros [Hv | Hv]; try discriminate Hv;
              intros params endpoint body; unfold at_endpoint, cbind;
              match goal with
              | |- match ?c with Normal _ => _ | Throw _ => _ end = _ -> _ =>
                  destruct c; intros H; [now injection H | discriminate H]
              end ]
          | ]).
  constructor.
Qed.

(** X12. The annotations match the methods: a request sent by a tool
    annotated read-only is a GET without a body, and a request sent by a
    tool annotated destructive is a DELETE without a body. *)
Theorem annotated_tools_use_the_matching_method
  P env (remote : Fetch.Remote) name args req :
  In req (snd (Server.dispatch P env remote name args)) ->
  (In (Server.read_only name) Server.tools ->
   Fetch.method req = "GET" /\ Fetch.body req = None)
  /\ (In (Server.destructive name) Server.tools ->
      Fetch.method req = "DELETE" /\ Fetch.body req = None).
Proof.
  intros Hreq.
  destruct (call_log P env remote name args)
    as [H | [[a [endpoint [body [Hin [[params Hprepare] H]]]]] | [Hname [s H]]]];
    rewrite H in Hreq; simpl in Hreq; [contradiction | |];
    destruct Hreq as [<- | []].
  - pose proof (anatomies_verbs P) as Hall. rewrite Forall_forall in Hall.
    destruct (Hall (name, a) Hin) as [Hget [Hdelete Hbody]]. cbn [fst snd] in *.
    split; intros Hhint.
    + pose proof (Hget (read_only_hinted _ Hhint)) as Hverb.
      rewrite (Hbody (or_introl Hverb) params endpoint body Hprepare).
      now rewrite Hverb.
    + pose proof (Hdelete (destructive_hinted _ Hhint)) as Hverb.
      rewrite (Hbody (or_intror Hverb) params endpoint body Hprepare).
      now rewrite Hverb.
  - subst name. split; intros Hhint; [now split|].
    apply destructive_hinted in Hhint. discriminate Hhint.
Qed.

Lemma annotated_tools_use_the_matching_method_witness :
  (In (Server.read_only "chitchats_delete_shipment") Server.tools ->
   Fetch.method (request_of (Client.client Sample.env) "DELETE" "/shipments/S1" VUndefined)
   = "GET"
   /\ Fetch.body (request_of (Client.client Sample.env) "DELETE" "/shipments/S1" VUndefined)
      = None)
  /\ (In (Server.destructive "chitchats_delete_shipment") Server.tools ->
      Fetch.method (request_of (Client.client Sample.env) "DELETE" "/shipments/S1" VUndefined)
      = "DELETE"
      /\ Fetch.body (request_of (Client.client Sample.env) "DELETE" "/shipments/S1" VUndefined)
         = None).
Proof.
  apply (annotated_tools_use_the_matching_method Node.node Sample.env
           (Sample.always (Sample.response 204 None (Throw NotAnError)))
           "chitchats_delete_shipment" (VObj [("id", VStr "S1")])).
  vm_compute. now left.
Defined.

Lemma request_of_content_type this method endpoint body :
  In ("Content-Type", "application/json")
    (Fetch.headers (request_of this method endpoint body))
  <-> exists text, Fetch.body (request_of this method endpoint body) = Some text.
Proof.
  unfold request_of. cbn [Fetch.headers Fetch.body].
  destruct (truthy body) eqn:Htruthy.
  - split; [intros _ | intros _; cbn; tauto].
    destruct body as [| |[|]|n|t|l|props]; try discriminate Htruthy; cbn; now eexists.
  - split; [intros [H|[H|[]]]; discriminate H | intros [text H]; discriminate H].
Qed.

(** X13. Where a call's request goes and what it carries: the address
    starts with the configured base address; the public tracking request
    has no header at all, every other request carries the access token
    under Authorization; and Content-Type is announced exactly when a
    body is sent. *)
Theorem requests_carry_the_token_except_tracking
  P env (remote : Fetch.Remote) name args req :
  In req (snd (Server.dispatch P env remote name args)) ->
  (exists rest, Fetch.url req = Client.BASE_URL env ++ rest)
  /\ (if (name =? "chitchats_track_shipment")%string
      then Fetch.headers req = []
      else In ("Authorization", Client.or_else (Client.ACCESS_TOKEN env) "")
             (Fetch.headers req))
  /\ (In ("Content-Type", "application/json") (Fetch.headers req)
      <-> exists text, Fetch.body req = Some text).
Proof.
  intros Hreq.
  destruct (call_log P env remote name args)
    as [H | [[a [endpoint [body [Hin [_ H]]]]] | [Hname [s H]]]];
    rewrite H in Hreq; simpl in Hreq; [contradiction | |];
    destruct Hreq as [<- | []].
  - split; [|split].
    + exists ("/api/v1/clients/" ++ Client.interpolate (Client.CLIENT_ID env) ++ endpoint).
      cbn. now rewrite !append_assoc.
    + destruct (String.eqb_spec name "chitchats_track_shipment") as [->|_];
        [destruct (anatomy_is_not_tracking P a Hin)|].
      cbn. destruct (truthy body); now left.
    + apply request_of_content_type.
  - subst name. split; [|split].
    + now exists ("/tracking/" ++ s ++ ".json").
    + reflexivity.
    + cbn. split; [contradiction | intros [text Htext]; discriminate Htext].
Qed.

Lemma requests_carry_the_token_except_tracking_witness :
  (exists rest,
      Fetch.url (request_of (Client.client Sample.env) "POST" "/batches"
                   (VObj [("description", VStr "Monday")]))
      = Client.BASE_URL Sample.env ++ rest)
  /\ In ("Authorization", "tok")
       (Fetch.headers (request_of (Client.client Sample.env) "POST" "/batches"
                         (VObj [("description", VStr "Monday")])))
  /\ (In ("Content-Type", "application/json")
        (Fetch.headers (request_of (Client.client Sample.env) "POST" "/batches"
                          (VObj [("description", VStr "Monday")])))
      <-> exists text,
          Fetch.body (request_of (Client.client Sample.env) "POST" "/batches"
                        (VObj [("description", VStr "Monday")]))
          = Some text).
Proof.
  apply (requests_carry_the_token_except_tracking Node.node Sample.env
           (Sample.always Sample.bad_gateway) "chitchats_create_batch"
           (VObj [("description", VStr "Monday")])).
  vm_compute. now left.
Defined.

(** *** What a call answers *)

(** X14. A failure of the remote call is reported as text, not as an MCP
    error: when the client hands a tool a non-empty error message, the call
    answers that message in the tool's own wording, without isError, after
    exactly one request. *)
Theorem remote_failure_is_worded_per_tool
  P env (remote : Fetch.Remote) name c args params e :
  Server.switch name (Server.cases P env) = Some c ->
  Zod.parse P (Server.schema c) (Server.parse_input c args) = Normal params ->
  (forall req, Client.error (client_result P name (remote req)) = VStr e) ->
  e <> "" ->
  exists req,
    Server.dispatch P env remote name args
    = (Normal {| Server.content := Server.text_content (failure_text name e);
                 Server.isError := None |},
       [req]).
Proof.
  intros Hcase Hparse Herror He. rewrite dispatch_unfold, Hcase, Hparse.
  destruct (dissect P env name c Hcase)
    as [[Hname [Hschema Hhandler]] | [a [Hin [Hschema Hhandler]]]]; rewrite Hhandler.
  - subst name. rewrite Hschema in Hparse. field_facts Hparse.
    destruct (typed_string_inv _ Hfield) as [s Hs].
    unfold via_tracking, read. rewrite Hobj, Hs. cbn [ToString app].
    specialize (Herror (tracking_request env s)).
    change (client_result P "chitchats_track_shipment" (remote (tracking_request env s)))
      with (tracked (remote (tracking_request env s))) in Herror.
    rewrite (trackShipment_render_failure P params _ e Herror He).
    eexists; reflexivity.
  - assert (Hnot : (name =? "chitchats_track_shipment")%string = false).
    { destruct (String.eqb_spec name "chitchats_track_shipment") as [->|_];
        [destruct (anatomy_is_not_tracking P a Hin) | reflexivity]. }
    unfold client_result in Herror. rewrite Hnot in Herror.
    rewrite Hschema in Hparse.
    pose proof (anatomies_prepare P) as Hall. rewrite Forall_forall in Hall.
    destruct (Hall (name, a) Hin _ _ Hparse) as [endpoint [body Hprepare]].
    cbn [snd] in Hprepare. unfold via_request. rewrite Hprepare. cbn [app].
    pose proof (anatomies_render_failure P) as Hfail. rewrite Forall_forall in Hfail.
    pose proof (Hfail (name, a) Hin params _ e
                  (Herror (request_of (Client.client env) (verb a) endpoint body)) He)
      as Htext.
    cbn [fst snd] in Htext. rewrite Htext.
    eexists; reflexivity.
Qed.

Lemma remote_failure_is_worded_per_tool_witness :
  exists req,
    Server.dispatch Node.node Sample.env (Sample.always Sample.not_found)
      "chitchats_delete_batch" (VObj [("id", VStr "B7")])
    = (Normal {| Server.content :=
                   Server.text_content
                     "Error deleting batch: not found. Note: Only empty batches can be deleted.";
                 Server.isError := None |},
       [req]).
Proof.
  refine (remote_failure_is_worded_per_tool Node.node Sample.env
            (Sample.always Sample.not_found) "chitchats_delete_batch"
            (Server.case_ Schemas.DeleteBatchSchema false
               (Batches.deleteBatch Node.node Sample.env))
            (VObj [("id", VStr "B7")]) (VObj [("id", VStr "B7")]) "not found"
            eq_refl eq_refl (fun _ => eq_refl) _).
  discriminate.
Defined.

(** X15. An answer without content is not a fault: when the remote
    answers 204 to a call of an authenticated tool whose arguments
    validate, the call returns a text, without isError, after exactly one
    request; no read of the missing data throws. *)
Theorem no_content_answer_never_faults
  P env (remote : Fetch.Remote) name c args params :
  Server.switch name (Server.cases P env) = Some c ->
  (name =? "chitchats_track_shipment")%string = false ->
  Zod.parse P (Server.schema c) (Server.parse_input c args) = Normal params ->
  (forall req, exists resp, remote req = Normal resp /\ Fetch.status resp = 204) ->
  exists text req,
    Server.dispatch P env remote name args
    = (Normal {| Server.content := Server.text_content text; Server.isError := None |},
       [req]).
Proof.
  intros Hcase Hname Hparse Hremote. rewrite dispatch_unfold, Hcase, Hparse.
  destruct (dissect P env name c Hcase)
    as [[Htracking _] | [a [Hin [Hschema Hhandler]]]];
    [subst name; discriminate Hname|].
  rewrite Hhandler, Hschema in *.
  pose proof (anatomies_prepare P) as Hall. rewrite Forall_forall in Hall.
  destruct (Hall (name, a) Hin _ _ Hparse) as [endpoint [body Hprepare]].
  cbn [snd] in Hprepare. unfold via_request. rewrite Hprepare. cbn [app].
  destruct (Hremote (request_of (Client.client env) (verb a) endpoint body))
    as [resp [Hresp Hstatus]].
  rewrite Hresp. unfold normalized. rewrite Hstatus. cbn [Z.eqb Pos.eqb].
  pose proof (anatomies_render_empty P) as Hempty. rewrite Forall_forall in Hempty.
  destruct (Hempty (name, a) Hin _ _ Hparse) as [text Htext].
  cbn [snd] in Htext. rewrite Htext.
  do 2 eexists; reflexivity.
Qed.

Lemma no_content_answer_never_faults_witness :
  exists text req,
    Server.dispatch Node.node Sample.env
      (Sample.always (Sample.response 204 None (Throw NotAnError)))
      "chitchats_get_shipment" (VObj [("id", VStr "S1")])
    = (Normal {| Server.content := Server.text_content text; Server.isError := None |},
       [req]).
Proof.
  refine (no_content_answer_never_faults Node.node Sample.env
            (Sample.always (Sample.response 204 None (Throw NotAnError)))
            "chitchats_get_shipment"
            (Server.case_ Schemas.GetShipmentSchema false
               (Shipments.getShipment Node.node Sample.env))
            (VObj [("id", VStr "S1")]) (VObj [("id", VStr "S1")])
            eq_refl eq_refl eq_refl _).
  intros req. eexists. split; reflexivity.
Defined.

(** X16. The call handler never rejects: whatever the name, the arguments
    and the remote do, a call answers one text item, and the isError key is
    either absent or true, never false. *)
Theorem call_always_answers_one_text P env (remote : Fetch.Remote) name args :
  exists text flag,
    fst (Server.dispatch P env remote name args)
    = Normal {| Server.content := [ {| Server.type := "text"; Server.text := text |} ];
                Server.isError := flag |}
    /\ (flag = None \/ flag = Some true).
Proof.
  rewrite dispatch_unfold.
  destruct (Server.switch name (Server.cases P env)) as [c|];
    [|do 2 eexists; split; [reflexivity | now right]].
  destruct (Zod.parse P (Server.schema c) (Server.parse_input c args)) as [params|e];
    [|do 2 eexists; split; [reflexivity | now right]].
  destruct (Server.handler c params remote []) as [[t|e] log];
    do 2 eexists; (split; [reflexivity | tauto]).
Qed.

Lemma switch_known name (cs : list (string * Server.Case)) :
  In name (map fst cs) -> exists c, Server.switch name cs = Some c.
Proof.
  induction cs as [|[n c] cs IH]; simpl; [contradiction|].
  intros Hin. destruct (String.eqb_spec n name) as [->|Hne]; [now eexists|].
  destruct Hin as [Heq | Hin]; [contradiction | now apply IH].
Qed.

(** X17. The catalogue and the switch agree: no name is advertised twice,
    and a name has a case in the switch exactly when the catalogue
    advertises it. *)
Theorem advertised_tools_are_exactly_the_cases P env name :
  NoDup (map Server.name Server.tools)
  /\ (In name (map Server.name Server.tools)
      <-> exists c, Server.switch name (Server.cases P env) = Some c).
Proof.
  split.
  - cbn.
    repeat (constructor;
            [ cbn; intros H; repeat (destruct H as [H|H]; [discriminate H|]); exact H |]).
    constructor.
  - split.
    + intros Hin. apply switch_known. now rewrite case_names.
    + intros [c Hc]. apply switch_In in Hc. rewrite <- (case_names P env).
      apply (in_map fst) in Hc. exact Hc.
Qed.

Lemma acknowledging_render P :
  Forall
    (fun na =>
       In (fst na) acknowledging ->
       forall params r1 r2,
         truthy (Client.error r1) = false ->
         truthy (Client.error r2) = false ->
         render (snd na) params r1 = render (snd na) params r2)
    (anatomies P).
Proof.
  unfold anatomies.
  repeat (constructor;
          [ cbn [fst snd render]; intros Hin params r1 r2 H1 H2;
            first [ exfalso; cbn in Hin;
                    repeat (destruct Hin as [Hin|Hin]; [discriminate Hin|]); exact Hin
                  | unfold_formats; rewrite H1, H2; reflexivity ]
          | ]).
  constructor.
Qed.

(** X18. The acknowledging tools (delete and refund a shipment, delete a
    batch, add to and remove from a batch) do not read the answer: two
    remotes that both answer without an error give the same call the same
    result, built from the arguments alone. *)
Theorem acknowledgements_do_not_read_the_answer
  P env (remote1 remote2 : Fetch.Remote) name args :
  In name acknowledging ->
  (forall req, truthy (Client.error (normalized P (remote1 req))) = false) ->
  (forall req, truthy (Client.error (normalized P (remote2 req))) = false) ->
  Server.dispatch P env remote1 name args = Server.dispatch P env remote2 name args.
Proof.
  intros Hname H1 H2. rewrite !dispatch_unfold.
  destruct (Server.switch name (Server.cases P env)) as [c|] eqn:Hcase; [|reflexivity].
  destruct (Zod.parse P (Server.schema c) (Server.parse_input c args)) as [params|e];
    [|reflexivity].
  destruct (dissect P env name c Hcase)
    as [[Htracking _] | [a [Hin [_ Hhandler]]]].
  - exfalso. subst name. cbn in Hname.
    repeat (destruct Hname as [Hname|Hname]; [discriminate Hname|]). exact Hname.
  - rewrite !Hhandler. unfold via_request.
    destruct (prepare a params) as [[endpoint body]|e]; [|reflexivity].
    pose proof (acknowledging_render P) as Hall. rewrite Forall_forall in Hall.
    pose proof (Hall (name, a) Hin Hname params _ _
                  (H1 (request_of (Client.client env) (verb a) endpoint body))
                  (H2 (request_of (Client.client env) (verb a) endpoint body))) as Hsame.
    cbn [snd] in Hsame. now rewrite Hsame.
Qed.

Lemma acknowledgements_do_not_read_the_answer_witness :
  Server.dispatch Node.node Sample.env
    (Sample.always (Sample.response 204 None (Throw NotAnError)))
    "chitchats_delete_batch" (VObj [("id", VStr "B7")])
  = Server.dispatch Node.node Sample.env
      (Sample.always (Sample.ok_json (VObj [("batch", VObj [("id", VStr "other")])])))
      "chitchats_delete_batch" (VObj [("id", VStr "B7")]).
Proof.
  apply (acknowledgements_do_not_read_the_answer Node.node Sample.env
           (Sample.always (Sample.response 204 None (Throw NotAnError)))
           (Sample.always (Sample.ok_json (VObj [("batch", VObj [("id", VStr "other")])])))
           "chitchats_delete_batch" (VObj [("id", VStr "B7")])).
  - cbn. tauto.
  - intros req. reflexivity.
  - intros req. reflexivity.
Defined.

(** *** What a valid call requests *)

(** The request of a valid call of an authenticated tool, by its anatomy. *)
Lemma valid_call_request P env (remote : Fetch.Remote) name c args params :
  Server.switch name (Server.cases P env) = Some c ->
  Zod.parse P (Server.schema c) (Server.parse_input c args) = Normal params ->
  (name =? "chitchats_track_shipment")%string = false ->
  exists a endpoint body,
    In (name, a) (anatomies P)
    /\ Zod.parse P (shape a) (Server.parse_input c args) = Normal params
    /\ prepare a params = Normal (endpoint, body)
    /\ snd (Server.dispatch P env remote name args)
       = [request_of (Client.client env) (verb a) endpoint body].
Proof.
  intros Hcase Hparse Hname. rewrite dispatch_unfold, Hcase, Hparse.
  destruct (dissect P env name c Hcase)
    as [[Htracking _] | [a [Hin [Hschema Hhandler]]]];
    [subst name; discriminate Hname|].
  rewrite Hhandler. rewrite Hschema in Hparse.
  pose proof (anatomies_prepare P) as Hall. rewrite Forall_forall in Hall.
  destruct (Hall (name, a) Hin _ _ Hparse) as [endpoint [body Hprepare]].
  cbn [snd] in Hprepare. exists a, endpoint, body.
  split; [exact Hin|]. split; [exact Hparse|]. split; [exact Hprepare|].
  unfold via_request. rewrite Hprepare. cbn [app].
  destruct (render a params _); reflexivity.
Qed.

Lemma request_of_body_none this method endpoint body :
  Fetch.body (request_of this method endpoint body) = None <-> truthy body = false.
Proof.
  unfold request_of. cbn [Fetch.body].
  destruct (truthy body) eqn:Htruthy; [|tauto].
  split; [|discriminate].
  destruct body as [| |[|]|n|t|l|props]; try discriminate Htruthy; cbn; discriminate.
Qed.

Lemma refreshRates_body_spec P :
  Forall
    (fun na =>
       fst na = "chitchats_refresh_rates" ->
       forall input params endpoint body,
         Zod.parse P (shape (snd na)) input = Normal params ->
         prepare (snd na) params = Normal (endpoint, body) ->
         (truthy body = false
          <-> Forall (fun k => truthy (prop params k) = false) dimensions))
    (anatomies P).
Proof.
  unfold anatomies.
  repeat (constructor;
          [ cbn [fst]; intros Hname; try discriminate Hname;
            cbn [snd shape prepare]; intros input params endpoint body Hparse;
            field_facts Hparse;
            unfold Shipments.refreshRates_body, read; rewrite Hobj; cbn [cbind];
            run_template_id; cbn [cbind]; unfold assign_if, dimensions;
            destruct (truthy (prop params "size_x")) eqn:Hx;
            destruct (truthy (prop params "size_y")) eqn:Hy;
            destruct (truthy (prop params "size_z")) eqn:Hz;
            destruct (truthy (prop params "weight")) eqn:Hw;
            cbn [app length Z.of_nat Z.ltb Z.compare Pos.of_succ_nat Pos.succ];
            intros Hprepare; injection Hprepare as _ <-; cbn [truthy];
            (split;
             [ intros Hbody; try discriminate Hbody; repeat constructor; assumption
             | intros Hall;
               repeat match goal with
                 | H : Forall _ (_ :: _) |- _ => inversion H; clear H; subst
                 end;
               congruence ])
          | ]).
  constructor.
Qed.

(** X19. Refreshing rates sends a body only when there is something in
    it: the request of a valid call has no body exactly when every
    dimension (size_x, size_y, size_z, weight) is absent or zero. *)
Theorem refresh_rates_sends_a_body_only_with_a_dimension
  P env (remote : Fetch.Remote) args params req :
  Zod.parse P Schemas.RefreshRatesSchema args = Normal params ->
  In req (snd (Server.dispatch P env remote "chitchats_refresh_rates" args)) ->
  (Fetch.body req = None
   <-> Forall (fun k => truthy (prop params k) = false) dimensions).
Proof.
  intros Hparse Hreq.
  destruct (valid_call_request P env remote "chitchats_refresh_rates"
              (Server.case_ Schemas.RefreshRatesSchema false
                 (Shipments.refreshRates P env))
              args params eq_refl Hparse eq_refl)
    as [a [endpoint [body [Hin [Hshape [Hprepare Hlog]]]]]].
  rewrite Hlog in Hreq. destruct Hreq as [<- | []].
  rewrite request_of_body_none.
  pose proof (refreshRates_body_spec P) as Hall. rewrite Forall_forall in Hall.
  exact (Hall ("chitchats_refresh_rates", a) Hin eq_refl _ params endpoint body
           Hshape Hprepare).
Qed.

Lemma refresh_rates_sends_a_body_only_with_a_dimension_witness :
  Fetch.body (request_of (Client.client Sample.env) "PATCH" "/shipments/S1/refresh"
                VUndefined)
  = None
  <-> Forall (fun k => truthy (prop (VObj [("id", VStr "S1"); ("size_x", VNum 0)]) k) = false)
        dimensions.
Proof.
  apply (refresh_rates_sends_a_body_only_with_a_dimension Node.node Sample.env
           (Sample.always Sample.bad_gateway)
           (VObj [("id", VStr "S1"); ("size_x", VNum 0)])
           (VObj [("id", VStr "S1"); ("size_x", VNum 0)])).
  - reflexivity.
  - vm_compute. now left.
Defined.

Lemma parsed_field_of_input P shape input params k t :
  Zod.parse P shape input = Normal params ->
  In (k, t) shape ->
  prop params k = prop input k.
Proof.
  unfold Zod.parse. destruct input; try discriminate.
  destruct (Zod.object_issues shape props); [|discriminate].
  intros H Hin. injection H as <-. cbn [prop].
  pose proof (object_output_keeps_declared shape props (k, t) Hin) as Hkeep.
  cbn [fst] in Hkeep. now rewrite Hkeep.
Qed.

Lemma id_routes_prepare P :
  Forall
    (fun na =>
       forall prefix suffix,
         In (fst na, (prefix, suffix)) id_routes ->
         In ("id", Zod.string_) (shape (snd na))
         /\ forall input params endpoint body,
              Zod.parse P (shape (snd na)) input = Normal params ->
              prepare (snd na) params = Normal (endpoint, body) ->
              exists id, prop params "id" = VStr id
                         /\ endpoint = (prefix ++ id ++ suffix)%string)
    (anatomies P).
Proof.
  unfold anatomies.
  repeat (constructor;
          [ cbn [fst]; intros prefix suffix Hroute; cbn in Hroute;
            repeat (destruct Hroute as [Hroute|Hroute]; [try discriminate Hroute|]);
            first
              [ contradiction
              | injection Hroute as <- <-;
                (split; [now left|]);
                cbn [snd shape prepare]; intros input params endpoint body Hparse;
                field_facts Hparse;
                unfold at_endpoint, Shipments.refreshRates_body, read;
                rewrite ?Hobj; cbn [cbind];
                run_template_id; cbn [cbind];
                intros Hprepare; injection Hprepare as <- _;
                eexists; split; [eassumption | now rewrite ?append_empty] ]
          | ]).
  constructor.
Qed.

(** X20. The identifier reaches the address as it was given: for each of
    the ten authenticated tools that take an id, a valid call sends one
    request whose address is the client's base address, the tool's path
    prefix, the id character for character (nothing is escaped), and the
    tool's suffix. *)
Theorem identifier_is_spliced_verbatim
  P env (remote : Fetch.Remote) name prefix suffix c args params :
  In (name, (prefix, suffix)) id_routes ->
  Server.switch name (Server.cases P env) = Some c ->
  Zod.parse P (Server.schema c) (Server.parse_input c args) = Normal params ->
  exists id req,
    prop args "id" = VStr id
    /\ snd (Server.dispatch P env remote name args) = [req]
    /\ Fetch.url req
       = (Client.baseUrl (Client.client env) ++ prefix ++ id ++ suffix)%string.
Proof.
  intros Hroute Hcase Hparse.
  assert (Hname : (name =? "chitchats_track_shipment")%string = false).
  { cbn in Hroute.
    repeat (destruct Hroute as [Hroute|Hroute]; [now injection Hroute as <- _ _|]).
    contradiction. }
  destruct (valid_call_request P env remote name c args params Hcase Hparse Hname)
    as [a [endpoint [body [Hin [Hshape [Hprepare Hlog]]]]]].
  pose proof (id_routes_prepare P) as Hall. rewrite Forall_forall in Hall.
  destruct (Hall (name, a) Hin prefix suffix Hroute) as [Hdeclared Hendpoint].
  cbn [snd] in Hdeclared, Hendpoint.
  destruct (Hendpoint _ params endpoint body Hshape Hprepare) as [id [Hid ->]].
  exists id. eexists. split; [|split; [exact Hlog | reflexivity]].
  rewrite (parsed_field_of_input P _ _ _ "id" _ Hshape Hdeclared) in Hid.
  unfold Server.parse_input, or in Hid.
  destruct (Server.args_or_empty c); [|exact Hid].
  destruct (truthy args); [exact Hid | discriminate Hid].
Qed.

Lemma identifier_is_spliced_verbatim_witness :
  exists id req,
    prop (VObj [("id", VStr "S1/refund?x=1")]) "id" = VStr id
    /\ snd (Server.dispatch Node.node Sample.env (Sample.always Sample.not_found)
              "chitchats_get_shipment" (VObj [("id", VStr "S1/refund?x=1")]))
       = [req]
    /\ Fetch.url req
       = (Client.baseUrl (Client.client Sample.env) ++ "/shipments/" ++ id ++ "")%string.
Proof.
  refine (identifier_is_spliced_verbatim Node.node Sample.env
            (Sample.always Sample.not_found) "chitchats_get_shipment" "/shipments/" ""
            (Server.case_ Schemas.GetShipmentSchema false
               (Shipments.getShipment Node.node Sample.env))
            (VObj [("id", VStr "S1/refund?x=1")]) (VObj [("id", VStr "S1/refund?x=1")])
            _ eq_refl eq_refl).
  cbn. tauto.
Defined.

(** *** The query of the list and count tools *)

Lemma URLSearchParams_set_fresh (q : URLSearchParams) name val :
  ~ In name (map fst q) -> URLSearchParams_set q name val = (q ++ [(name, val)])%list.
Proof.
  induction q as [|[k v] q IH]; simpl; intros Hfresh; [reflexivity|].
  destruct (String.eqb_spec k name) as [->|Hne].
  - exfalso. apply Hfresh. now left.
  - f_equal. apply IH. intros Hin. apply Hfresh. now right.
Qed.

Lemma filter_entry_keys params k x : In x (map fst (filter_entry params k)) -> x = k.
Proof.
  unfold filter_entry. destruct (prop params k) as [| |b|n|s|l|props]; try contradiction.
  - destruct (n =? 0); [contradiction|]. now intros [<- | []].
  - destruct (s =? "")%string; [contradiction|]. now intros [<- | []].
Qed.

Lemma set_if_text_entry P (q : URLSearchParams) k params :
  prop params k = VUndefined \/ (exists s, prop params k = VStr s) ->
  ~ In k (map fst q) ->
  set_if q k (prop params k) (ToString P (prop params k))
  = Normal (q ++ filter_entry params k)%list.
Proof.
  intros Htyped Hfresh. unfold set_if, filter_entry.
  destruct Htyped as [-> | [s ->]]; cbn [truthy ToString].
  - now rewrite app_nil_r.
  - destruct (s =? "")%string; cbn [negb cbind].
    + now rewrite app_nil_r.
    + now rewrite URLSearchParams_set_fresh.
Qed.

Lemma set_if_number_entry P (q : URLSearchParams) k expr params :
  prop params k = VUndefined \/ (exists n, prop params k = VNum n) ->
  ~ In k (map fst q) ->
  set_if q k (prop params k) (call_toString P expr (prop params k))
  = Normal (q ++ filter_entry params k)%list.
Proof.
  intros Htyped Hfresh. unfold set_if, filter_entry.
  destruct Htyped as [-> | [n ->]]; cbn [truthy call_toString ToString].
  - now rewrite app_nil_r.
  - destruct (n =? 0); cbn [negb cbind].
    + now rewrite app_nil_r.
    + now rewrite URLSearchParams_set_fresh.
Qed.

(** A key that no earlier [set] has used. *)
Ltac fresh_key H :=
  first [ apply in_app_or in H; destruct H as [H|H]; [fresh_key H | fresh_key H]
        | apply filter_entry_keys in H; discriminate H
        | solve [inversion H] ].

Ltac run_filters :=
  repeat match goal with
    | |- context [set_if ?q ?k (prop ?params ?k) (ToString ?P (prop ?params ?k))] =>
        rewrite (set_if_text_entry P q k params);
        [ cbn [cbind]
        | first [ apply typed_optional_string_inv; assumption
                | eapply typed_optional_enum_inv; eassumption ]
        | let H := fresh "Hin" in intros H; rewrite ?map_app in H; fresh_key H ]
    | |- context [set_if ?q ?k (prop ?params ?k) (call_toString ?P ?expr (prop ?params ?k))] =>
        rewrite (set_if_number_entry P q k expr params);
        [ cbn [cbind]
        | eapply typed_optional_number_inv; eassumption
        | let H := fresh "Hin" in intros H; rewrite ?map_app in H; fresh_key H ]
    end.

Lemma filters_prepare P :
  Forall
    (fun na =>
       forall path keys,
         In (fst na, (path, keys)) filters ->
         verb (snd na) = "GET"
         /\ forall input params endpoint body,
              Zod.parse P (shape (snd na)) input = Normal params ->
              prepare (snd na) params = Normal (endpoint, body) ->
              endpoint = with_query path (query_of params keys) /\ body = VUndefined)
    (anatomies P).
Proof.
  unfold anatomies.
  repeat (constructor;
          [ cbn [fst]; intros path keys Hfilter; cbn in Hfilter;
            repeat (destruct Hfilter as [Hfilter|Hfilter]; [try discriminate Hfilter|]);
            first
              [ contradiction
              | injection Hfilter as <- <-;
                (split; [reflexivity|]);
                cbn [snd shape prepare]; intros input params endpoint body Hparse;
                field_facts Hparse;
                unfold at_endpoint, Shipments.listShipments_endpoint,
                  Shipments.countShipments_endpoint, Batches.listBatches_endpoint,
                  Batches.countBatches_endpoint, Returns.listReturns_endpoint, read;
                rewrite Hobj; cbn [cbind];
                run_filters;
                intros Hprepare; injection Hprepare as <- <-;
                (split; [|reflexivity]);
                unfold query_of; cbn [flat_map];
                rewrite <- ?app_assoc, ?app_nil_r; reflexivity ]
          | ]).
  constructor.
Qed.

Lemma query_of_nothing params keys :
  Forall (fun k => truthy (prop params k) = false) keys -> query_of params keys = [].
Proof.
  unfold query_of. induction 1 as [|k keys Hk _ IH]; [reflexivity|].
  cbn [flat_map]. rewrite IH, app_nil_r. unfold filter_entry.
  destruct (prop params k) as [| |b|n|s|l|props]; try reflexivity; cbn [truthy] in Hk.
  - now destruct (n =? 0).
  - now destruct (s =? "")%string.
Qed.

(** X21. What the list and count tools ask for: a valid call sends one
    GET without a body whose query holds the filters that are present and
    neither zero nor empty, once each, in the order of the schema; with no
    such filter the address has no query at all. *)
Theorem filters_reach_the_query_in_order
  P env (remote : Fetch.Remote) name path keys c args params :
  In (name, (path, keys)) filters ->
  Server.switch name (Server.cases P env) = Some c ->
  Zod.parse P (Server.schema c) (Server.parse_input c args) = Normal params ->
  snd (Server.dispatch P env remote name args)
  = [request_of (Client.client env) "GET" (with_query path (query_of params keys))
       VUndefined]
  /\ (Forall (fun k => truthy (prop params k) = false) keys ->
      with_query path (query_of params keys) = path).
Proof.
  intros Hfilter Hcase Hparse. split.
  - assert (Hname : (name =? "chitchats_track_shipment")%string = false).
    { cbn in Hfilter.
      repeat (destruct Hfilter as [Hfilter|Hfilter]; [now injection Hfilter as <- _ _|]).
      contradiction. }
    destruct (valid_call_request P env remote name c args params Hcase Hparse Hname)
      as [a [endpoint [body [Hin [Hshape [Hprepare Hlog]]]]]].
    pose proof (filters_prepare P) as Hall. rewrite Forall_forall in Hall.
    destruct (Hall (name, a) Hin path keys Hfilter) as [Hverb Hendpoint].
    cbn [snd] in Hverb, Hendpoint.
    destruct (Hendpoint _ params endpoint body Hshape Hprepare) as [-> ->].
    now rewrite Hlog, Hverb.
  - intros Hnone. unfold with_query.
    rewrite (query_of_nothing params keys Hnone). cbn. now rewrite append_empty.
Qed.

Lemma filters_reach_the_query_in_order_witness :
  snd (Server.dispatch Node.node Sample.env (Sample.always Sample.not_found)
         "chitchats_list_shipments"
         (VObj [("search", VStr "a b&c"); ("status", VStr "")]))
  = [Sample.get_request "https://chitchats.com/api/v1/clients/c1/shipments?search=a+b%26c"]
  /\ (Forall
        (fun k => truthy (prop (VObj [("status", VStr ""); ("search", VStr "a b&c")]) k)
                  = false)
        ["limit"; "page"; "batch_id"; "status"; "from_date"; "to_date"; "search"] ->
      with_query "/shipments"
        (query_of (VObj [("status", VStr ""); ("search", VStr "a b&c")])
           ["limit"; "page"; "batch_id"; "status"; "from_date"; "to_date"; "search"])
      = "/shipments").
Proof.
  exact (filters_reach_the_query_in_order Node.node Sample.env
           (Sample.always Sample.not_found) "chitchats_list_shipments" "/shipments"
           ["limit"; "page"; "batch_id"; "status"; "from_date"; "to_date"; "search"]
           (Server.case_ Schemas.ListShipmentsSchema true
              (Shipments.listShipments Node.node Sample.env))
           (VObj [("search", VStr "a b&c"); ("status", VStr "")])
           (VObj [("status", VStr ""); ("search", VStr "a b&c")])
           (or_introl eq_refl) eq_refl eq_refl).
Defined.
